(** * habitTracker: the temporal analytics core

    A shallow embedding of [src/utils/dateUtils.ts], [src/utils/habitUtils.ts]
    and of [getHabitStats] in [src/hooks/useHabits.ts], with the properties
    the specification states about streaks, completion rates and the
    dashboard statistics.

    Conventions of the embedding.

    - A JavaScript [Date] is the number of milliseconds since the epoch, read
      in the client's local time zone; the zone is taken to have a fixed
      offset (no daylight-saving shifts), so a local calendar day is a block
      of [MS_PER_DAY] milliseconds.  The wall clock ([new Date()],
      [Date.now()]) is the explicit parameter [now].
    - A date string ['YYYY-MM-DD'] is represented by the index of the calendar
      day it names (days since 1970-01-01); [ymd y m d] writes one down.
      On well-formed strings [===] is equality of indices and
      [a.localeCompare(b)] is the order of indices: valid civil dates and
      day indices correspond one to one, in the same order
      ([days_from_civil_from_days], [civil_from_days_from_civil],
      [ymd_before]).
    - Weekday names and the schedule are real strings.
    - [Math.round (p / q)] is computed on exact rationals. *)

From Stdlib Require Import ZArith List Bool String Lia Permutation.
Import ListNotations.
Open Scope Z_scope.

(** ** The host's [Date] object *)

Module JsDate.

Definition Date := Z.
Definition DateString := Z.

Definition MS_PER_DAY : Z := 24 * 60 * 60 * 1000.

(** Index of the local calendar day an instant falls on. *)
Definition dayIndex (t : Date) : Z := t / MS_PER_DAY.

(** Proleptic Gregorian calendar: day index of a civil date, month 1..12. *)
Definition days_from_civil (y m d : Z) : Z :=
  let y' := if m <=? 2 then y - 1 else y in
  let era := y' / 400 in
  let yoe := y' - era * 400 in
  let mp := if 2 <? m then m - 3 else m + 9 in
  let doy := (153 * mp + 2) / 5 + d - 1 in
  let doe := yoe * 365 + yoe / 4 - yoe / 100 + doy in
  era * 146097 + doe - 719468.

(** Civil date (year, month 1..12, day of month) of a day index. *)
Definition civil_from_days (z : Z) : Z * Z * Z :=
  let z' := z + 719468 in
  let era := z' / 146097 in
  let doe := z' - era * 146097 in
  let yoe := (doe - doe / 1460 + doe / 36524 - doe / 146096) / 365 in
  let doy := doe - (365 * yoe + yoe / 4 - yoe / 100) in
  let mp := (5 * doy + 2) / 153 in
  let d := doy - (153 * mp + 2) / 5 + 1 in
  let m := if mp <? 10 then mp + 3 else mp - 9 in
  ((if m <=? 2 then yoe + era * 400 + 1 else yoe + era * 400), m, d).

(** The date string ["y-m-d"]. *)
Definition ymd (y m d : Z) : DateString := days_from_civil y m d.

Definition isLeapYear (y : Z) : bool :=
  ((y mod 4 =? 0) && negb (y mod 100 =? 0)) || (y mod 400 =? 0).

Definition daysInMonth (y m : Z) : Z :=
  if m =? 2 then (if isLeapYear y then 29 else 28)
  else if (m =? 4) || (m =? 6) || (m =? 9) || (m =? 11) then 30 else 31.

(** The civil dates a well-formed date string can name. *)
Definition validDate (y m d : Z) : Prop :=
  1 <= m <= 12 /\ 1 <= d <= daysInMonth y m.

(** The order of date strings as texts: year, then month, then day. *)
Definition dateBefore (a b : Z * Z * Z) : Prop :=
  let '(y1, m1, d1) := a in
  let '(y2, m2, d2) := b in
  y1 < y2 \/ (y1 = y2 /\ (m1 < m2 \/ (m1 = m2 /\ d1 < d2))).

(** Day index of 1 March of year [y]. *)
Definition marchYearStart (y : Z) : Z := 365 * y + y / 4 - y / 100 + y / 400 - 719468.

Definition getFullYear (t : Date) : Z := fst (fst (civil_from_days (dayIndex t))).
(** 0 = January *)
Definition getMonth (t : Date) : Z := snd (fst (civil_from_days (dayIndex t))) - 1.
Definition getDate (t : Date) : Z := snd (civil_from_days (dayIndex t)).
(** 0 = Sunday; 1970-01-01 was a Thursday. *)
Definition getDay (t : Date) : Z := (dayIndex t + 4) mod 7.
Definition getTime (t : Date) : Z := t.

(** [d.setDate(n)]: day [n] of [d]'s month, rolling over into the
    neighbouring months when [n] is out of range; the time of day is kept. *)
Definition setDate (t : Date) (n : Z) : Date := t + (n - getDate t) * MS_PER_DAY.

(** [new Date(year, month, day)], local midnight, month 0-based. *)
Definition newDate (year month day : Z) : Date :=
  days_from_civil year (month + 1) day * MS_PER_DAY.

(** [new Date(s + 'T00:00:00')]: local midnight of the named day. *)
Definition parseLocal (s : DateString) : Date := s * MS_PER_DAY.

(** [Math.round (p / q)] for [q > 0]: nearest integer, halves upwards. *)
Definition round_div (p q : Z) : Z := (2 * p + q) / (2 * q).

End JsDate.
Import JsDate.

(** ** Shared data: weekday names, membership tests, the [Habit] record *)

Definition dayNames : list string :=
  ["sunday"; "monday"; "tuesday"; "wednesday"; "thursday"; "friday"; "saturday"]%string.

(** [dayNames[date.getDay()]]; [None] stands for [undefined]. *)
Definition dayNameOf (date : Date) : option string :=
  nth_error dayNames (Z.to_nat (getDay date)).

(** [dates.includes(s)] on date strings. *)
Definition includes (dates : list DateString) (s : DateString) : bool :=
  existsb (Z.eqb s) dates.

(** [selectedDays.includes(dayName)]; [undefined] is never a member. *)
Definition includesName (selectedDays : list string) (dayName : option string) : bool :=
  match dayName with
  | Some n => existsb (String.eqb n) selectedDays
  | None => false
  end.

(** [!selectedDays || selectedDays.length === 0] *)
Definition noSchedule (selectedDays : option (list string)) : bool :=
  match selectedDays with
  | None => true
  | Some days => (List.length days =? 0)%nat
  end.

Record Habit := mkHabit {
  id : string;
  name : string;
  category : string;
  description : string;
  createdDate : DateString;
  completions : list DateString;
  currentStreak : Z;
  bestStreak : Z;
  selectedDays : option (list string);
  color : string;
  customColor : option string
}.

Inductive Period :=
| Week
| Month
| Days (n : Z).

(** ** dateUtils.ts *)

(** The string made of the local year, month and day of the instant. *)
Definition formatDate (date : Date) : DateString :=
  let year := getFullYear date in
  let month := getMonth date + 1 in
  let day := getDate date in
  ymd year month day.

Definition getTodayString (now : Date) : DateString := formatDate now.

Definition getWeekStart (date : Date) : Date :=
  let d := date in
  let day := getDay d in
  let diff := getDate d - day + (if day =? 0 then -6 else 1) in
  setDate d diff.

Definition getMonthStart (date : Date) : Date :=
  newDate (getFullYear date) (getMonth date) 1.

(** The [while (currentDate <= endDate)] loop of [getDateRange]; [None] only
    when [fuel] iterations were not enough to leave the loop. *)
Fixpoint getDateRange_loop (fuel : nat) (currentDate endDate : Date)
  : option (list DateString) :=
  if currentDate <=? endDate then
    match fuel with
    | O => None
    | S fuel' =>
        match getDateRange_loop fuel'
                (setDate currentDate (getDate currentDate + 1)) endDate with
        | Some dates => Some (formatDate currentDate :: dates)
        | None => None
        end
    end
  else Some [].

(** Number of iterations the loop of [getDateRange] makes. *)
Definition getDateRange_fuel (startDate endDate : Date) : nat :=
  Z.to_nat ((endDate - startDate) / MS_PER_DAY + 1).

Definition getDateRange (startDate endDate : Date) : list DateString :=
  match getDateRange_loop (getDateRange_fuel startDate endDate) startDate endDate with
  | Some dates => dates
  | None => [] (* not reached: [getDateRange_loop_enough] *)
  end.

(** The filter predicate of [scheduledElapsedDays] in [getCompletionRate]:
    is the habit scheduled on that day? *)
Definition isScheduledOn (selectedDays : option (list string)) (dateString : DateString) : bool :=
  let date := parseLocal dateString in
  let dayName := dayNameOf date in
  match selectedDays with
  | None => true
  | Some days =>
      if (List.length days =? 0)%nat then true else includesName days dayName
  end.

(** The locals of [getCompletionRate], in the order it computes them:
    [startDate], [effectiveStartDate], [endDate], [scheduledElapsedDays] and
    [completedDays]. *)
Definition periodStart (now : Date) (period : Period) : Date :=
  let today := now in
  match period with
  | Week => getWeekStart today
  | Month => getMonthStart today
  | Days n => getTime today - (n - 1) * 24 * 60 * 60 * 1000
  end.

Definition effectiveStartDate (now : Date) (habit : Habit) (period : Period) : Date :=
  let startDate := periodStart now period in
  let habitCreatedDate := parseLocal (createdDate habit) in
  if startDate <? habitCreatedDate then habitCreatedDate else startDate.

Definition rateEndDate (now : Date) (habit : Habit) : Date :=
  let today := now in
  let isTodayCompleted := includes (completions habit) (getTodayString now) in
  if isTodayCompleted then today else getTime today - 24 * 60 * 60 * 1000.

Definition scheduledElapsedDays (now : Date) (habit : Habit) (period : Period)
  : list DateString :=
  let allElapsedDays := getDateRange (effectiveStartDate now habit period) (rateEndDate now habit) in
  filter (isScheduledOn (selectedDays habit)) allElapsedDays.

Definition completedDays (now : Date) (habit : Habit) (period : Period) : Z :=
  Z.of_nat (List.length (filter (includes (scheduledElapsedDays now habit period))
                           (completions habit))).

(** The three [return] statements of [getCompletionRate]. *)
Inductive RateReturn :=
| NoScheduledDays
| NewHabitCompletedToday
| Percentage (percentage : Z).

Definition rateValue (r : RateReturn) : Z :=
  match r with
  | NoScheduledDays => 0
  | NewHabitCompletedToday => 100
  | Percentage percentage => percentage
  end.

Definition getCompletionRate_return (now : Date) (habit : Habit) (period : Period)
  : RateReturn :=
  let todayString := getTodayString now in
  let scheduled := scheduledElapsedDays now habit period in
  let total := Z.of_nat (List.length scheduled) in
  if total =? 0 then NoScheduledDays
  else
    let completed := completedDays now habit period in
    if (total =? 1)
       && match nth_error scheduled 0 with
          | Some first => first =? todayString
          | None => false
          end
       && (completed =? 1)
    then NewHabitCompletedToday
    else
      Percentage (if 0 <? total then round_div (completed * 100) total else 0).

Definition getCompletionRate (now : Date) (habit : Habit) (period : Period) : Z :=
  rateValue (getCompletionRate_return now habit period).

(** ** habitUtils.ts *)

(** [a.localeCompare(b)] on date strings. *)
Definition localeCompare (a b : DateString) : Z :=
  match a ?= b with
  | Lt => -1
  | Eq => 0
  | Gt => 1
  end.

(** [Array.prototype.sort(compareFn)] is a stable sort; it is modelled by
    stable insertion sort, [x] going before [y] when [compareFn x y <= 0]. *)
Fixpoint sortInsert {A : Type} (compareFn : A -> A -> Z) (x : A) (sorted : list A) : list A :=
  match sorted with
  | [] => [x]
  | y :: rest =>
      if compareFn x y <=? 0 then x :: y :: rest
      else y :: sortInsert compareFn x rest
  end.

Fixpoint sortBy {A : Type} (compareFn : A -> A -> Z) (l : list A) : list A :=
  match l with
  | [] => []
  | x :: rest => sortInsert compareFn x (sortBy compareFn rest)
  end.

(** The [for] loop of the daily branch of [calculateStreak]. *)
Fixpoint dailyStreak_loop (sortedCompletions : list DateString) (currentDate : Date)
  (streak : Z) : Z :=
  match sortedCompletions with
  | [] => streak
  | completionDate :: rest =>
      let expectedDate := formatDate currentDate in
      if completionDate =? expectedDate then
        dailyStreak_loop rest (setDate currentDate (getDate currentDate - 1)) (streak + 1)
      else streak
  end.

(** The [while (true)] loop of the scheduled branch of [calculateStreak];
    [None] only when [fuel] iterations were not enough to reach a [break]. *)
Fixpoint scheduledStreak_loop (fuel : nat) (now : Date) (selectedDays : list string)
  (sortedCompletions : list DateString) (currentDate : Date) (streak : Z) : option Z :=
  match fuel with
  | O => None
  | S fuel' =>
      let currentDateString := formatDate currentDate in
      let currentDayName := dayNameOf currentDate in
      let next streak' :=
        let currentDate' := setDate currentDate (getDate currentDate - 1) in
        if currentDate' <? now - 365 * 24 * 60 * 60 * 1000 then Some streak'
        else scheduledStreak_loop fuel' now selectedDays sortedCompletions currentDate' streak' in
      if includesName selectedDays currentDayName then
        if includes sortedCompletions currentDateString then next (streak + 1)
        else Some streak
      else next streak
  end.

(** Iterations after which the scheduled walk has certainly left the loop. *)
Definition scheduledStreak_fuel (now currentDate : Date) : nat :=
  S (Z.to_nat ((currentDate - (now - 365 * 24 * 60 * 60 * 1000)) / MS_PER_DAY)).

Definition calculateStreak (now : Date) (completions : list DateString)
  (selectedDays : option (list string)) (targetDate : option DateString) : Z :=
  if (List.length completions =? 0)%nat then 0
  else
    let sortedCompletions := sortBy (fun a b => localeCompare b a) completions in
    let today := match targetDate with
                 | Some t => t
                 | None => getTodayString now
                 end in
    if noSchedule selectedDays then
      let currentDate := parseLocal today in
      let isTodayCompleted := includes sortedCompletions today in
      let streak := if isTodayCompleted then 1 else 0 in
      let currentDate := setDate currentDate (getDate currentDate - 1) in
      dailyStreak_loop sortedCompletions currentDate streak
    else
      let days := match selectedDays with
                  | Some days => days
                  | None => []
                  end in
      let currentDate := parseLocal today in
      let todayDayName := dayNameOf currentDate in
      let isTodayScheduled := includesName days todayDayName in
      let isTodayCompleted := includes sortedCompletions today in
      let streak := if isTodayScheduled && isTodayCompleted then 1 else 0 in
      let currentDate := setDate currentDate (getDate currentDate - 1) in
      match scheduledStreak_loop (scheduledStreak_fuel now currentDate) now days
              sortedCompletions currentDate streak with
      | Some result => result
      | None => streak (* not reached: [scheduledStreak_loop_terminates] *)
      end.

(** Loop variables of [calculateBestStreak]:
    [bestStreak], [currentStreak] and [previousDate] / [lastScheduledDate]. *)
Record BestLoop := mkBestLoop {
  loopBest : Z;
  loopCurrent : Z;
  loopPrevious : option Date
}.

Definition bestDaily_step (st : BestLoop) (completion : DateString) : BestLoop :=
  let currentDate := parseLocal completion in
  match loopPrevious st with
  | None => mkBestLoop (loopBest st) 1 (Some currentDate)
  | Some previousDate =>
      let dayDifference :=
        round_div (getTime currentDate - getTime previousDate) (1000 * 60 * 60 * 24) in
      if dayDifference =? 1 then
        mkBestLoop (loopBest st) (loopCurrent st + 1) (Some currentDate)
      else
        mkBestLoop (Z.max (loopBest st) (loopCurrent st)) 1 (Some currentDate)
  end.

(** The inner [while (expectedDate <= currentDate)] loop that looks for the
    next scheduled day; [None] only when [fuel] iterations were not enough. *)
Fixpoint nextScheduled_loop (fuel : nat) (selectedDays : list string)
  (expectedDate currentDate : Date) : option Date :=
  if expectedDate <=? currentDate then
    match fuel with
    | O => None
    | S fuel' =>
        let expectedDayName := dayNameOf expectedDate in
        if includesName selectedDays expectedDayName then Some expectedDate
        else nextScheduled_loop fuel' selectedDays
               (setDate expectedDate (getDate expectedDate + 1)) currentDate
    end
  else Some expectedDate.

Definition nextScheduled (selectedDays : list string) (expectedDate currentDate : Date)
  : Date :=
  match nextScheduled_loop (getDateRange_fuel expectedDate currentDate) selectedDays
          expectedDate currentDate with
  | Some found => found
  | None => expectedDate (* not reached: [nextScheduled_loop_terminates] *)
  end.

Definition bestScheduled_step (selectedDays : list string) (st : BestLoop)
  (completion : DateString) : BestLoop :=
  let currentDate := parseLocal completion in
  let currentDayName := dayNameOf currentDate in
  if negb (includesName selectedDays currentDayName) then st
  else
    match loopPrevious st with
    | None => mkBestLoop (loopBest st) 1 (Some currentDate)
    | Some lastScheduledDate =>
        let expectedDate := setDate lastScheduledDate (getDate lastScheduledDate + 1) in
        let expectedDate := nextScheduled selectedDays expectedDate currentDate in
        if formatDate expectedDate =? completion then
          mkBestLoop (loopBest st) (loopCurrent st + 1) (Some currentDate)
        else
          mkBestLoop (Z.max (loopBest st) (loopCurrent st)) 1 (Some currentDate)
    end.

Definition calculateBestStreak (completions : list DateString)
  (selectedDays : option (list string)) : Z :=
  if (List.length completions =? 0)%nat then 0
  else
    let sortedCompletions := sortBy (fun a b => localeCompare a b) completions in
    if noSchedule selectedDays then
      let st := fold_left bestDaily_step sortedCompletions (mkBestLoop 0 0 None) in
      Z.max (loopBest st) (loopCurrent st)
    else
      let days := match selectedDays with
                  | Some days => days
                  | None => []
                  end in
      let st := fold_left (bestScheduled_step days) sortedCompletions (mkBestLoop 0 0 None) in
      Z.max (loopBest st) (loopCurrent st).

Definition isCompletedToday (now : Date) (habit : Habit) : bool :=
  includes (completions habit) (getTodayString now).

Definition updateHabitStreaks (now : Date) (habit : Habit) : Habit :=
  let currentStreak' := calculateStreak now (completions habit) (selectedDays habit) None in
  let bestStreak' :=
    Z.max (calculateBestStreak (completions habit) (selectedDays habit)) currentStreak' in
  mkHabit (id habit) (name habit) (category habit) (description habit)
    (createdDate habit) (completions habit) currentStreak' bestStreak'
    (selectedDays habit) (color habit) (customColor habit).

(** ** useHabits.ts: [getHabitStats] *)

Record HabitStats := mkHabitStats {
  totalHabits : Z;
  totalCompletions : Z;
  averageCompletionRate : Z;
  longestStreak : Z;
  currentActiveStreaks : Z
}.

(** [Math.max(...values, 0)] *)
Definition mathMax0 (values : list Z) : Z := fold_right Z.max 0 values.

Definition getHabitStats (now : Date) (habits : list Habit) : HabitStats :=
  let totalHabits := Z.of_nat (List.length habits) in
  let totalCompletions :=
    fold_left (fun sum habit => sum + Z.of_nat (List.length (completions habit))) habits 0 in
  let averageCompletionRate :=
    if 0 <? totalHabits then
      round_div (fold_left (fun sum habit => sum + getCompletionRate now habit Month) habits 0)
                totalHabits
    else 0 in
  let longestStreak := mathMax0 (map bestStreak habits) in
  let currentActiveStreaks :=
    Z.of_nat (List.length (filter (fun h => 0 <? currentStreak h) habits)) in
  mkHabitStats totalHabits totalCompletions averageCompletionRate longestStreak
    currentActiveStreaks.

(** ** The specification's reading of the dashboard statistics *)

Definition sumZ (values : list Z) : Z := fold_right Z.add 0 values.

(** The maximum of a list, [0] for the empty list. *)
Definition maximumOr0 (values : list Z) : Z :=
  match values with
  | [] => 0
  | first :: rest => fold_left Z.max rest first
  end.

(** [aggregateStats] as section 4.5 of the specification words it. *)
Definition aggregateStats_spec (now : Date) (habits : list Habit) : HabitStats :=
  {| totalHabits := Z.of_nat (List.length habits);
     totalCompletions :=
       sumZ (map (fun h => Z.of_nat (List.length (completions h))) habits);
     averageCompletionRate :=
       match habits with
       | [] => 0
       | _ => round_div (sumZ (map (fun h => getCompletionRate now h Month) habits))
                (Z.of_nat (List.length habits))
       end;
     longestStreak := maximumOr0 (map bestStreak habits);
     currentActiveStreaks :=
       Z.of_nat (List.length (filter (fun h => 0 <? currentStreak h) habits)) |}.

(** ** Sample data used by the examples *)

Definition allWeek : list string :=
  ["monday"; "tuesday"; "wednesday"; "thursday"; "friday"; "saturday"; "sunday"]%string.

(** Thursday 2024-06-20, 15:00 local time. *)
Definition sampleNow : Date := parseLocal (ymd 2024 6 20) + 15 * 60 * 60 * 1000.

Definition sampleHabit (created : DateString) (done : list DateString)
  (days : option (list string)) : Habit :=
  mkHabit "h1" "Read" "learning" "" created done 0 0 days "#9C9BE7" None.

(** ** Auxiliary notions used to state properties *)

(** [n] consecutive day indices starting at [first]. *)
Fixpoint consecutiveDays (first : Z) (n : nat) : list DateString :=
  match n with
  | O => []
  | S n' => first :: consecutiveDays (first + 1) n'
  end.

(** The habit with another completion list. *)
Definition withCompletions (habit : Habit) (done : list DateString) : Habit :=
  mkHabit (id habit) (name habit) (category habit) (description habit)
    (createdDate habit) done (currentStreak habit) (bestStreak habit)
    (selectedDays habit) (color habit) (customColor habit).

(** ** The backward walk of calculateStreak, with the days it looks at *)

(** [dailyStreak_loop], returning also the [expectedDate] of every iteration. *)
Fixpoint dailyStreak_trace (sortedCompletions : list DateString) (currentDate : Date)
  (streak : Z) : Z * list DateString :=
  match sortedCompletions with
  | [] => (streak, [])
  | completionDate :: rest =>
      let expectedDate := formatDate currentDate in
      if completionDate =? expectedDate then
        let '(result, inspected) :=
          dailyStreak_trace rest (setDate currentDate (getDate currentDate - 1)) (streak + 1) in
        (result, expectedDate :: inspected)
      else (streak, [expectedDate])
  end.

(** [scheduledStreak_loop], returning also the [currentDateString] of every
    iteration. *)
Fixpoint scheduledStreak_trace (fuel : nat) (now : Date) (selectedDays : list string)
  (sortedCompletions : list DateString) (currentDate : Date) (streak : Z)
  : option (Z * list DateString) :=
  match fuel with
  | O => None
  | S fuel' =>
      let currentDateString := formatDate currentDate in
      let currentDayName := dayNameOf currentDate in
      let next streak' :=
        let currentDate' := setDate currentDate (getDate currentDate - 1) in
        if currentDate' <? now - 365 * 24 * 60 * 60 * 1000 then
          Some (streak', [currentDateString])
        else
          match scheduledStreak_trace fuel' now selectedDays sortedCompletions
                  currentDate' streak' with
          | Some (result, inspected) => Some (result, currentDateString :: inspected)
          | None => None
          end in
      if includesName selectedDays currentDayName then
        if includes sortedCompletions currentDateString then next (streak + 1)
        else Some (streak, [currentDateString])
      else next streak
  end.

(** The day [calculateStreak] takes for today. *)
Definition streakToday (now : Date) (targetDate : option DateString) : DateString :=
  match targetDate with
  | Some t => t
  | None => getTodayString now
  end.

(** [calculateStreak] run with [fuel] iterations for its [while (true)] loop:
    the streak and the days the walk looked at, or [None] when the loop has
    not left within [fuel] iterations. *)
Definition calculateStreak_run (fuel : nat) (now : Date) (completions : list DateString)
  (selectedDays : option (list string)) (targetDate : option DateString)
  : option (Z * list DateString) :=
  if (List.length completions =? 0)%nat then Some (0, [])
  else
    let sortedCompletions := sortBy (fun a b => localeCompare b a) completions in
    let today := streakToday now targetDate in
    if noSchedule selectedDays then
      let currentDate := parseLocal today in
      let isTodayCompleted := includes sortedCompletions today in
      let streak := if isTodayCompleted then 1 else 0 in
      let currentDate := setDate currentDate (getDate currentDate - 1) in
      Some (dailyStreak_trace sortedCompletions currentDate streak)
    else
      let days := match selectedDays with
                  | Some days => days
                  | None => []
                  end in
      let currentDate := parseLocal today in
      let todayDayName := dayNameOf currentDate in
      let isTodayScheduled := includesName days todayDayName in
      let isTodayCompleted := includes sortedCompletions today in
      let streak := if isTodayScheduled && isTodayCompleted then 1 else 0 in
      let currentDate := setDate currentDate (getDate currentDate - 1) in
      scheduledStreak_trace fuel now days sortedCompletions currentDate streak.

(** The streak credited to today before the walk starts. *)
Definition todayBonus (now : Date) (completions : list DateString)
  (selectedDays : option (list string)) (targetDate : option DateString) : Z :=
  let today := streakToday now targetDate in
  if isScheduledOn selectedDays today && includes completions today then 1 else 0.

(** 400 consecutive completions ending yesterday, as seen from
    [sampleNow]. *)
Definition longRun : list DateString := consecutiveDays (ymd 2024 6 20 - 400) 400.

(** The 54 Mondays up to Monday 2024-06-24. *)
Definition mondayRun : list DateString :=
  map (fun i => ymd 2024 6 24 - 7 * Z.of_nat i) (seq 0 54).

(** ** Runs of scheduled days, and the loop of calculateBestStreak in general *)

(** Number of scheduled days among the [n] days that end at [last]. *)
Fixpoint scheduledCount (sched : DateString -> bool) (last : DateString) (n : nat) : Z :=
  match n with
  | O => 0
  | S n' => (if sched last then 1 else 0) + scheduledCount sched (last - 1) n'
  end.

(** Every scheduled day among the [n] days that end at [last] is completed. *)
Definition covered (sched : DateString -> bool) (done : list DateString)
  (last : DateString) (n : nat) : Prop :=
  forall i : nat, (i < n)%nat ->
    sched (last - Z.of_nat i) = true -> In (last - Z.of_nat i) done.

(** The loop body shared by the two branches of [calculateBestStreak]:
    [counts] says which completions are counted, [continues] whether a
    counted completion prolongs the run of the previous counted one. *)
Definition bestLoop_step (counts : DateString -> bool)
  (continues : Date -> DateString -> bool) (st : BestLoop) (completion : DateString)
  : BestLoop :=
  let currentDate := parseLocal completion in
  if negb (counts completion) then st
  else
    match loopPrevious st with
    | None => mkBestLoop (loopBest st) 1 (Some currentDate)
    | Some previous =>
        if continues previous completion then
          mkBestLoop (loopBest st) (loopCurrent st + 1) (Some currentDate)
        else
          mkBestLoop (Z.max (loopBest st) (loopCurrent st)) 1 (Some currentDate)
    end.

Definition continuesDaily (previousDate : Date) (completion : DateString) : bool :=
  round_div (getTime (parseLocal completion) - getTime previousDate) (1000 * 60 * 60 * 24) =? 1.

Definition continuesScheduled (selectedDays : list string) (lastScheduledDate : Date)
  (completion : DateString) : bool :=
  formatDate (nextScheduled selectedDays
                (setDate lastScheduledDate (getDate lastScheduledDate + 1))
                (parseLocal completion)) =? completion.

(** Strictly ascending lists, built from the left end. *)
Inductive Ascending : list DateString -> Prop :=
| Ascending_nil : Ascending []
| Ascending_snoc (l : list DateString) (x : DateString) :
    Ascending l -> (forall y, In y l -> y < x) -> Ascending (l ++ [x]).

(** [l] is strictly ascending, read from the front. *)
Fixpoint ascendingFrom (l : list DateString) : Prop :=
  match l with
  | [] => True
  | x :: rest => (forall y, In y rest -> x < y) /\ ascendingFrom rest
  end.

(** The last counted completion of a list. *)
Definition lastCounted (counts : DateString -> bool) (l : list DateString)
  : option DateString :=
  fold_left (fun acc x => if counts x then Some x else acc) l None.

(** What the loop variables of [calculateBestStreak] hold after the
    completions [l]. *)
Definition bestLoop_inv (counts : DateString -> bool) (l : list DateString)
  (st : BestLoop) : Prop :=
  0 <= loopBest st
  /\ 0 <= loopCurrent st
  /\ loopPrevious st = option_map parseLocal (lastCounted counts l)
  /\ (lastCounted counts l = None -> loopCurrent st = 0)
  /\ (forall x n, lastCounted counts l = Some x -> covered counts l x n ->
                  scheduledCount counts x n <= loopCurrent st)
  /\ (forall e n, covered counts l e n ->
                  scheduledCount counts e n <= Z.max (loopBest st) (loopCurrent st)).

(** * The rest of dateUtils.ts, the completion toggles, the calendar view
    and the category colours *)

(** ** More of the host's [Date] *)

(** [new Date(year, month, day)] in full: years 0 to 99 stand for 1900 to
    1999, a month outside 0..11 carries into the year, a day outside the
    month carries into the neighbouring months; local midnight. *)
Definition fullYearOf (year : Z) : Z :=
  if (0 <=? year) && (year <=? 99) then 1900 + year else year.

Definition makeDate (year month day : Z) : Date :=
  let yr := fullYearOf year in
  let ym := yr + month / 12 in
  let mn := month mod 12 in
  (days_from_civil ym (mn + 1) 1 + day - 1) * MS_PER_DAY.

(** ** dateUtils.ts, continued *)

Definition isToday (now : Date) (dateString : DateString) : bool :=
  dateString =? getTodayString now.

Definition getDaysInMonth (year month : Z) : Z :=
  getDate (makeDate year (month + 1) 0).



(** The [for (let i = 0; i < 42; i++)] loop of [getCalendarDays]. *)
Fixpoint getCalendarDays_loop (iterations : nat) (currentDate : Date) : list Date :=
  match iterations with
  | O => []
  | S iterations' =>
      currentDate
      :: getCalendarDays_loop iterations' (setDate currentDate (getDate currentDate + 1))
  end.

Definition getCalendarDays (year month : Z) : list Date :=
  let firstDay := makeDate year month 1 in
  let startDate := getWeekStart firstDay in
  getCalendarDays_loop 42 startDate.

Definition isSameMonth (date1 date2 : Date) : bool :=
  (getFullYear date1 =? getFullYear date2) && (getMonth date1 =? getMonth date2).

Definition isSameDay (date1 date2 : Date) : bool :=
  formatDate date1 =? formatDate date2.

(** ** useHabits.ts: the hook's state and its callbacks *)

(** The [useState] cells the callbacks below read and write. *)
Record HookState := mkHookState {
  habits : list Habit;
  selectedCategory : string;
  error : option string
}.

Definition setHabits (st : HookState) (habits' : list Habit) : HookState :=
  mkHookState habits' (selectedCategory st) (error st).

Definition setError (st : HookState) (message : string) : HookState :=
  mkHookState (habits st) (selectedCategory st) (Some message).

(** What a failed database call hands to the [catch] block. *)
Inductive DbError :=
| DbErrorObject (message : string)   (* an [Error] instance *)
| DbErrorOther.

(** [error instanceof Error ? error.message : fallback] *)
Definition errorMessage (failure : DbError) (fallback : string) : string :=
  match failure with
  | DbErrorObject message => message
  | DbErrorOther => fallback
  end.

(** How a call of an async callback ends, with the state it leaves. *)
Inductive Outcome :=
| Rejected (st : HookState)
| Resolved (st : HookState).

Definition stateOf (o : Outcome) : HookState :=
  match o with
  | Rejected st => st
  | Resolved st => st
  end.

(** [isCompleted ? completions.filter(d => d !== date) : [...completions, date]] *)
Definition newCompletions (isCompleted : bool) (h : Habit) (date : DateString)
  : list DateString :=
  if isCompleted then filter (fun completionDate => negb (completionDate =? date)) (completions h)
  else completions h ++ [date].

(** The updater handed to [setHabits] by the two toggles. *)
Definition toggleUpdater (now : Date) (habitId : string) (date : DateString)
  (isCompleted : bool) (prev : list Habit) : list Habit :=
  map (fun h =>
         if negb (String.eqb (id h) habitId) then h
         else updateHabitStreaks now (withCompletions h (newCompletions isCompleted h date)))
      prev.

(** [user] is the signed-in user or [null]; [db] is the failure of the
    database call, if it fails.  The callback is re-created whenever
    [habits] changes, so the list it searches is the one of the state. *)
Definition toggleHabitCompletion (now : Date) (user : option string) (db : option DbError)
  (st : HookState) (habitId : string) : Outcome :=
  match user with
  | None => Rejected st
  | Some _ =>
      let today := getTodayString now in
      match find (fun h => String.eqb (id h) habitId) (habits st) with
      | None => Resolved st
      | Some habit =>
          let isCompleted := includes (completions habit) today in
          match db with
          | Some failure => Resolved (setError st (errorMessage failure "Failed to update habit"))
          | None => Resolved (setHabits st (toggleUpdater now habitId today isCompleted (habits st)))
          end
      end
  end.

Definition toggleHabitCompletionForDate (now : Date) (user : option string)
  (db : option DbError) (st : HookState) (habitId : string) (date : DateString) : Outcome :=
  match user with
  | None => Rejected st
  | Some _ =>
      match find (fun h => String.eqb (id h) habitId) (habits st) with
      | None => Resolved st
      | Some habit =>
          if date <? createdDate habit then Resolved st
          else
            let isCompleted := includes (completions habit) date in
            match db with
            | Some failure =>
                Resolved (setError st (errorMessage failure "Failed to update habit"))
            | None =>
                Resolved (setHabits st (toggleUpdater now habitId date isCompleted (habits st)))
            end
      end
  end.

Definition deleteHabit (user : option string) (db : option DbError) (st : HookState)
  (habitId : string) : Outcome :=
  match user with
  | None => Rejected st
  | Some _ =>
      match db with
      | Some failure => Rejected (setError st (errorMessage failure "Failed to delete habit"))
      | None =>
          Resolved (setHabits st
                      (filter (fun habit => negb (String.eqb (id habit) habitId)) (habits st)))
      end
  end.

(** Each habit is returned with the added field [isCompletedToday]. *)
Definition getTodayHabits (now : Date) (st : HookState) : list (Habit * bool) :=
  let today := now in
  let todayName := dayNameOf today in
  map (fun habit => (habit, isCompletedToday now habit))
    (filter (fun habit =>
               if noSchedule (selectedDays habit) then true
               else includesName (match selectedDays habit with
                                  | Some days => days
                                  | None => []
                                  end) todayName)
       (habits st)).

(** ** CalendarView.tsx: the month grid and the habits of a day *)

(** [Math.ceil (p / q)] for [q > 0]. *)
Definition ceil_div (p q : Z) : Z := - ((- p) / q).

Definition getRequiredRows (year month : Z) : Z :=
  let firstDay := makeDate year month 1 in
  let daysInMonth := getDate (makeDate year (month + 1) 0) in
  let startDayOfWeek := getDay firstDay in
  let totalCells := startDayOfWeek + daysInMonth in
  ceil_div totalCells 7.

(** The body of the [for] loop of [generateCalendarDays], for index [i]. *)
Definition calendarCell (startOfWeek : Date) (i : Z) : Date :=
  let tempDate := startOfWeek in
  let tempDate := setDate tempDate (getDate tempDate + i) in
  makeDate (getFullYear tempDate) (getMonth tempDate) (getDate tempDate).

Definition generateCalendarDays (year month : Z) : list Date :=
  let firstDay := makeDate year month 1 in
  let startOfWeek := firstDay in
  let dayOfWeek := getDay firstDay in
  let startOfWeek := setDate startOfWeek (getDate firstDay - dayOfWeek) in
  let requiredRows := getRequiredRows year month in
  map (fun i => calendarCell startOfWeek (Z.of_nat i))
    (seq 0 (Z.to_nat (requiredRows * 7))).

(** The filter predicate shared by [getHabitsForDay] and
    [getHabitsForDateString]. *)
Definition shownOn (clickedDayName : option string) (dateString : DateString)
  (habit : Habit) : bool :=
  if dateString <? createdDate habit then false
  else if match selectedDays habit with
          | Some days => includesName days clickedDayName
          | None => false
          end then true
  else if noSchedule (selectedDays habit) then true
  else false.

Definition getHabitsForDay (date : Date) (allHabits : list Habit) : list Habit :=
  let dayOfWeek := getDay date in
  let clickedDayName := nth_error dayNames (Z.to_nat dayOfWeek) in
  let dateString := formatDate date in
  filter (shownOn clickedDayName dateString) allHabits.

(** [dateString.split('-').map(Number)] gives the year, month and day the
    string names. *)
Definition getHabitsForDateString (dateString : DateString) (allHabits : list Habit)
  : list Habit :=
  let '(year, month, day) := civil_from_days dateString in
  let date := makeDate year (month - 1) day in
  let dayOfWeek := getDay date in
  let clickedDayName := nth_error dayNames (Z.to_nat dayOfWeek) in
  filter (shownOn clickedDayName dateString) allHabits.

Definition isHabitCompletedOnDate (habit : Habit) (date : Date) : bool :=
  let dateString := formatDate date in
  includes (completions habit) dateString.

Definition isAllHabitsCompleted (habits : list Habit) (dateString : DateString) : bool :=
  let dayHabits := getHabitsForDateString dateString habits in
  if (List.length dayHabits =? 0)%nat then false
  else forallb (fun habit => includes (completions habit) dateString) dayHabits.

(** ** categoryUtils.ts *)

(** What a property read or an [||] chain yields here: a string,
    [undefined], or a member a plain object inherits from
    [Object.prototype]. *)
Inductive JsValue :=
| JsString (s : string)
| JsUndefined
| JsInherited (member : string).

Definition truthy (v : JsValue) : bool :=
  match v with
  | JsString s => negb (String.eqb s "")
  | JsUndefined => false
  | JsInherited _ => true
  end.

(** [a || b] *)
Definition orElse (a b : JsValue) : JsValue := if truthy a then a else b.

Definition objectPrototypeMembers : list string :=
  ["constructor"; "hasOwnProperty"; "isPrototypeOf"; "propertyIsEnumerable";
   "toLocaleString"; "toString"; "valueOf"; "__proto__";
   "__defineGetter__"; "__defineSetter__"; "__lookupGetter__"; "__lookupSetter__"]%string.

(** A plain object whose own properties hold strings, as an object literal
    or [JSON.parse] builds it. *)
Definition JsObject := list (string * string).

Fixpoint ownProperty (obj : JsObject) (key : string) : option string :=
  match obj with
  | [] => None
  | (k, v) :: rest => if String.eqb k key then Some v else ownProperty rest key
  end.

(** [obj[key]] *)
Definition getProperty (obj : JsObject) (key : string) : JsValue :=
  match ownProperty obj key with
  | Some v => JsString v
  | None =>
      if existsb (String.eqb key) objectPrototypeMembers then JsInherited key
      else JsUndefined
  end.

Fixpoint setOwnProperty (obj : JsObject) (key value : string) : JsObject :=
  match obj with
  | [] => [(key, value)]
  | (k, v) :: rest =>
      if String.eqb k key then (k, value) :: rest
      else (k, v) :: setOwnProperty rest key value
  end.

(** [obj[key] = value] for a string [value]: the inherited [__proto__]
    setter ignores a string and creates no property. *)
Definition setProperty (obj : JsObject) (key value : string) : JsObject :=
  match ownProperty obj key with
  | None => if String.eqb key "__proto__" then obj else setOwnProperty obj key value
  | Some _ => setOwnProperty obj key value
  end.

Module Category.

Record HabitCategory := mkHabitCategory {
  id : string;
  name : string;
  color : JsValue;
  description : string
}.

End Category.

Definition DEFAULT_CATEGORIES : list Category.HabitCategory :=
  [ Category.mkHabitCategory "health" "Health" (JsString "#93D8E9")
      "Exercise, sleep, water, nutrition, meditation, medications";
    Category.mkHabitCategory "work" "Work" (JsString "#DF998E")
      "Deep work, meetings, skills, projects, networking";
    Category.mkHabitCategory "learning" "Learning" (JsString "#9C9BE7")
      "Reading, courses, practice, creative projects, hobbies";
    Category.mkHabitCategory "social" "Social" (JsString "#DBABBE")
      "Friends, family, calls, dates, community activities";
    Category.mkHabitCategory "finance" "Finance" (JsString "#B7E197")
      "Budgeting, saving, investing, expense tracking";
    Category.mkHabitCategory "personal" "Personal" (JsString "#FFE1A8")
      "Routines, chores, self-care, organization, breaking bad habits" ]%string.

(** The item ['categoryColors'] of [localStorage]: absent, or the JSON text
    of an object, kept here as the object [JSON.parse] makes of it. *)
Definition CategoryColors := option JsObject.

(** [JSON.parse(localStorage.getItem('categoryColors') || '{}')] *)
Definition parseCategoryColors (storage : CategoryColors) : JsObject :=
  match storage with
  | Some customColors => customColors
  | None => []
  end.

Definition getCategoryColor (storage : CategoryColors) (categoryId : string) : JsValue :=
  let customColors := parseCategoryColors storage in
  let defaultCategory :=
    find (fun c => String.eqb (Category.id c) categoryId) DEFAULT_CATEGORIES in
  orElse (orElse (getProperty customColors categoryId)
            (match defaultCategory with
             | Some c => Category.color c
             | None => JsUndefined
             end))
         (JsString "#6b7280").

Definition setCategoryColor (storage : CategoryColors) (categoryId color : string)
  : CategoryColors :=
  let customColors := parseCategoryColors storage in
  Some (setProperty customColors categoryId color).

Definition getCategoryById (categoryId : string) : option Category.HabitCategory :=
  find (fun c => String.eqb (Category.id c) categoryId) DEFAULT_CATEGORIES.

Definition getAllCategories (storage : CategoryColors) : list Category.HabitCategory :=
  let customColors := parseCategoryColors storage in
  map (fun category =>
         Category.mkHabitCategory (Category.id category) (Category.name category)
           (orElse (getProperty customColors (Category.id category))
                   (Category.color category))
           (Category.description category))
      DEFAULT_CATEGORIES.

Definition resetCategoryColors (storage : CategoryColors) : CategoryColors := None.

Definition categoryMapping : JsObject :=
  [ ("Health & Fitness", "health");
    ("health-fitness", "health");
    ("Productivity", "work");
    ("productivity", "work");
    ("Productivity & Work", "work");
    ("Learning", "learning");
    ("Learning & Growth", "learning");
    ("Social", "social");
    ("Social & Relationships", "social");
    ("Finance", "finance");
    ("Finance & Money", "finance");
    ("Self-Care", "personal");
    ("self-care", "personal");
    ("Self-Care & Wellness", "personal");
    ("Personal Care", "personal");
    ("Creative", "personal");
    ("creative", "personal");
    ("Creative & Hobbies", "personal");
    ("Mindfulness", "personal");
    ("mindfulness", "personal");
    ("Mindfulness & Spirituality", "personal");
    ("Home", "personal");
    ("home", "personal");
    ("Home & Lifestyle", "personal");
    ("Other", "personal") ]%string.

Definition migrateCategoryName (oldCategoryName : string) : JsValue :=
  orElse (getProperty categoryMapping oldCategoryName) (JsString "personal").

(** ** The streak values as stretches of days *)

(** The loop variables of [calculateBestStreak] are reached: [bestStreak] by
    some stretch whose scheduled days are all completed, [currentStreak] by
    such a stretch that ends at the last counted completion. *)
Definition bestLoop_attained (counts : DateString -> bool) (l : list DateString)
  (st : BestLoop) : Prop :=
  (exists e n, covered counts l e n /\ scheduledCount counts e n = loopBest st)
  /\ match lastCounted counts l with
     | None => loopCurrent st = 0
     | Some x => exists n, covered counts l x n /\ scheduledCount counts x n = loopCurrent st
     end.

(** [l] is strictly descending, read from the front. *)
Fixpoint descendingFrom (l : list DateString) : Prop :=
  match l with
  | [] => True
  | x :: rest => (forall y, In y rest -> y < x) /\ descendingFrom rest
  end.

(** * Properties *)

(** ** Calendar arithmetic *)

Example civil_2024_06_10 : civil_from_days (ymd 2024 6 10) = (2024, 6, 10).
Proof. reflexivity. Qed.

Example civil_leap_day : civil_from_days (ymd 2024 2 29 + 1) = (2024, 3, 1).
Proof. reflexivity. Qed.

Example epoch_is_thursday : getDay (parseLocal (ymd 1970 1 1)) = 4.
Proof. reflexivity. Qed.

Example monday_2024_06_10 : getDay (parseLocal (ymd 2024 6 10)) = 1.
Proof. reflexivity. Qed.

Lemma MS_PER_DAY_pos : 0 < MS_PER_DAY.
Proof. reflexivity. Qed.

(** Within one 400-year era the year of the era and the day of the year
    are in range. *)
Lemma civil_era_bounds (doe : Z) :
  0 <= doe < 146097 ->
  let yoe := (doe - doe / 1460 + doe / 36524 - doe / 146096) / 365 in
  let doy := doe - (365 * yoe + yoe / 4 - yoe / 100) in
  0 <= yoe < 400 /\ 0 <= doy < 366.
Proof.
  intros H yoe doy. subst doy yoe.
  Z.div_mod_to_equations. lia.
Qed.

(** The civil date of a day names that day. *)
Lemma days_from_civil_from_days (z : Z) :
  days_from_civil (fst (fst (civil_from_days z))) (snd (fst (civil_from_days z)))
    (snd (civil_from_days z)) = z.
Proof.
  unfold civil_from_days. cbv zeta. cbn [fst snd].
  set (era := (z + 719468) / 146097).
  set (doe := z + 719468 - era * 146097).
  assert (Hdoe : 0 <= doe < 146097).
  { unfold doe, era. pose proof (Z.mod_pos_bound (z + 719468) 146097 ltac:(reflexivity)) as H.
    rewrite Z.mod_eq in H by discriminate. lia. }
  pose proof (civil_era_bounds doe Hdoe) as Hb. cbv zeta in Hb.
  set (yoe := (doe - doe / 1460 + doe / 36524 - doe / 146096) / 365) in *.
  set (doy := doe - (365 * yoe + yoe / 4 - yoe / 100)) in *.
  destruct Hb as [Hyoe Hdoy].
  set (mp := (5 * doy + 2) / 153).
  assert (Hmp : 0 <= mp < 12) by (unfold mp; Z.div_mod_to_equations; lia).
  unfold days_from_civil. cbv zeta.
  assert (Hera : forall y', y' = yoe + era * 400 -> y' / 400 = era).
  { intros y' ->. rewrite Z.div_add by discriminate. rewrite Z.div_small by lia. lia. }
  destruct (Z.ltb_spec mp 10) as [Hlt | Hge].
  - replace (mp + 3 <=? 2) with false by (symmetry; apply Z.leb_gt; lia).
    replace (2 <? mp + 3) with true by (symmetry; apply Z.ltb_lt; lia).
    rewrite (Hera _ eq_refl).
    replace (mp + 3 - 3) with mp by lia.
    replace (yoe + era * 400 - era * 400) with yoe by lia.
    unfold doy, doe. lia.
  - replace (mp - 9 <=? 2) with true by (symmetry; apply Z.leb_le; lia).
    replace (2 <? mp - 9) with false by (symmetry; apply Z.ltb_ge; lia).
    replace (yoe + era * 400 + 1 - 1) with (yoe + era * 400) by lia.
    rewrite (Hera _ eq_refl).
    replace (mp - 9 + 9) with mp by lia.
    replace (yoe + era * 400 - era * 400) with yoe by lia.
    unfold doy, doe. lia.
Qed.

(** Conversely, a valid civil date is the civil date of its day index: day
    indices and valid civil dates correspond one to one. *)

Lemma isLeapYear_true (y : Z) :
  isLeapYear y = true <-> (y mod 4 = 0 /\ y mod 100 <> 0) \/ y mod 400 = 0.
Proof.
  unfold isLeapYear. rewrite orb_true_iff, andb_true_iff, negb_true_iff, !Z.eqb_eq, Z.eqb_neq.
  tauto.
Qed.

(** A day of the year that starts on 1 March of year [yoe] of an era falls
    in that year. *)
Lemma doy_in_year (yoe doy : Z) :
  0 <= yoe < 400 -> 0 <= doy ->
  (doy < 365 \/ (doy = 365 /\ (((yoe + 1) mod 4 = 0 /\ (yoe + 1) mod 100 <> 0) \/ (yoe + 1) mod 400 = 0))) ->
  let doe := yoe * 365 + yoe / 4 - yoe / 100 + doy in
  0 <= doe < 146097 /\
  (doe - doe / 1460 + doe / 36524 - doe / 146096) / 365 = yoe.
Proof.
  intros Hy Hd Hlen doe. subst doe.
  Z.div_mod_to_equations. lia.
Qed.

Lemma month_of_doy (m d : Z) :
  1 <= m <= 12 -> 1 <= d <= 31 ->
  (m = 4 \/ m = 6 \/ m = 9 \/ m = 11 -> d <= 30) ->
  (m = 2 -> d <= 29) ->
  let mp := if 2 <? m then m - 3 else m + 9 in
  let doy := (153 * mp + 2) / 5 + d - 1 in
  0 <= doy <= 365 /\ (doy = 365 -> m = 2 /\ d = 29) /\
  (5 * doy + 2) / 153 = mp /\ doy - (153 * mp + 2) / 5 + 1 = d.
Proof.
  intros Hm Hd H30 H29 mp doy. subst doy mp.
  assert (m = 1 \/ m = 2 \/ m = 3 \/ m = 4 \/ m = 5 \/ m = 6 \/ m = 7 \/ m = 8 \/ m = 9
          \/ m = 10 \/ m = 11 \/ m = 12) as Hcases by lia.
  repeat (destruct Hcases as [-> | Hcases]); [.. | subst m]; cbn [Z.ltb Z.compare Pos.compare Pos.compare_cont];
    cbv beta iota; Z.div_mod_to_equations; lia.
Qed.

Lemma civil_from_days_from_civil (y m d : Z) :
  validDate y m d -> civil_from_days (days_from_civil y m d) = (y, m, d).
Proof.
  intros [Hm Hd]. unfold days_from_civil. cbv zeta.
  set (y' := if m <=? 2 then y - 1 else y).
  set (era := y' / 400).
  set (yoe := y' - era * 400).
  assert (Hyoe : 0 <= yoe < 400).
  { unfold yoe, era. pose proof (Z.mod_pos_bound y' 400 ltac:(reflexivity)) as H.
    rewrite Z.mod_eq in H by discriminate. lia. }
  assert (Hdim : d <= 31 /\ (m = 4 \/ m = 6 \/ m = 9 \/ m = 11 -> d <= 30)
                 /\ (m = 2 -> d <= 29 /\ (d = 29 -> isLeapYear y = true))).
  { unfold daysInMonth in Hd.
    destruct (Z.eqb_spec m 2) as [-> | Hn2].
    - destruct (isLeapYear y); repeat split; try lia; try reflexivity.
    - split; [destruct (_ || _); lia |]. split; [| lia].
      intros [-> | [-> | [-> | ->]]]; simpl in Hd; lia. }
  destruct Hdim as (Hd31 & Hd30 & Hd29).
  pose proof (month_of_doy m d Hm ltac:(lia) Hd30 ltac:(intro H; apply Hd29 in H; lia))
    as Hmonth. cbv zeta in Hmonth.
  set (mp := if 2 <? m then m - 3 else m + 9) in *.
  set (doy := (153 * mp + 2) / 5 + d - 1) in *.
  destruct Hmonth as (Hdoy & Hfeb & Hmp & Hday).
  assert (Hleap : doy < 365 \/
                  (doy = 365 /\ (((yoe + 1) mod 4 = 0 /\ (yoe + 1) mod 100 <> 0)
                                 \/ (yoe + 1) mod 400 = 0))).
  { destruct (Z.eq_dec doy 365) as [H365 | Hne]; [right | left; lia].
    split; [exact H365 |].
    destruct (Hfeb H365) as [-> ->].
    destruct (Hd29 eq_refl) as [_ Hl]. specialize (Hl eq_refl).
    apply isLeapYear_true in Hl.
    assert (y = yoe + 1 + 400 * era)
      by (unfold yoe, y'; change (2 <=? 2) with true; cbv iota; lia).
    clearbody yoe era. subst y. clear - Hl.
    Z.div_mod_to_equations. lia. }
  pose proof (doy_in_year yoe doy Hyoe ltac:(lia) Hleap) as Hyear. cbv zeta in Hyear.
  set (doe := yoe * 365 + yoe / 4 - yoe / 100 + doy) in *.
  destruct Hyear as [Hdoe Hyoe'].
  unfold civil_from_days. cbv zeta.
  replace (era * 146097 + doe - 719468 + 719468) with (doe + era * 146097) by lia.
  rewrite Z.div_add by discriminate. rewrite (Z.div_small doe) by lia.
  replace (doe + era * 146097 - (0 + era) * 146097) with doe by lia.
  rewrite Hyoe'.
  replace (doe - (365 * yoe + yoe / 4 - yoe / 100)) with doy by (unfold doe; lia).
  rewrite Hmp, Hday.
  assert (Hm' : (if mp <? 10 then mp + 3 else mp - 9) = m).
  { unfold mp. destruct (Z.ltb_spec 2 m).
    - replace (m - 3 <? 10) with true by (symmetry; apply Z.ltb_lt; lia). lia.
    - replace (m + 9 <? 10) with false by (symmetry; apply Z.ltb_ge; lia). lia. }
  rewrite Hm'. f_equal. f_equal.
  unfold yoe, y'. destruct (m <=? 2); lia.
Qed.

(** The day index, counted from 1 March of the year the date belongs to. *)
Lemma days_from_civil_march (y m d : Z) :
  days_from_civil y m d =
  marchYearStart (if m <=? 2 then y - 1 else y)
  + (153 * (if 2 <? m then m - 3 else m + 9) + 2) / 5 + d - 1.
Proof.
  unfold days_from_civil, marchYearStart. cbv zeta.
  generalize (if m <=? 2 then y - 1 else y) as y'.
  generalize (if 2 <? m then m - 3 else m + 9) as mp.
  intros mp y'. Z.div_mod_to_equations. lia.
Qed.

Lemma marchYearStart_next (y : Z) :
  marchYearStart (y + 1) = marchYearStart y + 365 + (if isLeapYear (y + 1) then 1 else 0).
Proof.
  unfold marchYearStart.
  destruct (isLeapYear (y + 1)) eqn:E.
  - apply isLeapYear_true in E. Z.div_mod_to_equations. lia.
  - assert (~ ((y + 1) mod 4 = 0 /\ (y + 1) mod 100 <> 0 \/ (y + 1) mod 400 = 0)) as E'
      by (rewrite <- isLeapYear_true; congruence).
    Z.div_mod_to_equations. lia.
Qed.

Lemma marchYearStart_mono (y1 y2 : Z) :
  y1 <= y2 -> marchYearStart y1 <= marchYearStart y2.
Proof. unfold marchYearStart. intro H. Z.div_mod_to_equations. lia. Qed.

Lemma doy_month_lt (q1 d1 q2 d2 : Z) :
  0 <= q1 < q2 -> q2 < 12 -> 1 <= d1 <= 31 -> 1 <= d2 ->
  (q1 = 1 \/ q1 = 3 \/ q1 = 6 \/ q1 = 8 -> d1 <= 30) ->
  (153 * q1 + 2) / 5 + d1 - 1 < (153 * q2 + 2) / 5 + d2 - 1.
Proof.
  intros Hq1 Hq2 Hd1 Hd2 H30.
  assert (q1 = 0 \/ q1 = 1 \/ q1 = 2 \/ q1 = 3 \/ q1 = 4 \/ q1 = 5 \/ q1 = 6 \/ q1 = 7
          \/ q1 = 8 \/ q1 = 9 \/ q1 = 10) as Hcases by lia.
  repeat (destruct Hcases as [-> | Hcases]); [.. | subst q1];
    Z.div_mod_to_equations; lia.
Qed.

(** An earlier valid civil date has a smaller day index. *)
Lemma days_from_civil_lt (y1 m1 d1 y2 m2 d2 : Z) :
  validDate y1 m1 d1 -> validDate y2 m2 d2 ->
  dateBefore (y1, m1, d1) (y2, m2, d2) ->
  days_from_civil y1 m1 d1 < days_from_civil y2 m2 d2.
Proof.
  intros [Hm1 Hd1] [Hm2 Hd2] Hlt. simpl in Hlt.
  assert (Hdim : forall y m d, 1 <= m <= 12 -> 1 <= d <= daysInMonth y m ->
            d <= 31 /\ (m = 4 \/ m = 6 \/ m = 9 \/ m = 11 -> d <= 30)
            /\ (m = 2 -> d <= 29 /\ (d = 29 -> isLeapYear y = true))).
  { intros y m d Hm Hd. unfold daysInMonth in Hd.
    destruct (Z.eqb_spec m 2) as [-> | Hn2].
    - destruct (isLeapYear y); repeat split; try lia; try reflexivity.
    - split; [destruct (_ || _); lia |]. split; [| lia].
      intros [-> | [-> | [-> | ->]]]; simpl in Hd; lia. }
  destruct (Hdim y1 m1 d1 Hm1 Hd1) as (Ha31 & Ha30 & Ha29).
  destruct (Hdim y2 m2 d2 Hm2 Hd2) as (Hb31 & Hb30 & Hb29).
  pose proof (month_of_doy m1 d1 Hm1 ltac:(lia) Ha30 ltac:(intro H; apply Ha29 in H; lia))
    as (Hdoy1 & Hfeb1 & _ & _).
  pose proof (month_of_doy m2 d2 Hm2 ltac:(lia) Hb30 ltac:(intro H; apply Hb29 in H; lia))
    as (Hdoy2 & _ & _ & _).
  rewrite !days_from_civil_march.
  set (p1 := if m1 <=? 2 then y1 - 1 else y1) in *.
  set (p2 := if m2 <=? 2 then y2 - 1 else y2) in *.
  set (q1 := if 2 <? m1 then m1 - 3 else m1 + 9) in *.
  set (q2 := if 2 <? m2 then m2 - 3 else m2 + 9) in *.
  assert (Hpq : p1 < p2 \/ (p1 = p2 /\ (q1 < q2 \/ (q1 = q2 /\ d1 < d2)))).
  { unfold p1, p2, q1, q2.
    destruct (Z.leb_spec m1 2), (Z.leb_spec m2 2), (Z.ltb_spec 2 m1), (Z.ltb_spec 2 m2); lia. }
  destruct Hpq as [Hp | [Hp [Hq | [Hq Hd]]]].
  - (* an earlier March-based year *)
    pose proof (marchYearStart_next p1) as Hnext.
    pose proof (marchYearStart_mono (p1 + 1) p2 ltac:(lia)) as Hmono.
    assert (Hlen : (153 * q1 + 2) / 5 + d1 - 1
                   < 365 + (if isLeapYear (p1 + 1) then 1 else 0)).
    { destruct (Z.eq_dec ((153 * q1 + 2) / 5 + d1 - 1) 365) as [H365 | Hne].
      - destruct (Hfeb1 H365) as [Hm Hd]. destruct (Ha29 Hm) as [_ Hl]. specialize (Hl Hd).
        replace (p1 + 1) with y1 by (unfold p1; rewrite Hm; change (2 <=? 2) with true; cbv iota; lia).
        rewrite Hl. lia.
      - destruct (isLeapYear (p1 + 1)); lia. }
    lia.
  - rewrite Hp. 
    assert ((153 * q1 + 2) / 5 + d1 - 1 < (153 * q2 + 2) / 5 + d2 - 1); [| lia].
    apply doy_month_lt; try lia.
    + unfold q1, q2 in *. destruct (Z.ltb_spec 2 m1), (Z.ltb_spec 2 m2); lia.
    + unfold q2. destruct (Z.ltb_spec 2 m2); lia.
    + intro Hq1. apply Ha30. unfold q1 in Hq1. destruct (Z.ltb_spec 2 m1); lia.
  - rewrite Hp, Hq. lia.
Qed.

(** Distinct well-formed date strings name distinct days, and the order of
    the strings is the order of the days they name. *)
Lemma ymd_before (y1 m1 d1 y2 m2 d2 : Z) :
  validDate y1 m1 d1 -> validDate y2 m2 d2 ->
  (dateBefore (y1, m1, d1) (y2, m2, d2) <-> ymd y1 m1 d1 < ymd y2 m2 d2).
Proof.
  intros H1 H2. split; [now apply days_from_civil_lt |].
  intro Hlt. unfold ymd in Hlt. simpl.
  destruct (Z_lt_le_dec y1 y2) as [| Hy]; [now left |].
  destruct (Z_lt_le_dec y2 y1) as [Hy' |].
  { pose proof (days_from_civil_lt y2 m2 d2 y1 m1 d1 H2 H1 ltac:(simpl; lia)). lia. }
  assert (y1 = y2) by lia. subst y2. right. split; [reflexivity |].
  destruct (Z_lt_le_dec m1 m2) as [| Hm]; [now left |].
  destruct (Z_lt_le_dec m2 m1) as [Hm' |].
  { pose proof (days_from_civil_lt y1 m2 d2 y1 m1 d1 H2 H1 ltac:(simpl; lia)). lia. }
  assert (m1 = m2) by lia. subst m2. right. split; [reflexivity |].
  destruct (Z_lt_le_dec d1 d2) as [| Hd]; [assumption |].
  destruct (Z.eq_dec d1 d2) as [-> | Hne]; [lia |].
  pose proof (days_from_civil_lt y1 m1 d2 y1 m1 d1 H2 H1 ltac:(simpl; lia)). lia.
Qed.

Lemma ymd_injective (y1 m1 d1 y2 m2 d2 : Z) :
  validDate y1 m1 d1 -> validDate y2 m2 d2 ->
  ymd y1 m1 d1 = ymd y2 m2 d2 -> (y1, m1, d1) = (y2, m2, d2).
Proof.
  intros H1 H2 Heq. unfold ymd in Heq.
  rewrite <- (civil_from_days_from_civil y1 m1 d1 H1).
  rewrite <- (civil_from_days_from_civil y2 m2 d2 H2).
  now rewrite Heq.
Qed.

(** [formatDate] names the local calendar day of the instant. *)
Lemma formatDate_dayIndex (t : Date) : formatDate t = dayIndex t.
Proof.
  unfold formatDate, ymd, getFullYear, getMonth, getDate. cbv zeta.
  replace (snd (fst (civil_from_days (dayIndex t))) - 1 + 1)
    with (snd (fst (civil_from_days (dayIndex t)))) by lia.
  apply days_from_civil_from_days.
Qed.

Lemma dayIndex_shift (t k : Z) : dayIndex (t + k * MS_PER_DAY) = dayIndex t + k.
Proof. unfold dayIndex. apply Z.div_add. discriminate. Qed.

Lemma setDate_shift (t k : Z) : setDate t (getDate t + k) = t + k * MS_PER_DAY.
Proof. unfold setDate. f_equal. f_equal. lia. Qed.

Lemma setDate_prev (t : Z) : setDate t (getDate t - 1) = t + (-1) * MS_PER_DAY.
Proof. unfold setDate. f_equal. f_equal. lia. Qed.

Lemma dayIndex_parseLocal (s : DateString) : dayIndex (parseLocal s) = s.
Proof. unfold dayIndex, parseLocal. apply Z.div_mul. discriminate. Qed.

Lemma formatDate_parseLocal (s : DateString) : formatDate (parseLocal s) = s.
Proof. rewrite formatDate_dayIndex. apply dayIndex_parseLocal. Qed.

Lemma parseLocal_shift (s k : Z) : parseLocal s + k * MS_PER_DAY = parseLocal (s + k).
Proof. unfold parseLocal. lia. Qed.

Lemma formatDate_shift (t k : Z) : formatDate (t + k * MS_PER_DAY) = formatDate t + k.
Proof. rewrite !formatDate_dayIndex. apply dayIndex_shift. Qed.

Lemma getDay_range (t : Date) : 0 <= getDay t < 7.
Proof. unfold getDay. apply Z.mod_pos_bound. lia. Qed.

Lemma getDay_shift (t k : Z) : getDay (t + k * MS_PER_DAY) = (getDay t + k) mod 7.
Proof.
  unfold getDay. rewrite dayIndex_shift.
  rewrite Zplus_mod_idemp_l. f_equal. lia.
Qed.

Lemma dayIndex_mono (s t : Date) : s <= t -> dayIndex s <= dayIndex t.
Proof. intro H. unfold dayIndex. apply Z.div_le_mono; [reflexivity | exact H]. Qed.

Lemma includes_In (dates : list DateString) (s : DateString) :
  includes dates s = true <-> In s dates.
Proof.
  unfold includes. rewrite existsb_exists. split.
  - intros [x [Hin Heq]]. apply Z.eqb_eq in Heq. now subst.
  - intro Hin. exists s. split; [exact Hin | apply Z.eqb_refl].
Qed.

Lemma includes_not_In (dates : list DateString) (s : DateString) :
  includes dates s = false <-> ~ In s dates.
Proof.
  rewrite <- includes_In. destruct (includes dates s); split; congruence.
Qed.

(** ** getWeekStart *)

Lemma getWeekStart_offset (date : Date) :
  getWeekStart date =
  date + (if getDay date =? 0 then -6 else 1 - getDay date) * MS_PER_DAY.
Proof.
  unfold getWeekStart, setDate. f_equal. f_equal.
  destruct (getDay date =? 0) eqn:E; [apply Z.eqb_eq in E |]; lia.
Qed.

(** C8: [getWeekStart] returns the Monday on or before the given date (the
    same time of day, on a Monday, at most six days back); for a Sunday it
    returns the date six days earlier. *)
Theorem getWeekStart_monday_on_or_before (date : Date) :
  getDay (getWeekStart date) = 1 /\
  formatDate date - 6 <= formatDate (getWeekStart date) <= formatDate date /\
  getWeekStart date = date - (formatDate date - formatDate (getWeekStart date)) * MS_PER_DAY /\
  (getDay date = 0 ->
   formatDate (getWeekStart date) = formatDate date - 6 /\
   getWeekStart date <> date).
Proof.
  rewrite getWeekStart_offset.
  pose proof (getDay_range date) as Hr.
  rewrite getDay_shift, formatDate_shift.
  destruct (getDay date =? 0) eqn:E.
  - apply Z.eqb_eq in E. rewrite E. pose proof MS_PER_DAY_pos.
    split; [reflexivity |]. split; [lia |]. split; [lia |].
    intros _. split; lia.
  - apply Z.eqb_neq in E.
    replace (getDay date + (1 - getDay date)) with 1 by lia.
    split; [reflexivity |]. split; [lia |]. split; [lia |].
    intro H0. contradiction.
Qed.

Lemma getWeekStart_sunday_witness :
  getDay (parseLocal (ymd 2024 6 16)) = 0 /\
  formatDate (getWeekStart (parseLocal (ymd 2024 6 16))) = ymd 2024 6 10.
Proof.
  split; [reflexivity |].
  apply (getWeekStart_monday_on_or_before (parseLocal (ymd 2024 6 16))).
  reflexivity.
Defined.

(** ** Sorting *)

Section Sorting.

Context {A : Type} (compareFn : A -> A -> Z).

Lemma sortInsert_perm (x : A) (l : list A) :
  Permutation (x :: l) (sortInsert compareFn x l).
Proof.
  induction l as [| y l IH]; simpl.
  - apply Permutation_refl.
  - destruct (compareFn x y <=? 0).
    + apply Permutation_refl.
    + eapply perm_trans; [apply perm_swap |]. now apply perm_skip.
Qed.

Lemma sortBy_perm (l : list A) : Permutation l (sortBy compareFn l).
Proof.
  induction l as [| x l IH]; simpl.
  - constructor.
  - eapply perm_trans; [apply perm_skip, IH | apply sortInsert_perm].
Qed.

Lemma sortBy_In (l : list A) (x : A) : In x (sortBy compareFn l) <-> In x l.
Proof.
  split; apply Permutation_in; [apply Permutation_sym |]; apply sortBy_perm.
Qed.

Lemma sortBy_NoDup (l : list A) : NoDup l -> NoDup (sortBy compareFn l).
Proof. apply Permutation_NoDup, sortBy_perm. Qed.

Lemma sortBy_nonempty (l : list A) : l <> [] -> sortBy compareFn l <> [].
Proof.
  intros Hne Hs. apply Hne.
  apply Permutation_nil. rewrite <- Hs. apply Permutation_sym, sortBy_perm.
Qed.

End Sorting.

Lemma includes_sortBy (compareFn : DateString -> DateString -> Z)
  (l : list DateString) (s : DateString) :
  includes (sortBy compareFn l) s = includes l s.
Proof.
  destruct (includes l s) eqn:E.
  - apply includes_In, sortBy_In, includes_In, E.
  - apply includes_not_In. rewrite sortBy_In. now apply includes_not_In.
Qed.

Lemma localeCompare_le (a b : DateString) : localeCompare a b <= 0 <-> a <= b.
Proof.
  unfold localeCompare. destruct (a ?= b) eqn:E.
  - apply Z.compare_eq in E. lia.
  - rewrite Z.compare_lt_iff in E. lia.
  - rewrite Z.compare_gt_iff in E. lia.
Qed.

(** The descending sort puts a latest date first. *)
Lemma sortBy_desc_head (l : list DateString) :
  l <> [] ->
  exists latest rest,
    sortBy (fun a b => localeCompare b a) l = latest :: rest /\
    Forall (fun c => c <= latest) l.
Proof.
  induction l as [| x l IH]; [congruence | intros _].
  destruct l as [| y l'].
  - exists x, []. split; [reflexivity | constructor; [lia | constructor]].
  - destruct IH as [m [rest [Hs Hall]]]; [discriminate |].
    cbn [sortBy] in *. rewrite Hs. cbn [sortInsert].
    destruct (localeCompare m x <=? 0) eqn:E.
    + apply Z.leb_le in E. apply (proj1 (localeCompare_le _ _)) in E.
      exists x, (m :: rest). split; [reflexivity |].
      constructor; [lia |]. eapply Forall_impl; [| exact Hall]. intros a Ha. simpl in Ha. lia.
    + apply Z.leb_gt in E.
      assert (x < m).
      { destruct (Z_lt_le_dec x m) as [Hlt | Hge]; [assumption |].
        apply (proj2 (localeCompare_le m x)) in Hge. lia. }
      exists m, (sortInsert (fun a b => localeCompare b a) x rest).
      split; [reflexivity |]. constructor; [lia | exact Hall].
Qed.

(** ** The daily branch of calculateStreak when today is completed *)

(** Whenever today is completed and no completion is dated after today, the
    daily branch stops at the first array entry (today's own) and returns 1,
    whatever run of earlier days is present. *)
Lemma calculateStreak_daily_today_completed (now : Date) (done : list DateString)
  (days : option (list string)) (today : DateString) :
  noSchedule days = true ->
  In today done ->
  Forall (fun c => c <= today) done ->
  calculateStreak now done days (Some today) = 1.
Proof.
  intros Hdaily Hin Hle.
  unfold calculateStreak. rewrite Hdaily.
  destruct done as [| c0 done0] eqn:Ed; [destruct Hin |].
  rewrite <- Ed in *. replace (List.length done =? 0)%nat with false
    by (rewrite Ed; reflexivity).
  destruct (sortBy_desc_head done) as [m [rest [Hs Hmax]]]; [rewrite Ed; discriminate |].
  rewrite includes_sortBy.
  replace (includes done today) with true by (symmetry; now apply includes_In).
  rewrite Hs. cbn [dailyStreak_loop].
  assert (Hm : m = today).
  { rewrite Forall_forall in Hmax, Hle.
    assert (In m done) by (apply (sortBy_In (fun a b => localeCompare b a)); rewrite Hs; now left).
    apply Z.le_antisymm; auto. }
  subst m. rewrite setDate_prev, formatDate_shift, formatDate_parseLocal.
  replace (today =? today + -1) with false by (symmetry; apply Z.eqb_neq; lia).
  reflexivity.
Qed.

(** C1 (the code's behaviour at a two-day run): with today and yesterday both
    completed, the daily branch returns 1, not 2. *)
Theorem calculateStreak_daily_run_of_two :
  calculateStreak sampleNow [ymd 2024 6 20; ymd 2024 6 19] (Some []) (Some (ymd 2024 6 20)) = 1
  /\ calculateStreak sampleNow [ymd 2024 6 20; ymd 2024 6 19] None None = 1
  /\ calculateStreak sampleNow [ymd 2024 6 20; ymd 2024 6 19] (Some allWeek) None = 2.
Proof. repeat split; vm_compute; reflexivity. Qed.

(** ** calculateBestStreak on a single completion *)

Lemma calculateBestStreak_singleton (selectedDays : option (list string)) (d : DateString) :
  calculateBestStreak [d] selectedDays = if isScheduledOn selectedDays d then 1 else 0.
Proof.
  unfold calculateBestStreak, isScheduledOn, noSchedule.
  destruct selectedDays as [days |]; cbn; [| reflexivity].
  destruct (List.length days =? 0)%nat; [reflexivity |].
  unfold bestScheduled_step.
  destruct (includesName days (dayNameOf (parseLocal d))); reflexivity.
Qed.

(** C3, as stated, fails: a lone completion on an unscheduled weekday is
    skipped by the scheduled branch, and the best streak is 0. *)
Lemma calculateBestStreak_single_unscheduled :
  ~ (forall (selectedDays : option (list string)) (d : DateString),
        1 <= calculateBestStreak [d] selectedDays).
Proof.
  intro H.
  specialize (H (Some ["monday"%string]) (ymd 2024 6 20)).
  vm_compute in H. apply H. reflexivity.
Qed.

(** C3 (amended): a single completion that falls on a scheduled day (any
    day when the schedule is empty or absent) gives a best streak of at
    least 1. *)
Theorem calculateBestStreak_single_scheduled
  (selectedDays : option (list string)) (d : DateString) :
  isScheduledOn selectedDays d = true ->
  1 <= calculateBestStreak [d] selectedDays.
Proof.
  intro H. rewrite calculateBestStreak_singleton, H. lia.
Qed.

Lemma calculateBestStreak_single_scheduled_witness :
  isScheduledOn (Some ["monday"; "thursday"]%string) (ymd 2024 6 20) = true /\
  1 <= calculateBestStreak [ymd 2024 6 20] (Some ["monday"; "thursday"]%string).
Proof.
  split; [reflexivity |].
  apply (calculateBestStreak_single_scheduled
           (Some ["monday"; "thursday"]%string) (ymd 2024 6 20)).
  reflexivity.
Defined.

(** ** updateHabitStreaks *)

Lemma dailyStreak_loop_ge (sorted : list DateString) (currentDate : Date) (streak : Z) :
  streak <= dailyStreak_loop sorted currentDate streak.
Proof.
  revert currentDate streak.
  induction sorted as [| c rest IH]; intros currentDate streak; simpl; [lia |].
  destruct (c =? formatDate currentDate); [| lia].
  specialize (IH (setDate currentDate (getDate currentDate - 1)) (streak + 1)). lia.
Qed.

Lemma scheduledStreak_loop_ge (fuel : nat) (now : Date) (days : list string)
  (sorted : list DateString) (currentDate : Date) (streak result : Z) :
  scheduledStreak_loop fuel now days sorted currentDate streak = Some result ->
  streak <= result.
Proof.
  revert currentDate streak.
  induction fuel as [| fuel IH]; intros currentDate streak; simpl; [discriminate |].
  destruct (includesName days (dayNameOf currentDate)).
  - destruct (includes sorted (formatDate currentDate)).
    + destruct (_ <? _).
      * intro H. injection H as <-. lia.
      * intro H. apply IH in H. lia.
    + intro H. injection H as <-. lia.
  - destruct (_ <? _).
    + intro H. injection H as <-. lia.
    + intro H. apply IH in H. lia.
Qed.

Lemma calculateStreak_nonneg (now : Date) (done : list DateString)
  (days : option (list string)) (targetDate : option DateString) :
  0 <= calculateStreak now done days targetDate.
Proof.
  unfold calculateStreak.
  destruct (List.length done =? 0)%nat; [lia |].
  destruct (noSchedule days).
  - match goal with |- _ <= dailyStreak_loop ?s ?c ?k =>
      pose proof (dailyStreak_loop_ge s c k) as H; destruct (includes _ _); lia end.
  - match goal with |- _ <= match scheduledStreak_loop ?f ?n ?d ?s ?c ?k with _ => _ end =>
      pose proof (scheduledStreak_loop_ge f n d s c k) as H;
      destruct (scheduledStreak_loop f n d s c k) as [r |];
      [specialize (H r eq_refl) |]; destruct (_ && _); lia end.
Qed.

Lemma updateHabitStreaks_nonneg (now : Date) (habit : Habit) :
  0 <= currentStreak (updateHabitStreaks now habit) /\
  0 <= bestStreak (updateHabitStreaks now habit).
Proof.
  simpl.
  pose proof (calculateStreak_nonneg now (completions habit) (selectedDays habit) None).
  lia.
Qed.

(** C10: the habit returned by [updateHabitStreaks] stores the fresh current
    streak, and as best streak the maximum of the [calculateBestStreak] result
    and that current streak, hence a best streak that is never below the
    current one; on a completion list with repeated dates the clamp is
    what lifts the stored best streak above [calculateBestStreak]. *)
Theorem updateHabitStreaks_best_ge_current :
  (forall (now : Date) (habit : Habit),
      currentStreak (updateHabitStreaks now habit) =
        calculateStreak now (completions habit) (selectedDays habit) None /\
      bestStreak (updateHabitStreaks now habit) =
        Z.max (calculateBestStreak (completions habit) (selectedDays habit))
              (currentStreak (updateHabitStreaks now habit)) /\
      bestStreak (updateHabitStreaks now habit) >= currentStreak (updateHabitStreaks now habit))
  /\
  (exists (now : Date) (habit : Habit),
      calculateBestStreak (completions habit) (selectedDays habit)
        < currentStreak (updateHabitStreaks now habit)
      /\ bestStreak (updateHabitStreaks now habit) = currentStreak (updateHabitStreaks now habit)).
Proof.
  split.
  - intros now habit. cbn [updateHabitStreaks currentStreak bestStreak].
    repeat split. lia.
  - exists sampleNow.
    exists (sampleHabit (ymd 2024 6 1)
              [ymd 2024 6 19; ymd 2024 6 19; ymd 2024 6 18; ymd 2024 6 18;
               ymd 2024 6 17; ymd 2024 6 17]
              (Some allWeek)).
    vm_compute. split; reflexivity.
Qed.

(** ** getHabitStats *)

Lemma fold_left_sum {A : Type} (f : A -> Z) (l : list A) (acc : Z) :
  fold_left (fun sum x => sum + f x) l acc = acc + sumZ (map f l).
Proof.
  revert acc. induction l as [| x l IH]; intro acc; simpl; [lia |].
  rewrite IH. lia.
Qed.

Lemma fold_left_max (l : list Z) (acc : Z) :
  0 <= acc -> fold_left Z.max l acc = Z.max acc (mathMax0 l).
Proof.
  revert acc. induction l as [| x l IH]; intros acc Hacc; simpl; [lia |].
  rewrite IH by lia. lia.
Qed.

Lemma mathMax0_maximumOr0 (l : list Z) :
  Forall (fun x => 0 <= x) l -> mathMax0 l = maximumOr0 l.
Proof.
  destruct l as [| x l]; [reflexivity |].
  intro H. inversion H; subst. simpl. rewrite fold_left_max by assumption. reflexivity.
Qed.

Lemma mathMax0_upper_bound (l : list Z) :
  0 <= mathMax0 l /\ Forall (fun x => x <= mathMax0 l) l.
Proof.
  induction l as [| x l [IH0 IH]]; simpl; [split; [lia | constructor] |].
  split; [lia |]. constructor; [lia |].
  eapply Forall_impl; [| exact IH]. intros a Ha. simpl in Ha. lia.
Qed.

(** C9: [getHabitStats] returns the habit count, the sum of the completion
    list sizes, the rounded mean of the monthly completion rates, the maximum
    cached best streak (0 for no habits) and the number of habits whose
    cached current streak is positive; on the empty list every field is 0.
    Cached best streaks are counts, hence non-negative. *)
Theorem getHabitStats_aggregate (now : Date) (habits : list Habit) :
  Forall (fun h => 0 <= bestStreak h) habits ->
  getHabitStats now habits = aggregateStats_spec now habits
  /\ getHabitStats now [] = mkHabitStats 0 0 0 0 0.
Proof.
  intro Hbest. split; [| reflexivity].
  unfold getHabitStats, aggregateStats_spec.
  rewrite !fold_left_sum, !Z.add_0_l.
  rewrite mathMax0_maximumOr0 by (apply Forall_map; exact Hbest).
  f_equal.
  destruct habits as [| h rest]; [reflexivity |].
  replace (0 <? Z.of_nat (List.length (h :: rest))) with true; [reflexivity |].
  symmetry. apply Z.ltb_lt. simpl List.length. lia.
Qed.

Lemma getHabitStats_aggregate_witness :
  Forall (fun h => 0 <= bestStreak h)
    [updateHabitStreaks sampleNow
       (sampleHabit (ymd 2024 6 10) [ymd 2024 6 19; ymd 2024 6 18] None)] /\
  longestStreak
    (getHabitStats sampleNow
       [updateHabitStreaks sampleNow
          (sampleHabit (ymd 2024 6 10) [ymd 2024 6 19; ymd 2024 6 18] None)]) = 2.
Proof.
  split.
  - constructor; [vm_compute; discriminate | constructor].
  - rewrite (proj1 (getHabitStats_aggregate sampleNow
       [updateHabitStreaks sampleNow
          (sampleHabit (ymd 2024 6 10) [ymd 2024 6 19; ymd 2024 6 18] None)]
       ltac:(constructor; [vm_compute; discriminate | constructor]))).
    reflexivity.
Defined.

(** ** getDateRange *)

Lemma consecutiveDays_In (first : Z) (n : nat) (d : Z) :
  In d (consecutiveDays first n) <-> first <= d < first + Z.of_nat n.
Proof.
  revert first. induction n as [| n IH]; intro first; simpl.
  - lia.
  - rewrite IH. lia.
Qed.


Lemma getDateRange_fuel_next (startDate endDate : Date) :
  startDate <= endDate ->
  getDateRange_fuel startDate endDate =
  S (getDateRange_fuel (startDate + 1 * MS_PER_DAY) endDate).
Proof.
  intro Hle. unfold getDateRange_fuel.
  replace (endDate - (startDate + 1 * MS_PER_DAY))
    with (endDate - startDate + (-1) * MS_PER_DAY) by lia.
  rewrite Z.div_add by discriminate.
  assert (0 <= (endDate - startDate) / MS_PER_DAY)
    by (apply Z.div_pos; [lia | reflexivity]).
  rewrite <- Z2Nat.inj_succ by lia. f_equal. lia.
Qed.

Lemma getDateRange_fuel_empty (startDate endDate : Date) :
  endDate < startDate -> getDateRange_fuel startDate endDate = O.
Proof.
  intro Hlt. unfold getDateRange_fuel.
  assert ((endDate - startDate) / MS_PER_DAY < 0)
    by (apply Z.div_lt_upper_bound; [reflexivity | lia]).
  lia.
Qed.

(** With at least [getDateRange_fuel] iterations the loop leaves through its
    condition and has listed the days from the start day on. *)
Lemma getDateRange_loop_enough (fuel : nat) (startDate endDate : Date) :
  (getDateRange_fuel startDate endDate <= fuel)%nat ->
  getDateRange_loop fuel startDate endDate =
  Some (consecutiveDays (dayIndex startDate) (getDateRange_fuel startDate endDate)).
Proof.
  revert startDate.
  induction fuel as [| fuel IH]; intros startDate Hfuel.
  - destruct (Z_le_gt_dec startDate endDate) as [Hle | Hgt].
    + rewrite getDateRange_fuel_next in Hfuel by assumption. lia.
    + simpl. replace (startDate <=? endDate) with false
        by (symmetry; apply Z.leb_gt; lia).
      rewrite getDateRange_fuel_empty by lia. reflexivity.
  - cbn [getDateRange_loop].
    destruct (Z_le_gt_dec startDate endDate) as [Hle | Hgt].
    + replace (startDate <=? endDate) with true by (symmetry; apply Z.leb_le; lia).
      rewrite getDateRange_fuel_next in * by assumption.
      rewrite setDate_shift, IH by lia.
      rewrite dayIndex_shift, formatDate_dayIndex. reflexivity.
    + replace (startDate <=? endDate) with false
        by (symmetry; apply Z.leb_gt; lia).
      rewrite getDateRange_fuel_empty by lia. reflexivity.
Qed.

Lemma getDateRange_days (startDate endDate : Date) :
  getDateRange startDate endDate =
  consecutiveDays (dayIndex startDate) (getDateRange_fuel startDate endDate).
Proof.
  unfold getDateRange. rewrite getDateRange_loop_enough by lia. reflexivity.
Qed.




(** ** getCompletionRate *)


Lemma completedDays_le_scheduled (now : Date) (habit : Habit) (period : Period) :
  NoDup (completions habit) ->
  0 <= completedDays now habit period
    <= Z.of_nat (List.length (scheduledElapsedDays now habit period)).
Proof.
  intro Hnd. unfold completedDays. split; [lia |].
  apply inj_le, NoDup_incl_length.
  - now apply NoDup_filter.
  - intros c Hc. apply filter_In in Hc. now apply includes_In.
Qed.

Lemma round_div_percent_bounds (completed total : Z) :
  0 <= completed <= total -> 0 < total ->
  0 <= round_div (completed * 100) total <= 100.
Proof.
  intros Hc Ht. unfold round_div. split.
  - apply Z.div_pos; lia.
  - assert ((2 * (completed * 100) + total) / (2 * total) < 101); [| lia].
    apply Z.div_lt_upper_bound; lia.
Qed.

(** C4: for a habit whose completion list has no repeated date, and for
    every period selector, the completion rate lies between 0 and 100. *)
Theorem getCompletionRate_bounds (now : Date) (habit : Habit) (period : Period) :
  NoDup (completions habit) ->
  0 <= getCompletionRate now habit period <= 100.
Proof.
  intro Hnd.
  pose proof (completedDays_le_scheduled now habit period Hnd) as Hc.
  unfold getCompletionRate, getCompletionRate_return.
  destruct (Z.of_nat (List.length (scheduledElapsedDays now habit period)) =? 0) eqn:E0;
    [simpl; lia |].
  apply Z.eqb_neq in E0.
  destruct (_ && _ && _); [simpl; lia |].
  cbn [rateValue].
  replace (0 <? _) with true by (symmetry; apply Z.ltb_lt; lia).
  apply round_div_percent_bounds; lia.
Qed.

Lemma getCompletionRate_bounds_witness :
  NoDup [ymd 2024 6 20; ymd 2024 6 19; ymd 2024 6 15] /\
  0 <= getCompletionRate sampleNow
         (sampleHabit (ymd 2024 6 10) [ymd 2024 6 20; ymd 2024 6 19; ymd 2024 6 15] None)
         Month <= 100.
Proof.
  assert (Hnd : NoDup [ymd 2024 6 20; ymd 2024 6 19; ymd 2024 6 15]).
  { repeat constructor; simpl; vm_compute; intuition discriminate. }
  split; [exact Hnd |].
  apply (getCompletionRate_bounds sampleNow
           (sampleHabit (ymd 2024 6 10) [ymd 2024 6 20; ymd 2024 6 19; ymd 2024 6 15] None)
           Month).
  exact Hnd.
Defined.







(** ** The window of getCompletionRate starts at the creation date *)

Lemma effectiveStartDate_max (now : Date) (habit : Habit) (period : Period) :
  effectiveStartDate now habit period =
  Z.max (periodStart now period) (parseLocal (createdDate habit)).
Proof.
  unfold effectiveStartDate.
  destruct (Z.ltb_spec (periodStart now period) (parseLocal (createdDate habit))); lia.
Qed.


Lemma dayIndex_bounds (t : Date) :
  dayIndex t * MS_PER_DAY <= t < (dayIndex t + 1) * MS_PER_DAY.
Proof.
  unfold dayIndex. pose proof MS_PER_DAY_pos.
  pose proof (Z.mul_div_le t MS_PER_DAY ltac:(lia)).
  pose proof (Z.mul_succ_div_gt t MS_PER_DAY ltac:(lia)). lia.
Qed.






(** ** The backward walk of calculateStreak *)

Lemma dayNameOf_formatDate (t : Date) : dayNameOf (parseLocal (formatDate t)) = dayNameOf t.
Proof.
  unfold dayNameOf, getDay. now rewrite formatDate_dayIndex, dayIndex_parseLocal.
Qed.

Lemma isScheduledOn_scheduled (selectedDays : option (list string)) (d : DateString) :
  noSchedule selectedDays = false ->
  isScheduledOn selectedDays d =
  includesName (match selectedDays with Some days => days | None => [] end)
               (dayNameOf (parseLocal d)).
Proof.
  unfold noSchedule, isScheduledOn.
  destruct selectedDays as [days |]; [| discriminate].
  intros ->. reflexivity.
Qed.

Lemma isScheduledOn_daily (selectedDays : option (list string)) (d : DateString) :
  noSchedule selectedDays = true -> isScheduledOn selectedDays d = true.
Proof.
  unfold noSchedule, isScheduledOn.
  destruct selectedDays as [days |]; [| reflexivity].
  intros ->. reflexivity.
Qed.

Lemma dailyStreak_trace_loop (sorted : list DateString) (currentDate : Date) (streak : Z) :
  fst (dailyStreak_trace sorted currentDate streak) = dailyStreak_loop sorted currentDate streak
  /\ (List.length (snd (dailyStreak_trace sorted currentDate streak)) <= List.length sorted)%nat.
Proof.
  revert currentDate streak.
  induction sorted as [| c rest IH]; intros currentDate streak; simpl; [split; [reflexivity | lia] |].
  destruct (c =? formatDate currentDate); [| simpl; split; [reflexivity | lia]].
  specialize (IH (setDate currentDate (getDate currentDate - 1)) (streak + 1)).
  destruct (dailyStreak_trace rest _ _) as [result inspected]. simpl in *.
  destruct IH. split; [assumption | lia].
Qed.

Lemma scheduledStreak_trace_loop (fuel : nat) (now : Date) (days : list string)
  (sorted : list DateString) (currentDate : Date) (streak : Z) :
  option_map fst (scheduledStreak_trace fuel now days sorted currentDate streak)
  = scheduledStreak_loop fuel now days sorted currentDate streak.
Proof.
  revert currentDate streak.
  induction fuel as [| fuel IH]; intros currentDate streak; [reflexivity |].
  cbn [scheduledStreak_trace scheduledStreak_loop].
  destruct (includesName days (dayNameOf currentDate));
    [destruct (includes sorted (formatDate currentDate)); [| reflexivity] |];
    (destruct (_ <? _); [reflexivity |]);
    rewrite <- IH;
    destruct (scheduledStreak_trace fuel now days sorted _ _) as [[r i] |]; reflexivity.
Qed.

(** More fuel does not change a finished walk. *)
Lemma scheduledStreak_trace_more_fuel (fuel fuel' : nat) (now : Date) (days : list string)
  (sorted : list DateString) (currentDate : Date) (streak : Z) (out : Z * list DateString) :
  (fuel <= fuel')%nat ->
  scheduledStreak_trace fuel now days sorted currentDate streak = Some out ->
  scheduledStreak_trace fuel' now days sorted currentDate streak = Some out.
Proof.
  revert fuel' currentDate streak out.
  induction fuel as [| fuel IH]; intros fuel' currentDate streak out Hle; [discriminate |].
  destruct fuel' as [| fuel']; [lia |].
  cbn [scheduledStreak_trace].
  assert (Hnext : forall s o,
    (if setDate currentDate (getDate currentDate - 1) <? now - 365 * 24 * 60 * 60 * 1000
     then Some (s, [formatDate currentDate])
     else match scheduledStreak_trace fuel now days sorted
                  (setDate currentDate (getDate currentDate - 1)) s with
          | Some (result, inspected) => Some (result, formatDate currentDate :: inspected)
          | None => None
          end) = Some o ->
    (if setDate currentDate (getDate currentDate - 1) <? now - 365 * 24 * 60 * 60 * 1000
     then Some (s, [formatDate currentDate])
     else match scheduledStreak_trace fuel' now days sorted
                  (setDate currentDate (getDate currentDate - 1)) s with
          | Some (result, inspected) => Some (result, formatDate currentDate :: inspected)
          | None => None
          end) = Some o).
  { intros s o. destruct (_ <? _); [trivial |].
    destruct (scheduledStreak_trace fuel now days sorted _ s) as [[r i] |] eqn:E;
      [| discriminate].
    rewrite (IH fuel' _ _ _ ltac:(lia) E). trivial. }
  destruct (includesName days (dayNameOf currentDate));
    [destruct (includes sorted (formatDate currentDate)); [| trivial] |]; apply Hnext.
Qed.

(** The walk leaves its loop within [scheduledStreak_fuel] iterations. *)
Lemma scheduledStreak_trace_terminates (fuel : nat) (now : Date) (days : list string)
  (sorted : list DateString) (currentDate : Date) (streak : Z) :
  (scheduledStreak_fuel now currentDate <= fuel)%nat ->
  exists out, scheduledStreak_trace fuel now days sorted currentDate streak = Some out.
Proof.
  revert currentDate streak.
  induction fuel as [| fuel IH]; intros currentDate streak Hfuel;
    [unfold scheduledStreak_fuel in Hfuel; lia |].
  cbn [scheduledStreak_trace].
  assert (Hnext : forall s, exists out,
    (if setDate currentDate (getDate currentDate - 1) <? now - 365 * 24 * 60 * 60 * 1000
     then Some (s, [formatDate currentDate])
     else match scheduledStreak_trace fuel now days sorted
                  (setDate currentDate (getDate currentDate - 1)) s with
          | Some (result, inspected) => Some (result, formatDate currentDate :: inspected)
          | None => None
          end) = Some out).
  { intro s. destruct (Z.ltb_spec (setDate currentDate (getDate currentDate - 1))
                         (now - 365 * 24 * 60 * 60 * 1000)) as [Hlt | Hge];
      [eexists; reflexivity |].
    destruct (IH (setDate currentDate (getDate currentDate - 1)) s) as [[r i] Hout].
    - rewrite setDate_prev in *. unfold scheduledStreak_fuel in *.
      replace (currentDate + -1 * MS_PER_DAY - (now - 365 * 24 * 60 * 60 * 1000))
        with (currentDate - (now - 365 * 24 * 60 * 60 * 1000) + (-1) * MS_PER_DAY) by lia.
      rewrite Z.div_add by discriminate.
      assert (0 <= (currentDate + -1 * MS_PER_DAY - (now - 365 * 24 * 60 * 60 * 1000))
                   / MS_PER_DAY) as H0 by (apply Z.div_pos; [lia | reflexivity]).
      replace (currentDate + -1 * MS_PER_DAY - (now - 365 * 24 * 60 * 60 * 1000))
        with (currentDate - (now - 365 * 24 * 60 * 60 * 1000) + (-1) * MS_PER_DAY) in H0 by lia.
      rewrite Z.div_add in H0 by discriminate. lia.
    - rewrite Hout. eexists; reflexivity. }
  destruct (includesName days (dayNameOf currentDate));
    [destruct (includes sorted (formatDate currentDate)); [| eexists; reflexivity] |];
    apply Hnext.
Qed.

(** The [while (true)] loop of [calculateStreak] reaches one of its [break]s
    within [scheduledStreak_fuel] iterations. *)
Lemma scheduledStreak_loop_terminates (now : Date) (days : list string)
  (sorted : list DateString) (currentDate : Date) (streak : Z) :
  exists result,
    scheduledStreak_loop (scheduledStreak_fuel now currentDate) now days sorted
      currentDate streak = Some result.
Proof.
  destruct (scheduledStreak_trace_terminates (scheduledStreak_fuel now currentDate) now days
              sorted currentDate streak (le_n _)) as [[result inspected] H].
  exists result. rewrite <- scheduledStreak_trace_loop, H. reflexivity.
Qed.

Lemma formatDate_year_before (now : Date) :
  formatDate (now - 365 * 24 * 60 * 60 * 1000) = getTodayString now - 365.
Proof.
  unfold getTodayString.
  replace (now - 365 * 24 * 60 * 60 * 1000) with (now + (-365) * MS_PER_DAY)
    by (unfold MS_PER_DAY; lia).
  rewrite formatDate_shift. lia.
Qed.

(** What the scheduled walk looks at, and what it returns. *)
Lemma scheduledStreak_trace_inspected (fuel : nat) (now : Date) (days : list string)
  (sorted : list DateString) (currentDate : Date) (streak result : Z)
  (inspected : list DateString) :
  scheduledStreak_trace fuel now days sorted currentDate streak = Some (result, inspected) ->
  (forall d, In d inspected ->
             d <= formatDate currentDate /\
             (d = formatDate currentDate \/ getTodayString now - 365 <= d))
  /\ result = streak
              + Z.of_nat (List.length
                  (filter (fun d => includesName days (dayNameOf (parseLocal d))
                                    && includes sorted d) inspected)).
Proof.
  revert currentDate streak result inspected.
  induction fuel as [| fuel IH]; intros currentDate streak result inspected; [discriminate |].
  cbn [scheduledStreak_trace].
  assert (Hnext : forall s,
    (if setDate currentDate (getDate currentDate - 1) <? now - 365 * 24 * 60 * 60 * 1000
     then Some (s, [formatDate currentDate])
     else match scheduledStreak_trace fuel now days sorted
                  (setDate currentDate (getDate currentDate - 1)) s with
          | Some (result, inspected) => Some (result, formatDate currentDate :: inspected)
          | None => None
          end) = Some (result, inspected) ->
    exists rest,
      inspected = formatDate currentDate :: rest /\
      (forall d, In d rest -> d < formatDate currentDate /\ getTodayString now - 365 <= d) /\
      result = s + Z.of_nat (List.length
                  (filter (fun d => includesName days (dayNameOf (parseLocal d))
                                    && includes sorted d) rest))).
  { intro s.
    destruct (Z.ltb_spec (setDate currentDate (getDate currentDate - 1))
                (now - 365 * 24 * 60 * 60 * 1000)) as [Hlt | Hge].
    - intro H. injection H as <- <-. exists []. simpl. repeat split; try lia; contradiction.
    - destruct (scheduledStreak_trace fuel now days sorted _ s) as [[r i] |] eqn:E;
        [| discriminate].
      intro H. injection H as <- <-. exists i.
      apply IH in E. destruct E as [Hin Hr].
      rewrite setDate_prev, formatDate_shift in Hin.
      apply dayIndex_mono in Hge. rewrite <- !formatDate_dayIndex in Hge.
      rewrite formatDate_year_before, setDate_prev, formatDate_shift in Hge.
      split; [reflexivity |]. split; [| exact Hr].
      intros d Hd. specialize (Hin d Hd). lia. }
  assert (Hcount : forall s rest (counted : bool),
    includesName days (dayNameOf currentDate) && includes sorted (formatDate currentDate)
      = counted ->
    result = s + (if counted then 1 else 0)
             + Z.of_nat (List.length
                  (filter (fun d => includesName days (dayNameOf (parseLocal d))
                                    && includes sorted d) rest)) ->
    result = s + Z.of_nat (List.length
                  (filter (fun d => includesName days (dayNameOf (parseLocal d))
                                    && includes sorted d) (formatDate currentDate :: rest)))).
  { intros s rest counted Hc Hr. cbn [filter].
    rewrite dayNameOf_formatDate, Hc. destruct counted; simpl List.length; lia. }
  destruct (includesName days (dayNameOf currentDate)) eqn:Esched.
  - destruct (includes sorted (formatDate currentDate)) eqn:Edone.
    + intro H. apply Hnext in H. destruct H as [rest [-> [Hin Hr]]]. split.
      * intros d [<- | Hd]; [lia | specialize (Hin d Hd); lia].
      * apply (Hcount streak rest true); [reflexivity | lia].
    + intro H. injection H as <- <-. split.
      * intros d [<- | []]. lia.
      * apply (Hcount streak [] false); [reflexivity | simpl; lia].
  - intro H. apply Hnext in H. destruct H as [rest [-> [Hin Hr]]]. split.
    + intros d [<- | Hd]; [lia | specialize (Hin d Hd); lia].
    + apply (Hcount streak rest false); [reflexivity | lia].
Qed.

(** C7, as stated, fails.  The daily branch has no 365-day bound: with 400
    consecutive completions ending yesterday it looks at the day 400 days
    before today and returns 400.  In the scheduled branch the bound is
    counted from the wall clock, not from the day taken as today: asked
    about 2020-01-10 on 2024-06-20 the walk looks at 2020-01-09, and asked
    about 2024-06-30 it walks 374 days back from there. *)
Lemma calculateStreak_walk_beyond_365 :
  (exists inspected,
     calculateStreak_run 0 sampleNow longRun None None = Some (400, inspected)
     /\ In (getTodayString sampleNow - 400) inspected
     /\ streakToday sampleNow None = getTodayString sampleNow)
  /\ (calculateStreak_run 1 sampleNow [ymd 2020 1 9] (Some allWeek) (Some (ymd 2020 1 10))
      = Some (1, [ymd 2020 1 9])
      /\ ymd 2020 1 9 < getTodayString sampleNow - 365)
  /\ (exists inspected,
        calculateStreak_run 400 sampleNow mondayRun (Some ["monday"%string])
          (Some (ymd 2024 6 30)) = Some (53, inspected)
        /\ In (ymd 2024 6 30 - 374) inspected).
Proof.
  split; [| split].
  - exists (rev longRun). split; [vm_compute; reflexivity |].
    split; [| reflexivity].
    apply in_rev. rewrite rev_involutive. unfold longRun.
    apply consecutiveDays_In. vm_compute. split; congruence.
  - split; vm_compute; reflexivity.
  - exists (rev (consecutiveDays (ymd 2024 6 30 - 374) 374)).
    split; [vm_compute; reflexivity |].
    apply in_rev. rewrite rev_involutive.
    apply consecutiveDays_In. vm_compute. split; congruence.
Qed.

(** C7 (amended): the backward walk always terminates.  With a non-empty
    schedule every day it looks at, other than the first (the day before the
    day taken as today), is at most 365 days before the wall-clock today, so
    none is older than that when the walk starts from today; and it returns
    the streak accumulated over the days it looked at.  With an empty or
    absent schedule there is no 365-day bound: the walk looks at no more
    days than there are completions. *)
Theorem calculateStreak_walk_terminates_bounded (now : Date)
  (completions : list DateString) (selectedDays : option (list string))
  (targetDate : option DateString) :
  exists inspected : list DateString,
    (exists enough : nat, forall fuel : nat, (enough <= fuel)%nat ->
       calculateStreak_run fuel now completions selectedDays targetDate
       = Some (calculateStreak now completions selectedDays targetDate, inspected))
    /\ (noSchedule selectedDays = true ->
        (List.length inspected <= List.length completions)%nat)
    /\ (noSchedule selectedDays = false ->
        (forall d, In d inspected ->
           d < streakToday now targetDate /\
           (d = streakToday now targetDate - 1 \/ getTodayString now - 365 <= d))
        /\ (streakToday now targetDate = getTodayString now ->
            forall d, In d inspected -> getTodayString now - 365 <= d)
        /\ calculateStreak now completions selectedDays targetDate
           = todayBonus now completions selectedDays targetDate
             + Z.of_nat (List.length
                 (filter (fun d => isScheduledOn selectedDays d && includes completions d)
                         inspected))).
Proof.
  unfold calculateStreak_run, calculateStreak, todayBonus. cbv zeta.
  fold (streakToday now targetDate).
  destruct (List.length completions =? 0)%nat eqn:Elen.
  - exists []. split; [exists O; reflexivity |].
    split; [simpl; lia |]. intros _.
    apply Nat.eqb_eq in Elen. destruct completions; [| discriminate].
    simpl. rewrite andb_false_r. repeat split; contradiction.
  - set (today := streakToday now targetDate).
    set (sorted := sortBy (fun a b => localeCompare b a) completions).
    destruct (noSchedule selectedDays) eqn:Esched.
    + pose proof (dailyStreak_trace_loop sorted
                    (setDate (parseLocal today) (getDate (parseLocal today) - 1))
                    (if includes sorted today then 1 else 0)) as [Hfst Hlen].
      destruct (dailyStreak_trace sorted _ _) as [result inspected] eqn:Et.
      simpl in Hfst, Hlen. exists inspected.
      split; [exists O; intros fuel _; now rewrite <- Hfst |].
      split; [| discriminate]. intros _.
      unfold sorted in Hlen.
      rewrite <- (Permutation_length (sortBy_perm (fun a b => localeCompare b a) completions))
        in Hlen. exact Hlen.
    + set (days := match selectedDays with Some days => days | None => [] end).
      set (start := setDate (parseLocal today) (getDate (parseLocal today) - 1)).
      set (streak := if includesName days (dayNameOf (parseLocal today))
                        && includes sorted today then 1 else 0).
      destruct (scheduledStreak_trace_terminates (scheduledStreak_fuel now start) now days
                  sorted start streak (le_n _)) as [[result inspected] Hrun].
      pose proof (scheduledStreak_trace_loop (scheduledStreak_fuel now start) now days
                    sorted start streak) as Hloop.
      rewrite Hrun in Hloop. cbn [option_map fst] in Hloop. rewrite <- Hloop.
      exists inspected.
      split.
      { exists (scheduledStreak_fuel now start). intros fuel Hfuel.
        eapply scheduledStreak_trace_more_fuel; eassumption. }
      split; [discriminate |]. intros _.
      apply scheduledStreak_trace_inspected in Hrun. destruct Hrun as [Hin Hres].
      unfold start in Hin. rewrite setDate_prev, formatDate_shift, formatDate_parseLocal in Hin.
      split; [intros d Hd; specialize (Hin d Hd); lia |].
      split; [intros Htoday d Hd; specialize (Hin d Hd); lia |].
      rewrite Hres. unfold streak.
      rewrite (isScheduledOn_scheduled selectedDays today Esched). fold days.
      unfold sorted at 1. rewrite includes_sortBy.
      f_equal. f_equal. f_equal. apply filter_ext. intro d.
      rewrite (isScheduledOn_scheduled selectedDays d Esched). fold days.
      unfold sorted. now rewrite includes_sortBy.
Qed.

(** ** Runs of scheduled days *)

Section ScheduledRuns.

Variable sched : DateString -> bool.

Lemma scheduledCount_nonneg (last : DateString) (n : nat) :
  0 <= scheduledCount sched last n.
Proof.
  revert last. induction n as [| n IH]; intro last; simpl; [lia |].
  specialize (IH (last - 1)). destruct (sched last); lia.
Qed.

Lemma scheduledCount_app (last : DateString) (a b : nat) :
  scheduledCount sched last (a + b) =
  scheduledCount sched last a + scheduledCount sched (last - Z.of_nat a) b.
Proof.
  revert last. induction a as [| a IH]; intro last.
  - simpl. f_equal. f_equal. lia.
  - cbn [Nat.add scheduledCount]. rewrite IH.
    replace (last - 1 - Z.of_nat a) with (last - Z.of_nat (S a)) by lia. lia.
Qed.

Lemma scheduledCount_zero (last : DateString) (n : nat) :
  (forall i : nat, (i < n)%nat -> sched (last - Z.of_nat i) = false) ->
  scheduledCount sched last n = 0.
Proof.
  revert last. induction n as [| n IH]; intros last H; simpl; [reflexivity |].
  rewrite IH.
  - specialize (H O ltac:(lia)). simpl in H. rewrite Z.sub_0_r in H. now rewrite H.
  - intros i Hi. specialize (H (S i) ltac:(lia)).
    replace (last - 1 - Z.of_nat i) with (last - Z.of_nat (S i)) by lia. exact H.
Qed.

Lemma covered_tail (done : list DateString) (last : DateString) (a b : nat) :
  covered sched done last (a + b) -> covered sched done (last - Z.of_nat a) b.
Proof.
  intros H i Hi Hs.
  replace (last - Z.of_nat a - Z.of_nat i) with (last - Z.of_nat (a + i)) in * by lia.
  apply H; [lia | exact Hs].
Qed.

Lemma covered_incl (done done' : list DateString) (last : DateString) (n : nat) :
  (forall d, In d done -> In d done') ->
  covered sched done last n -> covered sched done' last n.
Proof. intros Hincl H i Hi Hs. apply Hincl, H; assumption. Qed.

End ScheduledRuns.

Lemma scheduledCount_ext (sched sched' : DateString -> bool) (last : DateString) (n : nat) :
  (forall d, sched d = sched' d) ->
  scheduledCount sched last n = scheduledCount sched' last n.
Proof.
  intro H. revert last. induction n as [| n IH]; intro last; simpl; [reflexivity |].
  now rewrite H, IH.
Qed.

Lemma scheduledCount_all (last : DateString) (n : nat) :
  scheduledCount (fun _ => true) last n = Z.of_nat n.
Proof.
  revert last. induction n as [| n IH]; intro last; [reflexivity |].
  cbn [scheduledCount]. rewrite IH. lia.
Qed.

(** ** What calculateStreak counts *)

Lemma dailyStreak_loop_run (sorted : list DateString) (currentDate : Date) (streak : Z) :
  exists k : nat,
    dailyStreak_loop sorted currentDate streak = streak + Z.of_nat k
    /\ forall i : nat, (i < k)%nat -> In (formatDate currentDate - Z.of_nat i) sorted.
Proof.
  revert currentDate streak.
  induction sorted as [| c rest IH]; intros currentDate streak; cbn [dailyStreak_loop].
  - exists O. split; [lia | intros i Hi; lia].
  - destruct (Z.eqb_spec c (formatDate currentDate)) as [-> | Hne].
    + destruct (IH (setDate currentDate (getDate currentDate - 1)) (streak + 1))
        as [k [Hk Hin]].
      exists (S k). split; [lia |].
      intros [| i] Hi.
      * left. cbn [Z.of_nat]. lia.
      * right. specialize (Hin i ltac:(lia)).
        rewrite setDate_prev, formatDate_shift in Hin.
        replace (formatDate currentDate - Z.of_nat (S i))
          with (formatDate currentDate + -1 - Z.of_nat i) by lia.
        exact Hin.
    + exists O. split; [lia | intros i Hi; lia].
Qed.

Lemma scheduledStreak_loop_run (fuel : nat) (now : Date) (days : list string)
  (sorted : list DateString) (currentDate : Date) (streak result : Z) :
  scheduledStreak_loop fuel now days sorted currentDate streak = Some result ->
  exists k : nat,
    result = streak
             + scheduledCount (fun d => includesName days (dayNameOf (parseLocal d)))
                 (formatDate currentDate) k
    /\ covered (fun d => includesName days (dayNameOf (parseLocal d))) sorted
         (formatDate currentDate) k.
Proof.
  set (sched := fun d => includesName days (dayNameOf (parseLocal d))).
  revert currentDate streak result.
  induction fuel as [| fuel IH]; intros currentDate streak result; [discriminate |].
  cbn [scheduledStreak_loop].
  assert (Hstop : forall s, exists k : nat,
             s = s + scheduledCount sched (formatDate currentDate) k
             /\ covered sched sorted (formatDate currentDate) k).
  { intro s. exists O. split; [simpl; lia | intros i Hi; lia]. }
  assert (Hnext : forall s,
    (includesName days (dayNameOf currentDate) = true ->
      includes sorted (formatDate currentDate) = true) ->
    (if setDate currentDate (getDate currentDate - 1) <? now - 365 * 24 * 60 * 60 * 1000
     then Some s
     else scheduledStreak_loop fuel now days sorted
            (setDate currentDate (getDate currentDate - 1)) s) = Some result ->
    exists k : nat,
      result = s + scheduledCount sched (formatDate currentDate - 1) k
      /\ covered sched sorted (formatDate currentDate) (S k)).
  { intros s Hdone. destruct (_ <? _).
    - intro H. injection H as <-. exists O. split; [simpl; lia |].
      intros i Hi Hs. replace i with O in * by lia. cbn [Z.of_nat] in *.
      rewrite Z.sub_0_r in *. apply includes_In, Hdone. unfold sched in Hs.
      now rewrite <- dayNameOf_formatDate.
    - intro H. apply IH in H. destruct H as [k [Hr Hc]].
      rewrite setDate_prev, formatDate_shift in Hr, Hc.
      exists k. split; [exact Hr |].
      intros [| i] Hi Hs.
      + cbn [Z.of_nat] in *. rewrite Z.sub_0_r in *. apply includes_In, Hdone. unfold sched in Hs.
        now rewrite <- dayNameOf_formatDate.
      + replace (formatDate currentDate - Z.of_nat (S i))
          with (formatDate currentDate + -1 - Z.of_nat i) in * by lia.
        apply Hc; [lia | exact Hs]. }
  assert (Hhead : forall k,
    scheduledCount sched (formatDate currentDate) (S k) =
    (if includesName days (dayNameOf currentDate) then 1 else 0)
    + scheduledCount sched (formatDate currentDate - 1) k).
  { intro k. cbn [scheduledCount]. unfold sched at 1. now rewrite dayNameOf_formatDate. }
  destruct (includesName days (dayNameOf currentDate)) eqn:Esched.
  - destruct (includes sorted (formatDate currentDate)) eqn:Edone.
    + intro H. apply Hnext in H; [| intros _; reflexivity].
      destruct H as [k [Hr Hc]]. exists (S k). rewrite Hhead. split; [lia | exact Hc].
    + intro H. injection H as <-. apply Hstop.
  - intro H. apply Hnext in H; [| discriminate].
    destruct H as [k [Hr Hc]]. exists (S k). rewrite Hhead. split; [lia | exact Hc].
Qed.

(** [calculateStreak] returns the number of scheduled days of some stretch
    of days in which every scheduled day is completed. *)
Lemma calculateStreak_covered_run (now : Date) (done : list DateString)
  (selectedDays : option (list string)) (targetDate : option DateString) :
  exists (last : DateString) (n : nat),
    calculateStreak now done selectedDays targetDate
    = scheduledCount (isScheduledOn selectedDays) last n
    /\ covered (isScheduledOn selectedDays) done last n.
Proof.
  unfold calculateStreak. cbv zeta. fold (streakToday now targetDate).
  set (today := streakToday now targetDate).
  destruct (List.length done =? 0)%nat.
  { exists today, O. split; [reflexivity | intros i Hi; lia]. }
  set (sorted := sortBy (fun a b => localeCompare b a) done).
  assert (Hsorted : forall d, In d sorted -> In d done)
    by (intro d; apply sortBy_In).
  assert (Hfinish : forall (bonus : bool) (k : nat),
    (bonus = true -> isScheduledOn selectedDays today = true /\ In today done) ->
    covered (isScheduledOn selectedDays) sorted (today - 1) k ->
    exists (last : DateString) (n : nat),
      (if bonus then 1 else 0) + scheduledCount (isScheduledOn selectedDays) (today - 1) k
      = scheduledCount (isScheduledOn selectedDays) last n
      /\ covered (isScheduledOn selectedDays) done last n).
  { intros [|] k Hbonus Hcov.
    - destruct (Hbonus eq_refl) as [Hs Hin].
      exists today, (S k). cbn [scheduledCount]. rewrite Hs. split; [reflexivity |].
      intros [| i] Hi Hsi.
      + simpl. now rewrite Z.sub_0_r.
      + replace (today - Z.of_nat (S i)) with (today - 1 - Z.of_nat i) in * by lia.
        apply Hsorted, Hcov; [lia | exact Hsi].
    - exists (today - 1), k. split; [lia |].
      eapply covered_incl; [exact Hsorted | exact Hcov]. }
  destruct (noSchedule selectedDays) eqn:Esched.
  - destruct (dailyStreak_loop_run sorted
                (setDate (parseLocal today) (getDate (parseLocal today) - 1))
                (if includes sorted today then 1 else 0)) as [k [Hk Hin]].
    rewrite Hk. rewrite setDate_prev, formatDate_shift, formatDate_parseLocal in Hin.
    rewrite <- (scheduledCount_all (today - 1) k).
    rewrite (scheduledCount_ext (fun _ => true) (isScheduledOn selectedDays))
      by (intro d; symmetry; now apply isScheduledOn_daily).
    apply Hfinish.
    + intro Hb. split; [now apply isScheduledOn_daily |].
      apply Hsorted, includes_In, Hb.
    + intros i Hi _. replace (today - 1 - Z.of_nat i) with (today + -1 - Z.of_nat i) by lia.
      now apply Hin.
  - set (days := match selectedDays with Some days => days | None => [] end).
    set (start := setDate (parseLocal today) (getDate (parseLocal today) - 1)).
    set (bonus := includesName days (dayNameOf (parseLocal today)) && includes sorted today).
    assert (Hext : forall d, includesName days (dayNameOf (parseLocal d))
                             = isScheduledOn selectedDays d)
      by (intro d; symmetry; now apply isScheduledOn_scheduled).
    assert (Hbonus : bonus = true -> isScheduledOn selectedDays today = true /\ In today done).
    { unfold bonus. intro Hb. apply andb_true_iff in Hb. destruct Hb as [H1 H2].
      split; [now rewrite <- Hext | apply Hsorted, includes_In, H2]. }
    destruct (scheduledStreak_loop (scheduledStreak_fuel now start) now days sorted start
                (if bonus then 1 else 0)) as [result |] eqn:Eloop.
    + apply scheduledStreak_loop_run in Eloop. destruct Eloop as [k [Hr Hc]].
      unfold start in Hr, Hc.
      rewrite setDate_prev, formatDate_shift, formatDate_parseLocal in Hr, Hc.
      rewrite Hr.
      rewrite (scheduledCount_ext _ (isScheduledOn selectedDays)) by exact Hext.
      replace (today + -1) with (today - 1) in * by lia.
      apply Hfinish; [exact Hbonus |].
      intros i Hi Hs. apply Hc; [exact Hi | now rewrite Hext].
    + replace (if bonus then 1 else 0)
        with ((if bonus then 1 else 0)
              + scheduledCount (isScheduledOn selectedDays) (today - 1) O)
        by (simpl; lia).
      apply Hfinish; [exact Hbonus | intros i Hi; lia].
Qed.

(** ** The loop of calculateBestStreak *)

Section BestLoopInvariant.

Variable counts : DateString -> bool.
Variable continues : Date -> DateString -> bool.

(** A counted completion prolongs the run of the previous counted one
    exactly when no counted day lies strictly between the two. *)
Hypothesis continues_spec : forall p x : DateString,
  p < x -> counts p = true -> counts x = true ->
  (continues (parseLocal p) x = true <-> forall d, p < d < x -> counts d = false).

Lemma lastCounted_snoc (l : list DateString) (x : DateString) :
  lastCounted counts (l ++ [x]) = if counts x then Some x else lastCounted counts l.
Proof. unfold lastCounted. rewrite fold_left_app. reflexivity. Qed.

Lemma lastCounted_None (l : list DateString) :
  lastCounted counts l = None -> forall y, In y l -> counts y = false.
Proof.
  induction l as [| x l IH] using rev_ind; intros H y Hy; [destruct Hy |].
  rewrite lastCounted_snoc in H. destruct (counts x) eqn:Ex; [discriminate |].
  apply in_app_or in Hy. destruct Hy as [Hy | [<- | []]]; [now apply IH | exact Ex].
Qed.

Lemma lastCounted_Some (l : list DateString) (p : DateString) :
  Ascending l -> lastCounted counts l = Some p ->
  In p l /\ counts p = true /\ forall y, In y l -> counts y = true -> y <= p.
Proof.
  intro Hasc. revert p. induction Hasc as [| l x Hasc IH Hlt]; intros p H; [discriminate |].
  rewrite lastCounted_snoc in H. destruct (counts x) eqn:Ex.
  - injection H as <-. split; [apply in_or_app; right; now left |]. split; [exact Ex |].
    intros y Hy _. apply in_app_or in Hy. destruct Hy as [Hy | [<- | []]]; [| lia].
    specialize (Hlt y Hy). lia.
  - destruct (IH p H) as [Hin [Hp Hmax]].
    split; [apply in_or_app; now left |]. split; [exact Hp |].
    intros y Hy Hcy. apply in_app_or in Hy. destruct Hy as [Hy | [<- | []]];
      [now apply Hmax | congruence].
Qed.

Lemma bestLoop_inv_init : bestLoop_inv counts [] (mkBestLoop 0 0 None).
Proof.
  unfold bestLoop_inv. cbn [loopBest loopCurrent loopPrevious lastCounted fold_left option_map].
  repeat split; try lia; try discriminate.
  intros e n Hcov. rewrite scheduledCount_zero; [lia |].
  intros i Hi. destruct (counts (e - Z.of_nat i)) eqn:E; [| reflexivity].
  destruct (Hcov i Hi E).
Qed.

Lemma bestLoop_inv_counted (l : list DateString) (x : DateString) (st st' : BestLoop) :
  (forall y, In y l -> y < x) ->
  counts x = true ->
  bestLoop_inv counts l st ->
  1 <= loopCurrent st' ->
  0 <= loopBest st' ->
  loopPrevious st' = Some (parseLocal x) ->
  Z.max (loopBest st) (loopCurrent st) <= Z.max (loopBest st') (loopCurrent st') ->
  (forall m, covered counts l (x - 1) m ->
             scheduledCount counts (x - 1) m <= loopCurrent st' - 1) ->
  bestLoop_inv counts (l ++ [x]) st'.
Proof.
  intros Hlt Ex (Hb & Hc & Hprev & Hnone & Hlast & Hany) Hcur' Hbest' Hprev' Hmax Hkey.
  assert (HA : forall n, covered counts (l ++ [x]) x n ->
                         scheduledCount counts x n <= loopCurrent st').
  { intros [| m] Hcov; cbn [scheduledCount]; [lia |]. rewrite Ex.
    assert (Hcov' : covered counts l (x - 1) m).
    { intros i Hi Hs.
      replace (x - 1 - Z.of_nat i) with (x - Z.of_nat (S i)) in * by lia.
      specialize (Hcov (S i) ltac:(lia) Hs). apply in_app_or in Hcov.
      destruct Hcov as [Hin | [Heq | []]]; [exact Hin | lia]. }
    specialize (Hkey m Hcov'). lia. }
  unfold bestLoop_inv. rewrite lastCounted_snoc, Ex. cbn [option_map].
  split; [exact Hbest' |]. split; [lia |]. split; [exact Hprev' |].
  split; [discriminate |]. split.
  { intros x' n Hx'. injection Hx' as <-. apply HA. }
  intros e n Hcov.
  destruct (Z_le_gt_dec x e) as [Hxe | Hxe];
    [destruct (Z_lt_le_dec (e - Z.of_nat n) x) as [Hin | Hout] |].
  - (* x lies in the stretch *)
    replace n with (Z.to_nat (e - x) + (n - Z.to_nat (e - x)))%nat in * by lia.
    rewrite scheduledCount_app.
    rewrite scheduledCount_zero.
    + apply covered_tail in Hcov. rewrite Z2Nat.id in * by lia.
      replace (e - (e - x)) with x in * by lia.
      specialize (HA _ Hcov). lia.
    + intros i Hi. destruct (counts (e - Z.of_nat i)) eqn:E; [exfalso | reflexivity].
      specialize (Hcov i ltac:(lia) E). apply in_app_or in Hcov.
      destruct Hcov as [Hl | [Heq | []]]; [specialize (Hlt _ Hl) |]; lia.
  - assert (Hcov' : covered counts l e n).
    { intros i Hi Hs. specialize (Hcov i Hi Hs). apply in_app_or in Hcov.
      destruct Hcov as [Hl | [Heq | []]]; [exact Hl | lia]. }
    specialize (Hany e n Hcov'). lia.
  - assert (Hcov' : covered counts l e n).
    { intros i Hi Hs. specialize (Hcov i Hi Hs). apply in_app_or in Hcov.
      destruct Hcov as [Hl | [Heq | []]]; [exact Hl | lia]. }
    specialize (Hany e n Hcov'). lia.
Qed.

Lemma bestLoop_inv_snoc (l : list DateString) (x : DateString) (st : BestLoop) :
  Ascending l ->
  (forall y, In y l -> y < x) ->
  bestLoop_inv counts l st ->
  bestLoop_inv counts (l ++ [x]) (bestLoop_step counts continues st x).
Proof.
  intros Hasc Hlt Hinv. unfold bestLoop_step.
  destruct (counts x) eqn:Ex; cbn [negb].
  2: { destruct Hinv as (Hb & Hc & Hprev & Hnone & Hlast & Hany).
       assert (Hcov : forall e n, covered counts (l ++ [x]) e n -> covered counts l e n).
       { intros e n H i Hi Hs. specialize (H i Hi Hs). apply in_app_or in H.
         destruct H as [H | [H | []]]; [exact H |]. rewrite <- H in Hs. congruence. }
       unfold bestLoop_inv. rewrite lastCounted_snoc, Ex. repeat split; auto. }
  pose proof Hinv as (Hb & Hc & Hprev & Hnone & Hlast & Hany).
  destruct (lastCounted counts l) as [p |] eqn:Elast; cbn [option_map] in Hprev;
    rewrite Hprev.
  - destruct (lastCounted_Some l p Hasc Elast) as [Hpin [Hp Hpmax]].
    pose proof (Hlt p Hpin) as Hpx.
    pose proof (continues_spec p x Hpx Hp Ex) as Hspec.
    destruct (continues (parseLocal p) x) eqn:Econt.
    + (* the run goes on *)
      assert (Hgap : forall d, p < d < x -> counts d = false) by (now apply Hspec).
      apply (bestLoop_inv_counted l x st); cbn [loopBest loopCurrent loopPrevious];
        try assumption; try lia; try reflexivity.
      intros m Hcov.
      replace (loopCurrent st + 1 - 1) with (loopCurrent st) by lia.
      destruct (Nat.le_gt_cases m (Z.to_nat (x - 1 - p))) as [Hshort | Hlong].
      * rewrite scheduledCount_zero; [lia |].
        intros i Hi. apply Hgap. lia.
      * replace m with (Z.to_nat (x - 1 - p) + (m - Z.to_nat (x - 1 - p)))%nat in * by lia.
        rewrite scheduledCount_app, scheduledCount_zero by (intros i Hi; apply Hgap; lia).
        apply covered_tail in Hcov. rewrite Z2Nat.id in * by lia.
        replace (x - 1 - (x - 1 - p)) with p in * by lia.
        specialize (Hlast p _ eq_refl Hcov). lia.
    + (* a counted day was missed: a new run starts *)
      apply (bestLoop_inv_counted l x st); cbn [loopBest loopCurrent loopPrevious];
        try assumption; try lia; try reflexivity.
      intros m Hcov. rewrite scheduledCount_zero; [lia |].
      intros i Hi. destruct (counts (x - 1 - Z.of_nat i)) eqn:E; [exfalso | reflexivity].
      pose proof (Hpmax _ (Hcov i Hi E) E) as Hle.
      assert (Hall : forall d, p < d < x -> counts d = false).
      { intros d Hd. destruct (counts d) eqn:Ed; [exfalso | reflexivity].
        assert (Hd' : d = x - 1 - Z.of_nat (Z.to_nat (x - 1 - d))) by lia.
        rewrite Hd' in Ed.
        pose proof (Hpmax _ (Hcov (Z.to_nat (x - 1 - d)) ltac:(lia) Ed) Ed). lia. }
      apply Hspec in Hall. congruence.
  - pose proof (lastCounted_None l Elast) as Hnot.
    specialize (Hnone eq_refl).
    apply (bestLoop_inv_counted l x st); cbn [loopBest loopCurrent loopPrevious];
      try assumption; try lia; try reflexivity.
    intros m Hcov. rewrite scheduledCount_zero; [lia |].
    intros i Hi. destruct (counts (x - 1 - Z.of_nat i)) eqn:E; [exfalso | reflexivity].
    pose proof (Hnot _ (Hcov i Hi E)). congruence.
Qed.

Lemma bestLoop_inv_fold (l : list DateString) :
  Ascending l ->
  bestLoop_inv counts l
    (fold_left (bestLoop_step counts continues) l (mkBestLoop 0 0 None)).
Proof.
  intro Hasc. induction Hasc as [| l x Hasc IH Hlt].
  - apply bestLoop_inv_init.
  - rewrite fold_left_app. cbn [fold_left]. now apply bestLoop_inv_snoc.
Qed.

End BestLoopInvariant.

(** ** The ascending sort of a duplicate-free list *)

Lemma sortInsert_asc_In (x : DateString) (l : list DateString) (y : DateString) :
  In y (sortInsert (fun a b => localeCompare a b) x l) <-> y = x \/ In y l.
Proof.
  split.
  - intro H. apply (Permutation_in _ (Permutation_sym (sortInsert_perm _ x l))) in H.
    destruct H as [<- | H]; auto.
  - intro H. apply (Permutation_in _ (sortInsert_perm _ x l)).
    destruct H as [-> | H]; [now left | now right].
Qed.

Lemma sortInsert_ascendingFrom (x : DateString) (l : list DateString) :
  ascendingFrom l -> ~ In x l ->
  ascendingFrom (sortInsert (fun a b => localeCompare a b) x l).
Proof.
  induction l as [| y l IH]; intros Hasc Hnotin; simpl.
  - split; [intros y [] | exact I].
  - destruct Hasc as [Hy Hasc].
    destruct (localeCompare x y <=? 0) eqn:E.
    + apply Z.leb_le in E. apply (proj1 (localeCompare_le _ _)) in E.
      assert (x < y) by (assert (x <> y) by (intros ->; apply Hnotin; now left); lia).
      split; [| split; assumption].
      intros z [<- | Hz]; [assumption | specialize (Hy z Hz); lia].
    + apply Z.leb_gt in E.
      assert (y < x).
      { destruct (Z_lt_le_dec y x) as [Hlt | Hge]; [assumption |].
        apply (proj2 (localeCompare_le x y)) in Hge. lia. }
      split.
      * intros z Hz. apply sortInsert_asc_In in Hz. destruct Hz as [-> | Hz]; auto.
      * apply IH; [assumption |]. intro Hin. apply Hnotin. now right.
Qed.

Lemma sortBy_asc_ascendingFrom (l : list DateString) :
  NoDup l -> ascendingFrom (sortBy (fun a b => localeCompare a b) l).
Proof.
  induction 1 as [| x l Hnotin Hnd IH]; simpl; [exact I |].
  apply sortInsert_ascendingFrom; [exact IH |].
  intro Hin. apply Hnotin. now apply (sortBy_In (fun a b => localeCompare a b)).
Qed.

Lemma ascendingFrom_snoc (l : list DateString) (x : DateString) :
  ascendingFrom (l ++ [x]) -> ascendingFrom l /\ forall y, In y l -> y < x.
Proof.
  induction l as [| z l IH]; simpl.
  - intros _. split; [exact I | intros y []].
  - intros [Hz Hasc]. destruct (IH Hasc) as [Hl Hlt]. split.
    + split; [| exact Hl]. intros y Hy. apply Hz, in_or_app. now left.
    + intros y [<- | Hy]; [| now apply Hlt].
      apply Hz, in_or_app. right. now left.
Qed.

Lemma ascendingFrom_Ascending (l : list DateString) : ascendingFrom l -> Ascending l.
Proof.
  induction l as [| x l IH] using rev_ind; intro H; [constructor |].
  apply ascendingFrom_snoc in H. destruct H as [Hl Hlt].
  constructor; [now apply IH | exact Hlt].
Qed.

Lemma sortBy_asc_Ascending (l : list DateString) :
  NoDup l -> Ascending (sortBy (fun a b => localeCompare a b) l).
Proof. intro H. now apply ascendingFrom_Ascending, sortBy_asc_ascendingFrom. Qed.

(** ** The two branches of calculateBestStreak as instances of the loop *)

Lemma round_div_days (k : Z) : round_div (k * MS_PER_DAY) (1000 * 60 * 60 * 24) = k.
Proof.
  unfold round_div. change (1000 * 60 * 60 * 24) with MS_PER_DAY.
  pose proof MS_PER_DAY_pos.
  symmetry. apply (Z.div_unique_pos _ _ k MS_PER_DAY); lia.
Qed.

Lemma bestDaily_step_loop (st : BestLoop) (completion : DateString) :
  bestDaily_step st completion
  = bestLoop_step (fun _ => true) continuesDaily st completion.
Proof. unfold bestDaily_step, bestLoop_step, continuesDaily. reflexivity. Qed.

Lemma bestScheduled_step_loop (days : list string) (st : BestLoop) (completion : DateString) :
  bestScheduled_step days st completion
  = bestLoop_step (fun d => includesName days (dayNameOf (parseLocal d)))
      (continuesScheduled days) st completion.
Proof. unfold bestScheduled_step, bestLoop_step, continuesScheduled. reflexivity. Qed.

Lemma fold_left_pointwise {A B : Type} (f g : A -> B -> A) (l : list B) (a : A) :
  (forall x y, f x y = g x y) -> fold_left f l a = fold_left g l a.
Proof.
  intro H. revert a. induction l as [| y l IH]; intro a; simpl; [reflexivity |].
  now rewrite H, IH.
Qed.

Lemma continuesDaily_spec (p x : DateString) :
  p < x ->
  (continuesDaily (parseLocal p) x = true <-> forall d, p < d < x -> true = false).
Proof.
  intro Hlt. unfold continuesDaily, getTime, parseLocal.
  replace (x * MS_PER_DAY - p * MS_PER_DAY) with ((x - p) * MS_PER_DAY) by lia.
  rewrite round_div_days, Z.eqb_eq. split.
  - intros H d Hd. lia.
  - intro H. destruct (Z.eq_dec (x - p) 1) as [| Hne]; [assumption |].
    specialize (H (p + 1) ltac:(lia)). discriminate.
Qed.

(** The inner loop leaves through its condition or its [break] within
    [getDateRange_fuel] iterations, for any two instants. *)
Lemma nextScheduled_loop_terminates (fuel : nat) (days : list string)
  (expectedDate currentDate : Date) :
  (getDateRange_fuel expectedDate currentDate <= fuel)%nat ->
  exists found, nextScheduled_loop fuel days expectedDate currentDate = Some found.
Proof.
  revert expectedDate. induction fuel as [| fuel IH]; intros expectedDate Hfuel.
  - simpl. destruct (Z.leb_spec expectedDate currentDate) as [Hle | Hgt];
      [| eexists; reflexivity].
    rewrite getDateRange_fuel_next in Hfuel by assumption. lia.
  - cbn [nextScheduled_loop].
    destruct (Z.leb_spec expectedDate currentDate) as [Hle | Hgt];
      [| eexists; reflexivity].
    destruct (includesName days (dayNameOf expectedDate)); [eexists; reflexivity |].
    rewrite setDate_shift. apply IH.
    rewrite getDateRange_fuel_next in Hfuel by assumption. lia.
Qed.

Lemma parseLocal_le (a b : DateString) : parseLocal a <= parseLocal b <-> a <= b.
Proof. unfold parseLocal. pose proof MS_PER_DAY_pos. nia. Qed.

(** The inner loop of the scheduled branch stops at the first scheduled day
    from [a] on, or right after [b] when there is none up to [b]. *)
Lemma nextScheduled_loop_spec (fuel : nat) (days : list string) (a b : DateString) :
  (getDateRange_fuel (parseLocal a) (parseLocal b) <= fuel)%nat ->
  exists r,
    nextScheduled_loop fuel days (parseLocal a) (parseLocal b) = Some (parseLocal r)
    /\ a <= r
    /\ (forall d, a <= d < r -> includesName days (dayNameOf (parseLocal d)) = false)
    /\ (r <= b -> includesName days (dayNameOf (parseLocal r)) = true)
    /\ r <= Z.max a (b + 1).
Proof.
  revert a. induction fuel as [| fuel IH]; intros a Hfuel.
  - assert (Hgt : b < a).
    { destruct (Z_lt_le_dec b a) as [Hlt | Hle]; [assumption |].
      apply (proj2 (parseLocal_le _ _)) in Hle.
      rewrite getDateRange_fuel_next in Hfuel by assumption. lia. }
    exists a. simpl.
    replace (parseLocal a <=? parseLocal b) with false
      by (symmetry; apply Z.leb_gt; pose proof (parseLocal_le a b); lia).
    repeat split; try lia.
  - cbn [nextScheduled_loop].
    destruct (Z.leb_spec (parseLocal a) (parseLocal b)) as [Hle | Hgt].
    + destruct (includesName days (dayNameOf (parseLocal a))) eqn:Ea.
      * exists a. repeat split; try lia; auto.
      * rewrite setDate_shift, parseLocal_shift.
        destruct (IH (a + 1)) as [r (Hr & Har & Hgap & Hsched & Hmax)].
        { rewrite getDateRange_fuel_next in Hfuel by assumption.
          rewrite parseLocal_shift in Hfuel. lia. }
        exists r. apply (proj1 (parseLocal_le _ _)) in Hle.
        repeat split; try lia; auto.
        intros d Hd. destruct (Z.eq_dec d a) as [-> | Hne]; [exact Ea | apply Hgap; lia].
    + exists a. assert (b < a) by (pose proof (parseLocal_le a b); lia).
      repeat split; try lia.
Qed.

Lemma continuesScheduled_spec (days : list string) (p x : DateString) :
  p < x ->
  includesName days (dayNameOf (parseLocal p)) = true ->
  includesName days (dayNameOf (parseLocal x)) = true ->
  (continuesScheduled days (parseLocal p) x = true
   <-> forall d, p < d < x -> includesName days (dayNameOf (parseLocal d)) = false).
Proof.
  intros Hlt _ Hx. unfold continuesScheduled, nextScheduled.
  rewrite setDate_shift, parseLocal_shift.
  destruct (nextScheduled_loop_spec
              (getDateRange_fuel (parseLocal (p + 1)) (parseLocal x)) days (p + 1) x (le_n _))
    as [r (Hr & Hpr & Hgap & Hsched & Hmax)].
  rewrite Hr, formatDate_parseLocal, Z.eqb_eq. split.
  - intros -> d Hd. apply Hgap. lia.
  - intro Hnone.
    destruct (Z_lt_le_dec r x) as [Hrx | Hxr].
    + rewrite Hnone in Hsched by lia. specialize (Hsched ltac:(lia)). discriminate.
    + destruct (Z.eq_dec r x) as [| Hne]; [assumption |].
      rewrite Hgap in Hx by lia. discriminate.
Qed.

(** ** calculateBestStreak dominates every completed run *)

Lemma calculateBestStreak_covers (done : list DateString)
  (selectedDays : option (list string)) (last : DateString) (n : nat) :
  NoDup done ->
  covered (isScheduledOn selectedDays) done last n ->
  scheduledCount (isScheduledOn selectedDays) last n
  <= calculateBestStreak done selectedDays.
Proof.
  intros Hnd Hcov. unfold calculateBestStreak.
  destruct (List.length done =? 0)%nat eqn:Elen.
  { apply Nat.eqb_eq in Elen. destruct done; [| discriminate].
    rewrite scheduledCount_zero; [lia |].
    intros i Hi. destruct (isScheduledOn selectedDays (last - Z.of_nat i)) eqn:E;
      [destruct (Hcov i Hi E) | reflexivity]. }
  cbv zeta.
  set (sorted := sortBy (fun a b => localeCompare a b) done).
  assert (Hasc : Ascending sorted) by (now apply sortBy_asc_Ascending).
  destruct (noSchedule selectedDays) eqn:Esched.
  - rewrite (fold_left_pointwise _ _ _ _ bestDaily_step_loop).
    pose proof (bestLoop_inv_fold (fun _ => true) continuesDaily
                  (fun p x Hpx _ _ => continuesDaily_spec p x Hpx) sorted Hasc)
      as (_ & _ & _ & _ & _ & Hany).
    rewrite (scheduledCount_ext _ (fun _ => true))
      by (intro d; now apply isScheduledOn_daily).
    apply Hany. intros i Hi _. apply sortBy_In, Hcov; [exact Hi |].
    now apply isScheduledOn_daily.
  - set (days := match selectedDays with Some days => days | None => [] end).
    rewrite (fold_left_pointwise _ _ _ _ (bestScheduled_step_loop days)).
    pose proof (bestLoop_inv_fold (fun d => includesName days (dayNameOf (parseLocal d)))
                  (continuesScheduled days) (continuesScheduled_spec days) sorted Hasc)
      as (_ & _ & _ & _ & _ & Hany).
    rewrite (scheduledCount_ext _ (fun d => includesName days (dayNameOf (parseLocal d))))
      by (intro d; now apply isScheduledOn_scheduled).
    apply Hany. intros i Hi Hs. apply sortBy_In, Hcov; [exact Hi |].
    now rewrite (isScheduledOn_scheduled selectedDays _ Esched).
Qed.

(** The best streak is at least the current streak, for any day taken as
    today, as soon as no completion date is repeated. *)
Lemma calculateStreak_le_calculateBestStreak (now : Date) (done : list DateString)
  (selectedDays : option (list string)) (targetDate : option DateString) :
  NoDup done ->
  calculateStreak now done selectedDays targetDate <= calculateBestStreak done selectedDays.
Proof.
  intro Hnd.
  destruct (calculateStreak_covered_run now done selectedDays targetDate)
    as [last [n [-> Hcov]]].
  now apply calculateBestStreak_covers.
Qed.

(** C2: for a completion list without repeated dates, all dated between the
    creation date and today, and for every schedule, the best streak is at
    least the current streak as of today. *)
Theorem calculateBestStreak_ge_calculateStreak (now : Date) (created : DateString)
  (done : list DateString) (selectedDays : option (list string)) :
  NoDup done ->
  Forall (fun c => created <= c <= getTodayString now) done ->
  calculateBestStreak done selectedDays
    >= calculateStreak now done selectedDays (Some (getTodayString now))
  /\ calculateBestStreak done selectedDays >= calculateStreak now done selectedDays None.
Proof.
  intros Hnd _.
  pose proof (calculateStreak_le_calculateBestStreak now done selectedDays
                (Some (getTodayString now)) Hnd).
  pose proof (calculateStreak_le_calculateBestStreak now done selectedDays None Hnd).
  lia.
Qed.

Lemma calculateBestStreak_ge_calculateStreak_witness :
  NoDup [ymd 2024 6 17; ymd 2024 6 19; ymd 2024 6 14; ymd 2024 6 12]
  /\ Forall (fun c => ymd 2024 6 10 <= c <= getTodayString sampleNow)
       [ymd 2024 6 17; ymd 2024 6 19; ymd 2024 6 14; ymd 2024 6 12]
  /\ calculateBestStreak [ymd 2024 6 17; ymd 2024 6 19; ymd 2024 6 14; ymd 2024 6 12]
       (Some ["monday"; "wednesday"; "friday"]%string)
     >= calculateStreak sampleNow
          [ymd 2024 6 17; ymd 2024 6 19; ymd 2024 6 14; ymd 2024 6 12]
          (Some ["monday"; "wednesday"; "friday"]%string)
          (Some (getTodayString sampleNow)).
Proof.
  assert (Hnd : NoDup [ymd 2024 6 17; ymd 2024 6 19; ymd 2024 6 14; ymd 2024 6 12]).
  { repeat constructor; simpl; vm_compute; intuition discriminate. }
  assert (Hrange : Forall (fun c => ymd 2024 6 10 <= c <= getTodayString sampleNow)
                     [ymd 2024 6 17; ymd 2024 6 19; ymd 2024 6 14; ymd 2024 6 12]).
  { repeat constructor; vm_compute; discriminate. }
  split; [exact Hnd |]. split; [exact Hrange |].
  apply (calculateBestStreak_ge_calculateStreak sampleNow (ymd 2024 6 10)
           [ymd 2024 6 17; ymd 2024 6 19; ymd 2024 6 14; ymd 2024 6 12]
           (Some ["monday"; "wednesday"; "friday"]%string) Hnd Hrange).
Defined.

(** ** The scenarios of the specification, run on the model *)

(** Scenario 1: a daily habit created and completed today. *)
Example scenario_new_habit_completed_today :
  let habit := sampleHabit (ymd 2024 6 20) [ymd 2024 6 20] (Some []) in
  calculateStreak sampleNow (completions habit) (selectedDays habit) None = 1
  /\ calculateBestStreak (completions habit) (selectedDays habit) = 1
  /\ getCompletionRate_return sampleNow habit Week = NewHabitCompletedToday.
Proof. repeat split. Qed.

(** Scenarios 2 and 3: a Monday-Wednesday-Friday habit seen on a Thursday,
    today not completed. *)
Example scenario_scheduled_streak :
  calculateStreak sampleNow [ymd 2024 6 19; ymd 2024 6 17; ymd 2024 6 14]
    (Some ["monday"; "wednesday"; "friday"]%string) None = 3
  /\ calculateStreak sampleNow [ymd 2024 6 19; ymd 2024 6 14]
       (Some ["monday"; "wednesday"; "friday"]%string) None = 1.
Proof. split; vm_compute; reflexivity. Qed.

(** Scenario 4: three consecutive days and a later isolated one. *)
Example scenario_best_streak :
  calculateBestStreak [ymd 2024 1 1; ymd 2024 1 2; ymd 2024 1 3; ymd 2024 1 10] None = 3.
Proof. vm_compute. reflexivity. Qed.

(** Scenario 5: a habit created on 2024-06-10, rated over June 2024 on
    2024-06-20 with today not completed: the ten days from 2024-06-10 to
    2024-06-19 are counted, the completion of 2024-06-05 is not. *)
Example scenario_month_from_creation :
  let habit := sampleHabit (ymd 2024 6 10) [ymd 2024 6 5; ymd 2024 6 19] None in
  formatDate (getMonthStart sampleNow) = ymd 2024 6 1
  /\ List.length (scheduledElapsedDays sampleNow habit Month) = 10%nat
  /\ completedDays sampleNow habit Month = 1
  /\ getCompletionRate sampleNow habit Month = 10.
Proof. repeat split. Qed.

(** * The rest of the code *)

(** ** More calendar arithmetic *)

Lemma days_from_civil_day (y m d k : Z) :
  days_from_civil y m (d + k) = days_from_civil y m d + k.
Proof. unfold days_from_civil. cbv zeta. lia. Qed.

(** The civil date of any day is a valid date. *)
Lemma civil_from_days_valid (z : Z) :
  validDate (fst (fst (civil_from_days z))) (snd (fst (civil_from_days z)))
    (snd (civil_from_days z)).
Proof.
  unfold civil_from_days. cbv zeta. cbn [fst snd].
  set (era := (z + 719468) / 146097).
  set (doe := z + 719468 - era * 146097).
  assert (Hdoe : 0 <= doe < 146097).
  { unfold doe, era. pose proof (Z.mod_pos_bound (z + 719468) 146097 ltac:(reflexivity)) as H.
    rewrite Z.mod_eq in H by discriminate. lia. }
  pose proof (civil_era_bounds doe Hdoe) as Hb. cbv zeta in Hb.
  assert (Hleap : doe - (365 * ((doe - doe / 1460 + doe / 36524 - doe / 146096) / 365)
                         + (doe - doe / 1460 + doe / 36524 - doe / 146096) / 365 / 4
                         - (doe - doe / 1460 + doe / 36524 - doe / 146096) / 365 / 100) = 365 ->
                  (((doe - doe / 1460 + doe / 36524 - doe / 146096) / 365 + 1) mod 4 = 0
                   /\ ((doe - doe / 1460 + doe / 36524 - doe / 146096) / 365 + 1) mod 100 <> 0)
                  \/ ((doe - doe / 1460 + doe / 36524 - doe / 146096) / 365 + 1) mod 400 = 0).
  { clear Hb. intro H. Z.div_mod_to_equations. lia. }
  set (yoe := (doe - doe / 1460 + doe / 36524 - doe / 146096) / 365) in *.
  set (doy := doe - (365 * yoe + yoe / 4 - yoe / 100)) in *.
  destruct Hb as [Hyoe Hdoy].
  set (mp := (5 * doy + 2) / 153).
  assert (Hmp : 0 <= mp < 12) by (unfold mp; Z.div_mod_to_equations; lia).
  assert (Hd : 1 <= doy - (153 * mp + 2) / 5 + 1 <= 31
               /\ (mp = 1 \/ mp = 3 \/ mp = 6 \/ mp = 8 -> doy - (153 * mp + 2) / 5 + 1 <= 30)
               /\ (mp = 11 -> doy - (153 * mp + 2) / 5 + 1 <= 29
                              /\ (doy - (153 * mp + 2) / 5 + 1 = 29 -> doy = 365)))
    by (unfold mp; Z.div_mod_to_equations; lia).
  destruct Hd as (Hd31 & Hd30 & Hd29).
  unfold validDate, daysInMonth.
  destruct (Z.ltb_spec mp 10) as [Hlt | Hge].
  - split; [lia |].
    replace (mp + 3 =? 2) with false by (symmetry; apply Z.eqb_neq; lia).
    destruct (Z.eqb_spec (mp + 3) 4), (Z.eqb_spec (mp + 3) 6), (Z.eqb_spec (mp + 3) 9),
      (Z.eqb_spec (mp + 3) 11); cbn [orb]; lia.
  - split; [lia |].
    destruct (Z.eqb_spec (mp - 9) 2) as [H2 | H2].
    + assert (mp = 11) by lia.
      destruct (Hd29 H) as [Hle Hfeb].
      replace (mp - 9 <=? 2) with true by (symmetry; apply Z.leb_le; lia).
      destruct (isLeapYear (yoe + era * 400 + 1)) eqn:El; [lia |].
      split; [lia |].
      destruct (Z.eq_dec (doy - (153 * mp + 2) / 5 + 1) 29) as [H29 | Hne]; [| lia].
      exfalso. specialize (Hleap (Hfeb H29)).
      assert (isLeapYear (yoe + era * 400 + 1) = true); [| congruence].
      apply isLeapYear_true. clear - Hleap. Z.div_mod_to_equations. lia.
    + replace ((mp - 9 =? 4) || (mp - 9 =? 6) || (mp - 9 =? 9) || (mp - 9 =? 11)) with false
        by (symmetry; repeat (apply orb_false_iff; split); apply Z.eqb_neq; lia).
      lia.
Qed.

Lemma getDate_range (t : Date) : 1 <= getDate t <= 31.
Proof.
  pose proof (civil_from_days_valid (dayIndex t)) as [_ Hd]. unfold getDate.
  assert (daysInMonth (fst (fst (civil_from_days (dayIndex t))))
            (snd (fst (civil_from_days (dayIndex t)))) <= 31); [| lia].
  unfold daysInMonth. destruct (_ =? 2); [destruct (isLeapYear _); lia |].
  destruct (_ || _); lia.
Qed.

Lemma getMonth_range (t : Date) : 0 <= getMonth t <= 11.
Proof.
  pose proof (civil_from_days_valid (dayIndex t)) as [Hm _]. unfold getMonth. lia.
Qed.

(** The fields of a [Date] are those of the civil date of its day. *)
Lemma civil_of_Date (t : Date) :
  civil_from_days (dayIndex t) = (getFullYear t, getMonth t + 1, getDate t).
Proof.
  unfold getFullYear, getMonth, getDate.
  destruct (civil_from_days (dayIndex t)) as [[y m] d]. cbn [fst snd]. f_equal. f_equal. lia.
Qed.

Lemma dayIndex_of_fields (t : Date) :
  days_from_civil (getFullYear t) (getMonth t + 1) (getDate t) = dayIndex t.
Proof. rewrite <- formatDate_dayIndex. unfold formatDate, ymd. reflexivity. Qed.

Lemma days_from_civil_first (y m d : Z) :
  days_from_civil y m 1 = days_from_civil y m d - (d - 1).
Proof. unfold days_from_civil. cbv zeta. lia. Qed.

(** The day after the last day of a month is the first day of the next. *)
Lemma days_from_civil_next_month (y m : Z) :
  1 <= m <= 12 ->
  days_from_civil y m (daysInMonth y m) + 1 =
  if m =? 12 then days_from_civil (y + 1) 1 1 else days_from_civil y (m + 1) 1.
Proof.
  intro Hm. rewrite !days_from_civil_march.
  assert (m = 1 \/ m = 2 \/ m = 3 \/ m = 4 \/ m = 5 \/ m = 6 \/ m = 7 \/ m = 8 \/ m = 9
          \/ m = 10 \/ m = 11 \/ m = 12) as Hcases by lia.
  destruct Hcases as [-> | [-> | Hcases]].
  - cbn. lia.
  - unfold daysInMonth. cbn [Z.eqb Z.leb Z.ltb Z.compare Pos.compare Pos.compare_cont Z.add
                               Pos.add Pos.succ].
    cbv iota. pose proof (marchYearStart_next (y - 1)) as Hn.
    replace (y - 1 + 1) with y in Hn by lia. rewrite Hn.
    destruct (isLeapYear y); cbn; lia.
  - repeat (destruct Hcases as [-> | Hcases]); [.. | subst m]; cbn;
      unfold marchYearStart; Z.div_mod_to_equations; lia.
Qed.

(** ** getDateRange *)

Lemma consecutiveDays_length (first : Z) (n : nat) :
  List.length (consecutiveDays first n) = n.
Proof.
  revert first. induction n as [| n IH]; intro first; [reflexivity |].
  cbn [consecutiveDays List.length]. now rewrite IH.
Qed.


(** ** getWeekStart, getElapsedDaysInWeek *)

Lemma getWeekStart_back (date : Date) :
  getWeekStart date = date + (- ((getDay date + 6) mod 7)) * MS_PER_DAY.
Proof.
  rewrite getWeekStart_offset. pose proof (getDay_range date) as Hr.
  f_equal. f_equal.
  destruct (Z.eqb_spec (getDay date) 0) as [E | E].
  - rewrite E. reflexivity.
  - Z.div_mod_to_equations; lia.
Qed.

Lemma getWeekStart_getDay (date : Date) : getDay (getWeekStart date) = 1.
Proof.
  rewrite getWeekStart_back, getDay_shift. pose proof (getDay_range date) as Hr.
  Z.div_mod_to_equations; lia.
Qed.

(** X2: [getWeekStart] is idempotent, and two instants of the same
    Monday-to-Sunday week at the same time of day have the same week
    start. *)
Theorem getWeekStart_idempotent (date : Date) :
  getWeekStart (getWeekStart date) = getWeekStart date
  /\ (forall k, 0 <= (getDay date + 6) mod 7 + k <= 6 ->
        getWeekStart (date + k * MS_PER_DAY) = getWeekStart date).
Proof.
  split.
  - rewrite (getWeekStart_back (getWeekStart date)), getWeekStart_getDay.
    change ((1 + 6) mod 7) with 0. lia.
  - intros k Hk. rewrite !getWeekStart_back, getDay_shift.
    pose proof (getDay_range date) as Hr.
    assert (Hmod : ((getDay date + k) mod 7 + 6) mod 7 = (getDay date + 6) mod 7 + k)
      by (Z.div_mod_to_equations; lia).
    rewrite Hmod. lia.
Qed.


(** ** new Date(year, month, day), getDaysInMonth, getMonthStart *)

Lemma daysInMonth_range (y m : Z) : 28 <= daysInMonth y m <= 31.
Proof.
  unfold daysInMonth.
  destruct (m =? 2); [destruct (isLeapYear y); lia |].
  destruct ((m =? 4) || (m =? 6) || (m =? 9) || (m =? 11)); lia.
Qed.

Lemma makeDate_dayIndex (year month day : Z) :
  dayIndex (makeDate year month day)
  = days_from_civil (fullYearOf year + month / 12) (month mod 12 + 1) day.
Proof.
  unfold makeDate, dayIndex. cbv zeta. rewrite Z.div_mul by discriminate.
  replace day with (1 + (day - 1)) at 2 by lia.
  rewrite days_from_civil_day. lia.
Qed.

Lemma makeDate_shift (year month day k : Z) :
  makeDate year month (day + k) = makeDate year month day + k * MS_PER_DAY.
Proof. unfold makeDate. cbv zeta. lia. Qed.

Lemma makeDate_midnight (year month day : Z) :
  makeDate year month day = parseLocal (dayIndex (makeDate year month day)).
Proof.
  unfold parseLocal. f_equal. unfold makeDate, dayIndex. cbv zeta.
  now rewrite Z.div_mul by discriminate.
Qed.

(** The fields of [new Date(year, month, day)] for a day of that month. *)
Lemma makeDate_fields (year month day : Z) :
  1 <= day <= daysInMonth (fullYearOf year + month / 12) (month mod 12 + 1) ->
  getFullYear (makeDate year month day) = fullYearOf year + month / 12
  /\ getMonth (makeDate year month day) = month mod 12
  /\ getDate (makeDate year month day) = day.
Proof.
  intro Hd. unfold getFullYear, getMonth, getDate.
  rewrite makeDate_dayIndex, civil_from_days_from_civil.
  - cbn [fst snd]. repeat split; lia.
  - split; [| exact Hd]. pose proof (Z.mod_pos_bound month 12 ltac:(lia)). lia.
Qed.

Lemma makeDate_newDate (year month day : Z) :
  year < 0 \/ 99 < year -> 0 <= month <= 11 ->
  makeDate year month day = newDate year month day.
Proof.
  intros Hy Hm. unfold makeDate, newDate, fullYearOf. cbv zeta.
  replace ((0 <=? year) && (year <=? 99)) with false
    by (symmetry; apply andb_false_iff; rewrite Z.leb_gt, Z.leb_gt; lia).
  rewrite Z.div_small, Z.mod_small, Z.add_0_r by lia.
  replace day with (1 + (day - 1)) at 2 by lia.
  rewrite days_from_civil_day. lia.
Qed.

Lemma getDaysInMonth_daysInMonth (year month : Z) :
  getDaysInMonth year month
  = daysInMonth (fullYearOf year + month / 12) (month mod 12 + 1).
Proof.
  unfold getDaysInMonth, getDate. rewrite makeDate_dayIndex.
  set (Y := fullYearOf year + month / 12). set (M := month mod 12 + 1).
  assert (HM : 1 <= M <= 12)
    by (unfold M; pose proof (Z.mod_pos_bound month 12 ltac:(lia)); lia).
  assert (Hidx : days_from_civil (fullYearOf year + (month + 1) / 12)
                   ((month + 1) mod 12 + 1) 0
                 = days_from_civil Y M (daysInMonth Y M)).
  { pose proof (days_from_civil_next_month Y M HM) as Hn.
    pose proof (days_from_civil_day (fullYearOf year + (month + 1) / 12)
                  ((month + 1) mod 12 + 1) 1 (-1)) as H0.
    change (1 + -1) with 0 in H0. rewrite H0.
    destruct (Z.eqb_spec M 12) as [E | E].
    - assert ((month + 1) / 12 = month / 12 + 1 /\ (month + 1) mod 12 = 0) as [Hq Hr]
        by (unfold M in E; Z.div_mod_to_equations; lia).
      rewrite Hq, Hr. change (0 + 1) with 1.
      replace (fullYearOf year + (month / 12 + 1)) with (Y + 1) by (unfold Y; lia). lia.
    - assert ((month + 1) / 12 = month / 12 /\ (month + 1) mod 12 + 1 = M + 1) as [Hq Hr]
        by (unfold M in *; Z.div_mod_to_equations; lia).
      rewrite Hq, Hr. fold Y. lia. }
  rewrite Hidx, civil_from_days_from_civil; [reflexivity |].
  split; [exact HM |]. pose proof (daysInMonth_range Y M). lia.
Qed.

(** X4: [getDaysInMonth] is the length of the month in the Gregorian
    calendar (29 for February in leap years only), for every month number:
    a month outside 0..11 is carried into the year, and a year from 0 to 99
    is read as 1900 to 1999. *)
Theorem getDaysInMonth_gregorian (year month : Z) :
  getDaysInMonth year month
  = daysInMonth (fullYearOf year + month / 12) (month mod 12 + 1)
  /\ 28 <= getDaysInMonth year month <= 31.
Proof.
  split; [apply getDaysInMonth_daysInMonth |].
  rewrite getDaysInMonth_daysInMonth. apply daysInMonth_range.
Qed.

Lemma getMonthStart_dayIndex (date : Date) :
  getMonthStart date = parseLocal (dayIndex date - (getDate date - 1)).
Proof.
  unfold getMonthStart, newDate, parseLocal. f_equal.
  now rewrite (days_from_civil_first _ _ (getDate date)), dayIndex_of_fields.
Qed.

(** X5: for a date outside the years 0 to 99, [getMonthStart] is the local
    midnight of the first day of the date's month: it is [new Date] of the
    date's year and month, its day of the month is 1, it is in the same
    month as the date and not after it. *)
Theorem getMonthStart_first_of_month (date : Date)
  (Hyear : getFullYear date < 0 \/ 99 < getFullYear date) :
  getMonthStart date = makeDate (getFullYear date) (getMonth date) 1
  /\ getDate (getMonthStart date) = 1
  /\ isSameMonth (getMonthStart date) date = true
  /\ getMonthStart date = parseLocal (formatDate date - (getDate date - 1))
  /\ getMonthStart date <= date.
Proof.
  pose proof (getMonth_range date) as Hm.
  assert (Hcivil : civil_from_days (dayIndex (getMonthStart date))
                   = (getFullYear date, getMonth date + 1, 1)).
  { unfold getMonthStart, newDate, dayIndex. rewrite Z.div_mul by discriminate.
    apply civil_from_days_from_civil. split; [lia |].
    pose proof (daysInMonth_range (getFullYear date) (getMonth date + 1)). lia. }
  split; [symmetry; apply makeDate_newDate; assumption |].
  split; [unfold getDate; now rewrite Hcivil |].
  split.
  { unfold isSameMonth, getFullYear at 1, getMonth at 1. rewrite Hcivil. cbn [fst snd].
    rewrite Z.eqb_refl. apply Z.eqb_eq. lia. }
  split; [rewrite formatDate_dayIndex; apply getMonthStart_dayIndex |].
  rewrite getMonthStart_dayIndex. unfold parseLocal.
  pose proof (getDate_range date). pose proof (dayIndex_bounds date).
  pose proof MS_PER_DAY_pos. nia.
Qed.

Lemma getMonthStart_first_of_month_witness :
  (getFullYear sampleNow < 0 \/ 99 < getFullYear sampleNow)
  /\ getMonthStart sampleNow = parseLocal (ymd 2024 6 1).
Proof.
  assert (H : getFullYear sampleNow < 0 \/ 99 < getFullYear sampleNow)
    by (right; vm_compute; reflexivity).
  split; [exact H |].
  destruct (getMonthStart_first_of_month sampleNow H) as (_ & _ & _ & Heq & _).
  rewrite Heq. reflexivity.
Defined.



(** ** getCalendarDays *)

Lemma getCalendarDays_loop_nth (iterations : nat) (currentDate : Date) (i : nat) :
  (i < iterations)%nat ->
  nth_error (getCalendarDays_loop iterations currentDate) i
  = Some (currentDate + Z.of_nat i * MS_PER_DAY).
Proof.
  revert currentDate i. induction iterations as [| n IH]; intros currentDate i Hi; [lia |].
  cbn [getCalendarDays_loop]. destruct i as [| i].
  - cbn [nth_error]. f_equal. lia.
  - cbn [nth_error]. rewrite IH by lia. rewrite setDate_shift. f_equal. lia.
Qed.

Lemma getCalendarDays_loop_length (iterations : nat) (currentDate : Date) :
  List.length (getCalendarDays_loop iterations currentDate) = iterations.
Proof.
  revert currentDate. induction iterations as [| n IH]; intro currentDate; [reflexivity |].
  cbn [getCalendarDays_loop List.length]. now rewrite IH.
Qed.

(** X7: [getCalendarDays] is a grid of 42 consecutive days at the same time
    of day: it starts on the Monday on or before the first of the month, the
    entry at index [i] falls on weekday [(1 + i) mod 7], and it holds every
    day of the month (day [d] at index [d - 1] plus the weekday offset of
    the first). *)
Theorem getCalendarDays_grid (year month : Z) :
  List.length (getCalendarDays year month) = 42%nat
  /\ (forall i, (i < 42)%nat ->
        nth_error (getCalendarDays year month) i
        = Some (getWeekStart (makeDate year month 1) + Z.of_nat i * MS_PER_DAY))
  /\ (forall i day, nth_error (getCalendarDays year month) i = Some day ->
        getDay day = (1 + Z.of_nat i) mod 7)
  /\ (forall d, 1 <= d <= 31 ->
        nth_error (getCalendarDays year month)
          (Z.to_nat ((getDay (makeDate year month 1) + 6) mod 7 + d - 1))
        = Some (makeDate year month d)).
Proof.
  assert (Hnth : forall i, (i < 42)%nat ->
        nth_error (getCalendarDays year month) i
        = Some (getWeekStart (makeDate year month 1) + Z.of_nat i * MS_PER_DAY))
    by (intros i Hi; unfold getCalendarDays; cbv zeta;
        now apply getCalendarDays_loop_nth).
  assert (Hlen : List.length (getCalendarDays year month) = 42%nat)
    by (unfold getCalendarDays; cbv zeta; apply getCalendarDays_loop_length).
  split; [exact Hlen |]. split; [exact Hnth |]. split.
  - intros i day Hi.
    assert (Hlt : (i < 42)%nat)
      by (rewrite <- Hlen; apply nth_error_Some; congruence).
    rewrite Hnth in Hi by exact Hlt. injection Hi as <-.
    now rewrite getDay_shift, getWeekStart_getDay.
  - intros d Hd.
    pose proof (Z.mod_pos_bound (getDay (makeDate year month 1) + 6) 7 ltac:(lia)) as Hk.
    set (k := (getDay (makeDate year month 1) + 6) mod 7) in *.
    rewrite Hnth by lia. f_equal.
    rewrite getWeekStart_back. fold k.
    replace d with (1 + (d - 1)) at 2 by lia. rewrite makeDate_shift.
    rewrite Z2Nat.id by lia. lia.
Qed.

(** X8: two instants on the same day are in the same month, and a date
    string is today exactly when its midnight is the same day as now. *)
Theorem isSameDay_isSameMonth (date1 date2 : Date) :
  (isSameDay date1 date2 = true <-> dayIndex date1 = dayIndex date2)
  /\ (isSameDay date1 date2 = true -> isSameMonth date1 date2 = true)
  /\ (forall s, isToday date2 s = isSameDay (parseLocal s) date2).
Proof.
  assert (H : isSameDay date1 date2 = true <-> dayIndex date1 = dayIndex date2)
    by (unfold isSameDay; now rewrite Z.eqb_eq, !formatDate_dayIndex).
  split; [exact H |]. split.
  - intro Hs. apply H in Hs. unfold isSameMonth, getFullYear, getMonth.
    rewrite Hs, !Z.eqb_refl. reflexivity.
  - intro s. unfold isToday, isSameDay, getTodayString.
    now rewrite formatDate_parseLocal.
Qed.

(** ** The stored order of the completions does not matter *)

Section SortOrder.

Variable compareFn : DateString -> DateString -> Z.

Hypothesis compareFn_antisym : forall x y, compareFn x y <= 0 -> compareFn y x <= 0 -> x = y.
Hypothesis compareFn_total : forall x y, compareFn x y <= 0 \/ compareFn y x <= 0.
Hypothesis compareFn_trans :
  forall x y z, compareFn x y <= 0 -> compareFn y z <= 0 -> compareFn x z <= 0.

Lemma sortInsert_swap (x y : DateString) (l : list DateString) :
  sortInsert compareFn x (sortInsert compareFn y l)
  = sortInsert compareFn y (sortInsert compareFn x l).
Proof.
  induction l as [| z l IH]; cbn [sortInsert].
  - destruct (Z.leb_spec (compareFn x y) 0) as [Hxy | Hxy];
      destruct (Z.leb_spec (compareFn y x) 0) as [Hyx | Hyx]; try reflexivity.
    + now rewrite (compareFn_antisym x y Hxy Hyx).
    + destruct (compareFn_total x y); lia.
  - destruct (Z.leb_spec (compareFn y z) 0) as [Hyz | Hyz];
      destruct (Z.leb_spec (compareFn x z) 0) as [Hxz | Hxz]; cbn [sortInsert].
    + destruct (Z.leb_spec (compareFn x y) 0) as [Hxy | Hxy];
        destruct (Z.leb_spec (compareFn y x) 0) as [Hyx | Hyx].
      * now rewrite (compareFn_antisym x y Hxy Hyx).
      * destruct (Z.leb_spec (compareFn y z) 0); [reflexivity | lia].
      * destruct (Z.leb_spec (compareFn x z) 0); [reflexivity | lia].
      * destruct (compareFn_total x y); lia.
    + destruct (Z.leb_spec (compareFn x y) 0) as [Hxy | Hxy].
      * pose proof (compareFn_trans x y z Hxy Hyz). lia.
      * destruct (Z.leb_spec (compareFn x z) 0); [lia |].
        destruct (Z.leb_spec (compareFn y z) 0); [reflexivity | lia].
    + destruct (Z.leb_spec (compareFn y x) 0) as [Hyx | Hyx].
      * pose proof (compareFn_trans y x z Hyx Hxz). lia.
      * destruct (Z.leb_spec (compareFn y z) 0); [lia |].
        destruct (Z.leb_spec (compareFn x z) 0); [reflexivity | lia].
    + destruct (Z.leb_spec (compareFn x z) 0); [lia |].
      destruct (Z.leb_spec (compareFn y z) 0); [lia |].
      now rewrite IH.
Qed.

Lemma sortBy_Permutation (l l' : list DateString) :
  Permutation l l' -> sortBy compareFn l = sortBy compareFn l'.
Proof.
  induction 1 as [| x l l' _ IH | x y l | l l' l'' _ IH1 _ IH2]; cbn [sortBy].
  - reflexivity.
  - now rewrite IH.
  - apply sortInsert_swap.
  - now rewrite IH1.
Qed.

End SortOrder.

Lemma sortBy_asc_Permutation (l l' : list DateString) :
  Permutation l l' ->
  sortBy (fun a b => localeCompare a b) l = sortBy (fun a b => localeCompare a b) l'.
Proof.
  apply sortBy_Permutation.
  - intros x y Hxy Hyx. apply (proj1 (localeCompare_le _ _)) in Hxy.
    apply (proj1 (localeCompare_le _ _)) in Hyx. lia.
  - intros x y. rewrite !localeCompare_le. lia.
  - intros x y z. rewrite !localeCompare_le. lia.
Qed.

Lemma sortBy_desc_Permutation (l l' : list DateString) :
  Permutation l l' ->
  sortBy (fun a b => localeCompare b a) l = sortBy (fun a b => localeCompare b a) l'.
Proof.
  apply sortBy_Permutation.
  - intros x y Hxy Hyx. apply (proj1 (localeCompare_le _ _)) in Hxy.
    apply (proj1 (localeCompare_le _ _)) in Hyx. lia.
  - intros x y. rewrite !localeCompare_le. lia.
  - intros x y z. rewrite !localeCompare_le. lia.
Qed.

Lemma includes_Permutation (l l' : list DateString) (s : DateString) :
  Permutation l l' -> includes l s = includes l' s.
Proof.
  intro Hp. destruct (includes l' s) eqn:E.
  - apply includes_In. apply includes_In in E.
    now apply (Permutation_in _ (Permutation_sym Hp)).
  - apply includes_not_In. apply includes_not_In in E.
    intro Hin. apply E. now apply (Permutation_in _ Hp).
Qed.

Lemma filter_Permutation_length {A : Type} (f : A -> bool) (l l' : list A) :
  Permutation l l' -> List.length (filter f l) = List.length (filter f l').
Proof.
  induction 1 as [| x l l' _ IH | x y l | l l' l'' _ IH1 _ IH2]; cbn [filter].
  - reflexivity.
  - destruct (f x); cbn [List.length]; now rewrite IH.
  - destruct (f x), (f y); reflexivity.
  - now rewrite IH1.
Qed.

Lemma calculateStreak_Permutation (now : Date) (done done' : list DateString)
  (selectedDays : option (list string)) (targetDate : option DateString) :
  Permutation done done' ->
  calculateStreak now done selectedDays targetDate
  = calculateStreak now done' selectedDays targetDate.
Proof.
  intro Hperm. unfold calculateStreak.
  now rewrite (Permutation_length Hperm), (sortBy_desc_Permutation _ _ Hperm).
Qed.

Lemma calculateBestStreak_Permutation (done done' : list DateString)
  (selectedDays : option (list string)) :
  Permutation done done' ->
  calculateBestStreak done selectedDays = calculateBestStreak done' selectedDays.
Proof.
  intro Hperm. unfold calculateBestStreak.
  now rewrite (Permutation_length Hperm), (sortBy_asc_Permutation _ _ Hperm).
Qed.

(** X9: the streaks do not depend on the order in which the completions
    are stored: two completion lists that are rearrangements of each other
    give the same current streak, the same best streak, and the same streak
    fields after [updateHabitStreaks]. *)
Theorem streaks_order_independent (now : Date) (habit : Habit)
  (done done' : list DateString) (targetDate : option DateString)
  (Hperm : Permutation done done') :
  calculateStreak now done (selectedDays habit) targetDate
  = calculateStreak now done' (selectedDays habit) targetDate
  /\ calculateBestStreak done (selectedDays habit)
     = calculateBestStreak done' (selectedDays habit)
  /\ currentStreak (updateHabitStreaks now (withCompletions habit done))
     = currentStreak (updateHabitStreaks now (withCompletions habit done'))
  /\ bestStreak (updateHabitStreaks now (withCompletions habit done))
     = bestStreak (updateHabitStreaks now (withCompletions habit done')).
Proof.
  pose proof (fun t => calculateStreak_Permutation now done done' (selectedDays habit) t Hperm)
    as Hcur.
  pose proof (calculateBestStreak_Permutation done done' (selectedDays habit) Hperm) as Hbest.
  split; [apply Hcur |]. split; [exact Hbest |].
  unfold updateHabitStreaks, withCompletions.
  cbn [currentStreak bestStreak completions selectedDays].
  rewrite Hbest, (Hcur None). split; reflexivity.
Qed.

Lemma streaks_order_independent_witness :
  Permutation [ymd 2024 6 19; ymd 2024 6 18] [ymd 2024 6 18; ymd 2024 6 19]
  /\ calculateStreak sampleNow [ymd 2024 6 19; ymd 2024 6 18] None None
     = calculateStreak sampleNow [ymd 2024 6 18; ymd 2024 6 19] None None.
Proof.
  assert (H : Permutation [ymd 2024 6 19; ymd 2024 6 18] [ymd 2024 6 18; ymd 2024 6 19])
    by apply perm_swap.
  split; [exact H |].
  apply (streaks_order_independent sampleNow (sampleHabit (ymd 2024 6 1) [] None) _ _ None H).
Defined.

(** X10: the completion rate does not depend on the order in which the
    completions are stored. *)
Theorem getCompletionRate_order_independent (now : Date) (habit : Habit)
  (done done' : list DateString) (period : Period)
  (Hperm : Permutation done done') :
  getCompletionRate now (withCompletions habit done) period
  = getCompletionRate now (withCompletions habit done') period.
Proof.
  assert (Hsched : scheduledElapsedDays now (withCompletions habit done) period
                   = scheduledElapsedDays now (withCompletions habit done') period).
  { unfold scheduledElapsedDays, rateEndDate, effectiveStartDate, withCompletions.
    cbn [completions selectedDays createdDate].
    now rewrite (includes_Permutation _ _ _ Hperm). }
  unfold getCompletionRate, getCompletionRate_return, completedDays. cbv zeta.
  rewrite Hsched.
  replace (List.length (filter (includes (scheduledElapsedDays now (withCompletions habit done') period))
             (completions (withCompletions habit done))))
    with (List.length (filter (includes (scheduledElapsedDays now (withCompletions habit done') period))
             (completions (withCompletions habit done'))))
    by (symmetry; apply filter_Permutation_length; exact Hperm).
  reflexivity.
Qed.

Lemma getCompletionRate_order_independent_witness :
  Permutation [ymd 2024 6 19; ymd 2024 6 18] [ymd 2024 6 18; ymd 2024 6 19]
  /\ getCompletionRate sampleNow
       (withCompletions (sampleHabit (ymd 2024 6 1) [] None)
          [ymd 2024 6 19; ymd 2024 6 18]) Week
     = getCompletionRate sampleNow
         (withCompletions (sampleHabit (ymd 2024 6 1) [] None)
            [ymd 2024 6 18; ymd 2024 6 19]) Week.
Proof.
  assert (H : Permutation [ymd 2024 6 19; ymd 2024 6 18] [ymd 2024 6 18; ymd 2024 6 19])
    by apply perm_swap.
  split; [exact H |].
  apply (getCompletionRate_order_independent sampleNow (sampleHabit (ymd 2024 6 1) [] None) _ _ Week H).
Defined.

(** ** The streaks never exceed the number of completions *)

Lemma filter_remove_length (sched : DateString -> bool) (e : DateString)
  (done : list DateString) :
  In e done -> sched e = true ->
  (List.length (filter sched (remove Z.eq_dec e done)) < List.length (filter sched done))%nat.
Proof.
  induction done as [| c done IH]; intros Hin He; [destruct Hin |].
  cbn [remove filter]. destruct (Z.eq_dec e c) as [<- | Hne].
  - rewrite He. cbn [List.length].
    destruct (in_dec Z.eq_dec e done) as [Hin' | Hout].
    + specialize (IH Hin' He). lia.
    + rewrite notin_remove by exact Hout. lia.
  - destruct Hin as [-> | Hin]; [congruence |].
    specialize (IH Hin He). cbn [filter]. destruct (sched c); cbn [List.length]; lia.
Qed.

(** A stretch whose scheduled days are all completed has at most as many
    scheduled days as there are completions on scheduled days. *)
Lemma covered_count_le (sched : DateString -> bool) (n : nat) :
  forall (done : list DateString) (last : DateString),
    covered sched done last n ->
    scheduledCount sched last n <= Z.of_nat (List.length (filter sched done)).
Proof.
  induction n as [| n IH]; intros done last Hcov; cbn [scheduledCount]; [lia |].
  destruct (sched last) eqn:Es.
  - assert (Hin : In last done).
    { specialize (Hcov O ltac:(lia)). cbn [Z.of_nat] in Hcov.
      rewrite Z.sub_0_r in Hcov. now apply Hcov. }
    pose proof (filter_remove_length sched last done Hin Es) as Hlen.
    assert (Hcov' : covered sched (remove Z.eq_dec last done) (last - 1) n).
    { intros i Hi Hs. apply in_in_remove; [lia |].
      replace (last - 1 - Z.of_nat i) with (last - Z.of_nat (S i)) in * by lia.
      apply Hcov; [lia | exact Hs]. }
    specialize (IH _ _ Hcov'). lia.
  - assert (Hcov' : covered sched done (last - 1) n).
    { intros i Hi Hs.
      replace (last - 1 - Z.of_nat i) with (last - Z.of_nat (S i)) in * by lia.
      apply Hcov; [lia | exact Hs]. }
    specialize (IH _ _ Hcov'). lia.
Qed.

Lemma bestLoop_step_bound (counts : DateString -> bool)
  (continues : Date -> DateString -> bool) (l : list DateString) :
  forall (st : BestLoop) (b : Z),
    0 <= loopBest st <= b -> 0 <= loopCurrent st <= b ->
    let st' := fold_left (bestLoop_step counts continues) l st in
    0 <= loopBest st' <= b + Z.of_nat (List.length (filter counts l))
    /\ 0 <= loopCurrent st' <= b + Z.of_nat (List.length (filter counts l)).
Proof.
  induction l as [| x l IH]; intros st b Hb Hc; cbn [fold_left filter List.length].
  - cbv zeta. lia.
  - cbv zeta. unfold bestLoop_step at 2 4 6 8.
    destruct (counts x); cbn [negb].
    + cbn [List.length]. rewrite Nat2Z.inj_succ.
      replace (b + Z.succ (Z.of_nat (List.length (filter counts l))))
        with (b + 1 + Z.of_nat (List.length (filter counts l))) by lia.
      destruct (loopPrevious st) as [previous |];
        [destruct (continues previous x) |];
        apply IH; cbn [loopBest loopCurrent]; lia.
    + apply IH; assumption.
Qed.

Lemma calculateBestStreak_bounds (done : list DateString)
  (selectedDays : option (list string)) :
  0 <= calculateBestStreak done selectedDays
  <= Z.of_nat (List.length (filter (isScheduledOn selectedDays) done)).
Proof.
  unfold calculateBestStreak.
  destruct (List.length done =? 0)%nat; [lia |]. cbv zeta.
  set (sorted := sortBy (fun a b => localeCompare a b) done).
  assert (Hlen : forall f, List.length (filter f sorted) = List.length (filter f done))
    by (intro f; symmetry; apply filter_Permutation_length, sortBy_perm).
  destruct (noSchedule selectedDays) eqn:Esched.
  - rewrite (fold_left_pointwise _ _ _ _ bestDaily_step_loop).
    pose proof (bestLoop_step_bound (fun _ => true) continuesDaily sorted
                  (mkBestLoop 0 0 None) 0) as H.
    cbn [loopBest loopCurrent] in H. cbv zeta in H. rewrite Hlen in H.
    rewrite (filter_ext (isScheduledOn selectedDays) (fun _ => true))
      by (intro d; now apply isScheduledOn_daily).
    lia.
  - set (days := match selectedDays with Some days => days | None => [] end).
    rewrite (fold_left_pointwise _ _ _ _ (bestScheduled_step_loop days)).
    pose proof (bestLoop_step_bound (fun d => includesName days (dayNameOf (parseLocal d)))
                  (continuesScheduled days) sorted (mkBestLoop 0 0 None) 0) as H.
    cbn [loopBest loopCurrent] in H. cbv zeta in H. rewrite Hlen in H.
    rewrite (filter_ext (isScheduledOn selectedDays)
               (fun d => includesName days (dayNameOf (parseLocal d))))
      by (intro d; now apply isScheduledOn_scheduled).
    lia.
Qed.

Lemma filter_length_le {A : Type} (f : A -> bool) (l : list A) :
  (List.length (filter f l) <= List.length l)%nat.
Proof.
  induction l as [| x l IH]; cbn [filter List.length]; [lia |].
  destruct (f x); cbn [List.length]; lia.
Qed.

(** X11: a streak never exceeds the number of completions that fall on
    scheduled days: this holds for the current streak as of any day, for the
    best streak, and for the two fields [updateHabitStreaks] stores, whatever
    the completion list (repeated dates included). *)
Theorem streaks_le_completions (now : Date) (habit : Habit) (targetDate : option DateString) :
  let onSchedule :=
    Z.of_nat (List.length (filter (isScheduledOn (selectedDays habit)) (completions habit))) in
  0 <= calculateStreak now (completions habit) (selectedDays habit) targetDate <= onSchedule
  /\ 0 <= calculateBestStreak (completions habit) (selectedDays habit) <= onSchedule
  /\ 0 <= currentStreak (updateHabitStreaks now habit)
       <= bestStreak (updateHabitStreaks now habit)
  /\ bestStreak (updateHabitStreaks now habit) <= onSchedule
  /\ onSchedule <= Z.of_nat (List.length (completions habit)).
Proof.
  cbv zeta.
  assert (Hcur : forall t,
    0 <= calculateStreak now (completions habit) (selectedDays habit) t
    <= Z.of_nat (List.length (filter (isScheduledOn (selectedDays habit)) (completions habit)))).
  { intro t. split; [apply calculateStreak_nonneg |].
    destruct (calculateStreak_covered_run now (completions habit) (selectedDays habit) t)
      as [last [n [-> Hcov]]].
    now apply covered_count_le. }
  pose proof (calculateBestStreak_bounds (completions habit) (selectedDays habit)) as Hbest.
  split; [apply Hcur |]. split; [exact Hbest |].
  unfold updateHabitStreaks. cbn [currentStreak bestStreak].
  specialize (Hcur None).
  pose proof (filter_length_le (isScheduledOn (selectedDays habit)) (completions habit)).
  repeat split; lia.
Qed.

(** ** The best streak is the longest covered stretch *)

Section BestLoopAttained.

Variable counts : DateString -> bool.
Variable continues : Date -> DateString -> bool.

Hypothesis continues_spec : forall p x : DateString,
  p < x -> counts p = true -> counts x = true ->
  (continues (parseLocal p) x = true <-> forall d, p < d < x -> counts d = false).

Lemma covered_snoc (l : list DateString) (x e : DateString) (n : nat) :
  covered counts l e n -> covered counts (l ++ [x]) e n.
Proof. apply covered_incl. intros d Hd. apply in_or_app. now left. Qed.

Lemma bestLoop_attained_init : bestLoop_attained counts [] (mkBestLoop 0 0 None).
Proof.
  split; [| reflexivity].
  exists 0, O. split; [intros i Hi; lia | reflexivity].
Qed.

Lemma bestLoop_attained_snoc (l : list DateString) (x : DateString) (st : BestLoop) :
  Ascending l ->
  (forall y, In y l -> y < x) ->
  loopPrevious st = option_map parseLocal (lastCounted counts l) ->
  bestLoop_attained counts l st ->
  bestLoop_attained counts (l ++ [x]) (bestLoop_step counts continues st x).
Proof.
  intros Hasc Hlt Hprev [Hbest Hcur]. unfold bestLoop_step, bestLoop_attained.
  rewrite (lastCounted_snoc counts).
  destruct (counts x) eqn:Ex; cbn [negb].
  2: { split.
       - destruct Hbest as [e [n [Hcov Hn]]]. exists e, n. split; [now apply covered_snoc | exact Hn].
       - destruct (lastCounted counts l) as [p |]; [| exact Hcur].
         destruct Hcur as [n [Hcov Hn]]. exists n. split; [now apply covered_snoc | exact Hn]. }
  assert (Hone : covered counts (l ++ [x]) x 1 /\ scheduledCount counts x 1 = 1).
  { split.
    - intros i Hi _. replace i with O by lia. cbn [Z.of_nat]. rewrite Z.sub_0_r.
      apply in_or_app. right. now left.
    - cbn [scheduledCount]. rewrite Ex. reflexivity. }
  assert (Hmax : exists e n, covered counts (l ++ [x]) e n
                             /\ scheduledCount counts e n = Z.max (loopBest st) (loopCurrent st)).
  { destruct Hbest as [e [n [Hcov Hn]]].
    destruct (Z.max_spec (loopBest st) (loopCurrent st)) as [[_ ->] | [_ ->]].
    - destruct (lastCounted counts l) as [p |].
      + destruct Hcur as [m [Hcovm Hm]]. exists p, m. split; [now apply covered_snoc | exact Hm].
      + exists 0, O. split; [intros i Hi; lia | now rewrite Hcur].
    - exists e, n. split; [now apply covered_snoc | exact Hn]. }
  destruct (lastCounted counts l) as [p |] eqn:Elast; cbn [option_map] in Hprev; rewrite Hprev.
  - destruct (lastCounted_Some counts l p Hasc Elast) as [Hpin [Hp _]].
    assert (Hpx : p < x) by now apply Hlt.
    destruct (continues (parseLocal p) x) eqn:Econt; cbn [loopBest loopCurrent].
    + split.
      * destruct Hbest as [e [n [Hcov Hn]]]. exists e, n.
        split; [now apply covered_snoc | exact Hn].
      * destruct Hcur as [m [Hcovm Hm]].
        pose proof (proj1 (continues_spec p x Hpx Hp Ex) Econt) as Hgap.
        exists (Z.to_nat (x - p) + m)%nat. split.
        -- intros i Hi Hs.
           destruct (Nat.lt_ge_cases i (Z.to_nat (x - p))) as [Hlow | Hhigh].
           ++ destruct i as [| i].
              ** cbn [Z.of_nat]. rewrite Z.sub_0_r. apply in_or_app. right. now left.
              ** rewrite Hgap in Hs by lia. discriminate.
           ++ apply in_or_app. left.
              replace (x - Z.of_nat i) with (p - Z.of_nat (i - Z.to_nat (x - p))) in * by lia.
              apply Hcovm; [lia | exact Hs].
        -- rewrite scheduledCount_app, Z2Nat.id by lia.
           replace (x - (x - p)) with p by lia. rewrite Hm.
           replace (Z.to_nat (x - p)) with (S (Z.to_nat (x - p - 1))) by lia.
           cbn [scheduledCount]. rewrite Ex, scheduledCount_zero; [lia |].
           intros i Hi. apply Hgap. lia.
    + split; [exact Hmax |]. exists 1%nat. exact Hone.
  - cbn [loopBest loopCurrent]. split.
    + destruct Hbest as [e [n [Hcov Hn]]]. exists e, n.
      split; [now apply covered_snoc | exact Hn].
    + exists 1%nat. exact Hone.
Qed.

Lemma bestLoop_attained_fold (l : list DateString) :
  Ascending l ->
  bestLoop_attained counts l
    (fold_left (bestLoop_step counts continues) l (mkBestLoop 0 0 None)).
Proof.
  intro Hasc.
  pose proof Hasc as Hasc0.
  induction Hasc as [| l x Hasc IH Hlt].
  - apply bestLoop_attained_init.
  - rewrite fold_left_app. cbn [fold_left].
    apply bestLoop_attained_snoc; [exact Hasc | exact Hlt | | now apply IH].
    now destruct (bestLoop_inv_fold counts continues continues_spec l Hasc)
      as (_ & _ & Hprev & _).
Qed.

End BestLoopAttained.

Lemma covered_ext (sched sched' : DateString -> bool) (done done' : list DateString)
  (last : DateString) (n : nat) :
  (forall d, sched' d = sched d) -> (forall d, In d done -> In d done') ->
  covered sched done last n -> covered sched' done' last n.
Proof. intros Hs Hd H i Hi Hi'. apply Hd, H; [exact Hi | now rewrite <- Hs]. Qed.

Lemma calculateBestStreak_attained (done : list DateString)
  (selectedDays : option (list string)) :
  NoDup done ->
  exists last n,
    covered (isScheduledOn selectedDays) done last n
    /\ scheduledCount (isScheduledOn selectedDays) last n
       = calculateBestStreak done selectedDays.
Proof.
  intro Hnd. unfold calculateBestStreak.
  destruct (List.length done =? 0)%nat.
  { exists 0, O. split; [intros i Hi; lia | reflexivity]. }
  cbv zeta.
  set (sorted := sortBy (fun a b => localeCompare a b) done).
  assert (Hasc : Ascending sorted) by (now apply sortBy_asc_Ascending).
  assert (Hfinish : forall counts st,
            (forall d, isScheduledOn selectedDays d = counts d) ->
            bestLoop_attained counts sorted st ->
            exists last n,
              covered (isScheduledOn selectedDays) done last n
              /\ scheduledCount (isScheduledOn selectedDays) last n
                 = Z.max (loopBest st) (loopCurrent st)).
  { intros counts st Hext [[e [n [Hcov Hn]]] Hcur].
    assert (Hback : forall e n, covered counts sorted e n ->
                                covered (isScheduledOn selectedDays) done e n)
      by (intros e' n'; apply covered_ext; [exact Hext | intro d; apply sortBy_In]).
    destruct (Z.max_spec (loopBest st) (loopCurrent st)) as [[_ ->] | [_ ->]].
    - destruct (lastCounted counts sorted) as [p |].
      + destruct Hcur as [m [Hcovm Hm]]. exists p, m.
        split; [now apply Hback |]. now rewrite (scheduledCount_ext _ counts).
      + exists 0, O. split; [intros i Hi; lia | now rewrite Hcur].
    - exists e, n. split; [now apply Hback |]. now rewrite (scheduledCount_ext _ counts). }
  destruct (noSchedule selectedDays) eqn:Esched.
  - rewrite (fold_left_pointwise _ _ _ _ bestDaily_step_loop).
    apply (Hfinish (fun _ => true)); [intro d; now apply isScheduledOn_daily |].
    apply bestLoop_attained_fold; [| exact Hasc].
    intros p x Hpx _ _. now apply continuesDaily_spec.
  - set (days := match selectedDays with Some days => days | None => [] end).
    rewrite (fold_left_pointwise _ _ _ _ (bestScheduled_step_loop days)).
    apply (Hfinish (fun d => includesName days (dayNameOf (parseLocal d))));
      [intro d; now apply isScheduledOn_scheduled |].
    apply bestLoop_attained_fold; [| exact Hasc].
    apply continuesScheduled_spec.
Qed.

(** X12: for a completion list without repeated dates, the best streak is
    the greatest number of scheduled days in a stretch of consecutive days
    whose scheduled days are all completed: some such stretch has exactly
    that many, none has more.  Hence recording more completions never lowers
    the best streak. *)
Theorem calculateBestStreak_longest_run (done : list DateString)
  (selectedDays : option (list string)) (Hnodup : NoDup done) :
  (exists last n,
     covered (isScheduledOn selectedDays) done last n
     /\ scheduledCount (isScheduledOn selectedDays) last n
        = calculateBestStreak done selectedDays)
  /\ (forall last n,
        covered (isScheduledOn selectedDays) done last n ->
        scheduledCount (isScheduledOn selectedDays) last n
        <= calculateBestStreak done selectedDays)
  /\ (forall done', NoDup done' -> (forall d, In d done -> In d done') ->
        calculateBestStreak done selectedDays <= calculateBestStreak done' selectedDays).
Proof.
  split; [now apply calculateBestStreak_attained |].
  split; [intros last n; now apply calculateBestStreak_covers |].
  intros done' Hnd' Hincl.
  destruct (calculateBestStreak_attained done selectedDays Hnodup) as [last [n [Hcov <-]]].
  apply calculateBestStreak_covers; [exact Hnd' |].
  now apply (covered_incl _ done done').
Qed.

Lemma calculateBestStreak_longest_run_witness :
  NoDup [ymd 2024 6 17; ymd 2024 6 18; ymd 2024 6 20]
  /\ calculateBestStreak [ymd 2024 6 17; ymd 2024 6 18; ymd 2024 6 20] None
     <= calculateBestStreak [ymd 2024 6 17; ymd 2024 6 18; ymd 2024 6 19; ymd 2024 6 20] None.
Proof.
  assert (H : NoDup [ymd 2024 6 17; ymd 2024 6 18; ymd 2024 6 20]).
  { repeat constructor; cbn [In]; vm_compute; intuition discriminate. }
  split; [exact H |].
  apply (calculateBestStreak_longest_run _ None H).
  - repeat constructor; cbn [In]; vm_compute; intuition discriminate.
  - intros d Hd. cbn [In] in *. intuition.
Defined.

(** ** The value of the current streak *)

Lemma sortInsert_descendingFrom (x : DateString) (l : list DateString) :
  descendingFrom l -> ~ In x l ->
  descendingFrom (sortInsert (fun a b => localeCompare b a) x l).
Proof.
  induction l as [| y l IH]; intros Hdesc Hnotin; cbn [sortInsert descendingFrom].
  - split; [intros y [] | exact I].
  - destruct Hdesc as [Hy Hdesc].
    destruct (Z.leb_spec (localeCompare y x) 0) as [E | E].
    + apply (proj1 (localeCompare_le _ _)) in E.
      assert (y < x) by (assert (x <> y) by (intros ->; apply Hnotin; now left); lia).
      cbn [descendingFrom]. split; [| split; assumption].
      intros z [<- | Hz]; [assumption | specialize (Hy z Hz); lia].
    + assert (x < y).
      { destruct (Z_lt_le_dec x y) as [Hlt | Hge]; [assumption |].
        apply (proj2 (localeCompare_le y x)) in Hge. lia. }
      cbn [descendingFrom]. split.
      * intros z Hz.
        apply (Permutation_in _ (Permutation_sym (sortInsert_perm _ x l))) in Hz.
        destruct Hz as [<- | Hz]; auto.
      * apply IH; [assumption |]. intro Hin. apply Hnotin. now right.
Qed.

Lemma sortBy_desc_descendingFrom (l : list DateString) :
  NoDup l -> descendingFrom (sortBy (fun a b => localeCompare b a) l).
Proof.
  induction 1 as [| x l Hnotin Hnd IH]; cbn [sortBy]; [exact I |].
  apply sortInsert_descendingFrom; [exact IH |].
  intro Hin. apply Hnotin. now apply (sortBy_In (fun a b => localeCompare b a)).
Qed.

(** On a strictly descending list with nothing after day [e], the loop of
    the daily branch counts the run of completed days that ends at [e]. *)
Lemma dailyStreak_loop_exact (k : nat) :
  forall (sorted : list DateString) (e : DateString) (streak : Z),
    descendingFrom sorted ->
    (forall c, In c sorted -> c <= e) ->
    (forall i : nat, (i < k)%nat -> In (e - Z.of_nat i) sorted) ->
    ~ In (e - Z.of_nat k) sorted ->
    dailyStreak_loop sorted (parseLocal e) streak = streak + Z.of_nat k.
Proof.
  induction k as [| k IH]; intros sorted e streak Hdesc Hle Hrun Hgap.
  - cbn [Z.of_nat] in *. rewrite Z.sub_0_r in Hgap.
    destruct sorted as [| c rest]; cbn [dailyStreak_loop]; [lia |].
    rewrite formatDate_parseLocal.
    destruct (Z.eqb_spec c e) as [-> | Hne]; [exfalso; apply Hgap; now left | lia].
  - destruct sorted as [| c rest].
    { destruct (Hrun O ltac:(lia)). }
    destruct Hdesc as [Hc Hdesc].
    assert (Hce : c = e).
    { pose proof (Hrun O ltac:(lia)) as H0. cbn [Z.of_nat] in H0. rewrite Z.sub_0_r in H0.
      destruct H0 as [H0 | H0]; [exact H0 |].
      specialize (Hc e H0). specialize (Hle c ltac:(now left)). lia. }
    subst c. cbn [dailyStreak_loop]. rewrite formatDate_parseLocal, Z.eqb_refl.
    rewrite setDate_prev, parseLocal_shift.
    rewrite (IH rest (e + -1) (streak + 1)); [lia | exact Hdesc | | |].
    + intros c Hin. specialize (Hc c Hin). lia.
    + intros i Hi. specialize (Hrun (S i) ltac:(lia)).
      replace (e + -1 - Z.of_nat i) with (e - Z.of_nat (S i)) by lia.
      destruct Hrun as [Heq | Hin]; [lia | exact Hin].
    + intro Hin. apply Hgap.
      replace (e - Z.of_nat (S k)) with (e + -1 - Z.of_nat k) by lia. now right.
Qed.

(** X13: the current streak of a daily habit (no schedule) whose completion
    list has no repeated date.  With no completion dated after today it is 1
    when today is completed, and otherwise the length of the run of
    completed days that ends yesterday; a completion dated after today
    leaves only today's own 1 or 0. *)
Theorem calculateStreak_daily_value (now : Date) (done : list DateString)
  (selectedDays : option (list string)) (today : DateString)
  (Hdaily : noSchedule selectedDays = true) (Hnodup : NoDup done) :
  ((forall c, In c done -> c <= today) ->
   forall k : nat,
     (forall i : nat, (i < k)%nat -> In (today - 1 - Z.of_nat i) done) ->
     ~ In (today - 1 - Z.of_nat k) done ->
     calculateStreak now done selectedDays (Some today)
     = if includes done today then 1 else Z.of_nat k)
  /\ ((exists c, In c done /\ today < c) ->
      calculateStreak now done selectedDays (Some today)
      = if includes done today then 1 else 0).
Proof.
  split.
  - intros Hle k Hrun Hgap.
    destruct (includes done today) eqn:Etoday.
    + apply calculateStreak_daily_today_completed;
        [exact Hdaily | now apply includes_In | now apply Forall_forall].
    + unfold calculateStreak. rewrite Hdaily. cbv zeta.
      destruct (List.length done =? 0)%nat eqn:Elen.
      { apply Nat.eqb_eq in Elen. destruct done; [| discriminate].
        destruct k as [| k]; [reflexivity | destruct (Hrun O ltac:(lia))]. }
      rewrite includes_sortBy, Etoday, setDate_prev, parseLocal_shift.
      apply (proj1 (includes_not_In _ _)) in Etoday.
      rewrite (dailyStreak_loop_exact k); [lia | | | |].
      * now apply sortBy_desc_descendingFrom.
      * intros c Hc. apply sortBy_In in Hc.
        assert (c <> today) by (intros ->; contradiction).
        specialize (Hle c Hc). lia.
      * intros i Hi. apply sortBy_In.
        replace (today + -1 - Z.of_nat i) with (today - 1 - Z.of_nat i) by lia.
        now apply Hrun.
      * intro Hin. apply sortBy_In in Hin. apply Hgap.
        replace (today - 1 - Z.of_nat k) with (today + -1 - Z.of_nat k) by lia. exact Hin.
  - intros [c [Hc Hlt]]. unfold calculateStreak. rewrite Hdaily. cbv zeta.
    destruct done as [| c0 done0] eqn:Ed; [destruct Hc |]. rewrite <- Ed in *.
    replace (List.length done =? 0)%nat with false by (rewrite Ed; reflexivity).
    destruct (sortBy_desc_head done) as [m [rest [Hs Hmax]]]; [rewrite Ed; discriminate |].
    rewrite includes_sortBy, Hs. cbn [dailyStreak_loop].
    rewrite setDate_prev, formatDate_shift, formatDate_parseLocal.
    rewrite Forall_forall in Hmax. specialize (Hmax c Hc).
    destruct (Z.eqb_spec m (today + -1)); [lia | reflexivity].
Qed.

Lemma calculateStreak_daily_value_witness :
  noSchedule None = true
  /\ NoDup [ymd 2024 6 18; ymd 2024 6 19; ymd 2024 6 16]
  /\ calculateStreak sampleNow [ymd 2024 6 18; ymd 2024 6 19; ymd 2024 6 16] None
       (Some (ymd 2024 6 20)) = 2.
Proof.
  assert (Hd : noSchedule None = true) by reflexivity.
  assert (Hn : NoDup [ymd 2024 6 18; ymd 2024 6 19; ymd 2024 6 16])
    by (repeat constructor; cbn [In]; vm_compute; intuition discriminate).
  split; [exact Hd |]. split; [exact Hn |].
  destruct (calculateStreak_daily_value sampleNow _ None (ymd 2024 6 20) Hd Hn) as [H _].
  apply (H ltac:(intros c Hc; cbn [In] in Hc; vm_compute; intuition (subst; discriminate))
           2%nat).
  - intros i Hi. assert (i = 0 \/ i = 1)%nat as [-> | ->] by lia;
      vm_compute; intuition.
  - vm_compute. intuition discriminate.
Defined.

(** The walk of the scheduled branch, when the first scheduled day that is
    not completed is met before the 365-day guard. *)
Lemma scheduledStreak_loop_exact (now : Date) (days : list string)
  (sorted : list DateString) (k : nat) :
  forall (fuel : nat) (e : DateString) (streak : Z),
    covered (fun d => includesName days (dayNameOf (parseLocal d))) sorted e k ->
    includesName days (dayNameOf (parseLocal (e - Z.of_nat k))) = true ->
    ~ In (e - Z.of_nat k) sorted ->
    now - 365 * 24 * 60 * 60 * 1000 <= parseLocal (e - Z.of_nat k) ->
    (k < fuel)%nat ->
    scheduledStreak_loop fuel now days sorted (parseLocal e) streak
    = Some (streak
            + scheduledCount (fun d => includesName days (dayNameOf (parseLocal d))) e k).
Proof.
  induction k as [| k IH]; intros fuel e streak Hcov Hsched Hgap Hguard Hfuel;
    (destruct fuel as [| fuel]; [lia |]); cbn [scheduledStreak_loop scheduledCount].
  - cbn [Z.of_nat] in *. rewrite Z.sub_0_r in *.
    rewrite formatDate_parseLocal, Hsched.
    apply (proj2 (includes_not_In _ _)) in Hgap. rewrite Hgap. f_equal. lia.
  - rewrite formatDate_parseLocal, setDate_prev, parseLocal_shift.
    assert (Hnext : (parseLocal (e + -1) <? now - 365 * 24 * 60 * 60 * 1000) = false).
    { apply Z.ltb_ge. etransitivity; [exact Hguard |]. apply parseLocal_le. lia. }
    rewrite Hnext.
    assert (Hrest : forall s,
      scheduledStreak_loop fuel now days sorted (parseLocal (e + -1)) s
      = Some (s + scheduledCount (fun d => includesName days (dayNameOf (parseLocal d)))
                    (e - 1) k)).
    { intro s. replace (e - 1) with (e + -1) by lia.
      apply IH.
      - intros i Hi Hs.
        replace (e + -1 - Z.of_nat i) with (e - Z.of_nat (S i)) in * by lia.
        apply Hcov; [lia | exact Hs].
      - replace (e + -1 - Z.of_nat k) with (e - Z.of_nat (S k)) by lia. exact Hsched.
      - replace (e + -1 - Z.of_nat k) with (e - Z.of_nat (S k)) by lia. exact Hgap.
      - replace (e + -1 - Z.of_nat k) with (e - Z.of_nat (S k)) by lia. exact Hguard.
      - lia. }
    destruct (includesName days (dayNameOf (parseLocal e))) eqn:Es.
    + assert (Hin : In e sorted).
      { specialize (Hcov O ltac:(lia)). cbn [Z.of_nat] in Hcov.
        rewrite Z.sub_0_r in Hcov. now apply Hcov. }
      apply (proj2 (includes_In _ _)) in Hin. rewrite Hin, Hrest. f_equal. lia.
    + rewrite Hrest. f_equal.
Qed.

(** X14: the current streak of a habit with a schedule, when the latest
    scheduled day before today that was not completed is at most 365 days
    before now: it is the number of scheduled days between that day and
    today, plus one when today is scheduled and completed (a scheduled today
    that is not yet completed does not end the streak). *)
Theorem calculateStreak_scheduled_value (now : Date) (done : list DateString)
  (selectedDays : option (list string)) (targetDate : option DateString) (k : nat)
  (Hscheduled : noSchedule selectedDays = false)
  (Hrun : covered (isScheduledOn selectedDays) done (streakToday now targetDate - 1) k)
  (Hmissed : isScheduledOn selectedDays (streakToday now targetDate - 1 - Z.of_nat k) = true)
  (Hgap : ~ In (streakToday now targetDate - 1 - Z.of_nat k) done)
  (Hguard : now - 365 * 24 * 60 * 60 * 1000
            <= parseLocal (streakToday now targetDate - 1 - Z.of_nat k)) :
  calculateStreak now done selectedDays targetDate
  = todayBonus now done selectedDays targetDate
    + scheduledCount (isScheduledOn selectedDays) (streakToday now targetDate - 1) k.
Proof.
  unfold calculateStreak, todayBonus. cbv zeta. fold (streakToday now targetDate).
  set (today := streakToday now targetDate) in *.
  rewrite Hscheduled.
  set (days := match selectedDays with Some days => days | None => [] end).
  assert (Hext : forall d, isScheduledOn selectedDays d
                           = includesName days (dayNameOf (parseLocal d)))
    by (intro d; now apply isScheduledOn_scheduled).
  destruct (List.length done =? 0)%nat eqn:Elen.
  { apply Nat.eqb_eq in Elen. destruct done; [| discriminate].
    cbn [includes existsb]. rewrite andb_false_r, scheduledCount_zero; [reflexivity |].
    intros i Hi. destruct (isScheduledOn selectedDays (today - 1 - Z.of_nat i)) eqn:E;
      [destruct (Hrun i Hi E) | reflexivity]. }
  set (sorted := sortBy (fun a b => localeCompare b a) done).
  rewrite setDate_prev, parseLocal_shift.
  replace (today + -1) with (today - 1) by lia.
  rewrite (scheduledStreak_loop_exact now days sorted k).
  - unfold sorted. rewrite includes_sortBy, <- Hext.
    f_equal. apply scheduledCount_ext. intro d. now rewrite Hext.
  - apply (covered_ext (isScheduledOn selectedDays) _ done); [| | exact Hrun].
    + intro d. now rewrite Hext.
    + intro d. apply sortBy_In.
  - now rewrite <- Hext.
  - intro Hin. apply Hgap. now apply sortBy_In in Hin.
  - exact Hguard.
  - unfold scheduledStreak_fuel.
    assert (Hk : Z.of_nat k <= (parseLocal (today - 1) - (now - 365 * 24 * 60 * 60 * 1000))
                               / MS_PER_DAY).
    { apply Z.div_le_lower_bound; [apply MS_PER_DAY_pos |].
      unfold parseLocal in *. lia. }
    lia.
Qed.

Lemma calculateStreak_scheduled_value_witness :
  noSchedule (Some ["monday"; "wednesday"; "thursday"]%string) = false
  /\ calculateStreak sampleNow [ymd 2024 6 17; ymd 2024 6 19; ymd 2024 6 20]
       (Some ["monday"; "wednesday"; "thursday"]%string) None = 3.
Proof.
  split; [reflexivity |].
  rewrite (calculateStreak_scheduled_value sampleNow
             [ymd 2024 6 17; ymd 2024 6 19; ymd 2024 6 20]
             (Some ["monday"; "wednesday"; "thursday"]%string) None 6%nat).
  - vm_compute. reflexivity.
  - reflexivity.
  - intros i Hi Hs.
    assert (i = 0 \/ i = 1 \/ i = 2 \/ i = 3 \/ i = 4 \/ i = 5)%nat
      as [-> | [-> | [-> | [-> | [-> | ->]]]]] by lia;
      vm_compute in Hs; try discriminate; vm_compute; intuition.
  - vm_compute. reflexivity.
  - vm_compute. intuition discriminate.
  - vm_compute. discriminate.
Defined.

(** ** useHabits.ts: toggling a completion *)

Lemma find_id_spec (l : list Habit) (habitId : string) (habit : Habit) :
  find (fun h => String.eqb (id h) habitId) l = Some habit ->
  In habit l /\ id habit = habitId.
Proof.
  intro H. apply find_some in H. destruct H as [Hin He].
  split; [exact Hin | now apply String.eqb_eq].
Qed.

Lemma unique_id (l : list Habit) (h h' : Habit) :
  NoDup (map id l) -> In h l -> In h' l -> id h = id h' -> h = h'.
Proof.
  induction l as [| x l IH]; intros Hnd Hh Hh' Heq; [destruct Hh |].
  cbn [map] in Hnd. inversion Hnd as [| ? ? Hnotin Hnd']; subst.
  destruct Hh as [<- | Hh], Hh' as [<- | Hh'].
  - reflexivity.
  - exfalso. apply Hnotin. rewrite Heq. now apply in_map.
  - exfalso. apply Hnotin. rewrite <- Heq. now apply in_map.
  - now apply IH.
Qed.

Lemma find_id_unique (l : list Habit) (habit : Habit) :
  NoDup (map id l) -> In habit l ->
  find (fun h => String.eqb (id h) (id habit)) l = Some habit.
Proof.
  intros Hnd Hin.
  destruct (find (fun h => String.eqb (id h) (id habit)) l) as [h0 |] eqn:E.
  - destruct (find_id_spec _ _ _ E) as [Hin0 Hid0].
    f_equal. now apply (unique_id l).
  - pose proof (find_none _ _ E habit Hin) as Hf. cbv beta in Hf.
    now rewrite String.eqb_refl in Hf.
Qed.

Lemma filter_all {A : Type} (f : A -> bool) (l : list A) :
  (forall x, In x l -> f x = true) -> filter f l = l.
Proof.
  induction l as [| x l IH]; intro H; cbn [filter]; [reflexivity |].
  rewrite (H x (or_introl eq_refl)), IH; [reflexivity |].
  intros y Hy. apply H. now right.
Qed.

Lemma newCompletions_date (h : Habit) (date : DateString) :
  In date (newCompletions (includes (completions h) date) h date)
  <-> ~ In date (completions h).
Proof.
  unfold newCompletions. destruct (includes (completions h) date) eqn:E.
  - apply includes_In in E. rewrite filter_In, Z.eqb_refl. cbn [negb].
    split; [intros [_ H]; discriminate | intro H; contradiction].
  - apply includes_not_In in E. rewrite in_app_iff. cbn [In].
    split; [intros _; exact E | intros _; right; now left].
Qed.

Lemma newCompletions_other (isCompleted : bool) (h : Habit) (date d : DateString) :
  d <> date ->
  (In d (newCompletions isCompleted h date) <-> In d (completions h)).
Proof.
  intro Hne. unfold newCompletions. destruct isCompleted.
  - rewrite filter_In. apply Z.eqb_neq in Hne. rewrite Hne. cbn [negb]. tauto.
  - rewrite in_app_iff. cbn [In]. split; [intros [H | [H | []]]; [exact H | congruence] | tauto].
Qed.

Lemma newCompletions_NoDup (h : Habit) (date : DateString) :
  NoDup (completions h) ->
  NoDup (newCompletions (includes (completions h) date) h date).
Proof.
  intro Hnd. unfold newCompletions. destruct (includes (completions h) date) eqn:E.
  - now apply NoDup_filter.
  - apply includes_not_In in E.
    apply (Permutation_NoDup (Permutation_cons_append (completions h) date)).
    now constructor.
Qed.

(** Toggling twice gives back the completions, up to their order. *)
Lemma newCompletions_twice (h : Habit) (date : DateString) :
  NoDup (completions h) ->
  let once := newCompletions (includes (completions h) date) h date in
  let twice := newCompletions (includes once date) (withCompletions h once) date in
  Permutation (completions h) twice
  /\ (includes (completions h) date = false -> twice = completions h).
Proof.
  intro Hnd. cbv zeta. unfold newCompletions, withCompletions. cbn [completions].
  destruct (includes (completions h) date) eqn:E.
  - assert (Hout : includes (filter (fun c => negb (c =? date)) (completions h)) date = false).
    { apply includes_not_In. rewrite filter_In, Z.eqb_refl. cbn [negb].
      intros [_ H]. discriminate. }
    rewrite Hout. split; [| discriminate].
    apply includes_In in E. destruct (in_split _ _ E) as [l1 [l2 Hl]].
    rewrite Hl in *. apply NoDup_remove_2 in Hnd.
    rewrite filter_app. cbn [filter]. rewrite Z.eqb_refl. cbn [negb].
    rewrite !filter_all.
    + rewrite <- app_assoc. apply Permutation_app_head, Permutation_cons_append.
    + intros x Hx. apply negb_true_iff, Z.eqb_neq. intros ->.
      apply Hnd, in_or_app. now right.
    + intros x Hx. apply negb_true_iff, Z.eqb_neq. intros ->.
      apply Hnd, in_or_app. now left.
  - assert (Hin : includes (completions h ++ [date]) date = true)
      by (apply includes_In, in_or_app; right; now left).
    rewrite Hin. apply includes_not_In in E.
    assert (Heq : filter (fun c => negb (c =? date)) (completions h ++ [date]) = completions h).
    { rewrite filter_app. cbn [filter]. rewrite Z.eqb_refl. cbn [negb].
      rewrite app_nil_r. apply filter_all.
      intros x Hx. apply negb_true_iff, Z.eqb_neq. intros ->. contradiction. }
    rewrite Heq. split; [apply Permutation_refl | reflexivity].
Qed.

Lemma toggleUpdater_ids (now : Date) (habitId : string) (date : DateString)
  (isCompleted : bool) (prev : list Habit) :
  map id (toggleUpdater now habitId date isCompleted prev) = map id prev.
Proof.
  unfold toggleUpdater. rewrite map_map. apply map_ext.
  intro h. destruct (String.eqb (id h) habitId); reflexivity.
Qed.

Lemma toggleUpdater_others (now : Date) (habitId : string) (date : DateString)
  (isCompleted : bool) (prev : list Habit) (h : Habit) :
  id h <> habitId ->
  (In h (toggleUpdater now habitId date isCompleted prev) <-> In h prev).
Proof.
  intro Hne. unfold toggleUpdater. rewrite in_map_iff. split.
  - intros [x [Hx Hin]].
    destruct (String.eqb_spec (id x) habitId) as [Heq | Hneq]; cbn [negb] in Hx.
    + exfalso. apply Hne. rewrite <- Hx. exact Heq.
    + now rewrite <- Hx.
  - intro Hin. exists h. split; [| exact Hin].
    destruct (String.eqb_spec (id h) habitId); [contradiction | reflexivity].
Qed.

Lemma toggleUpdater_target (now : Date) (date : DateString) (isCompleted : bool)
  (prev : list Habit) (habit : Habit) :
  In habit prev ->
  In (updateHabitStreaks now (withCompletions habit (newCompletions isCompleted habit date)))
     (toggleUpdater now (id habit) date isCompleted prev).
Proof.
  intro Hin. unfold toggleUpdater. apply in_map_iff. exists habit.
  split; [| exact Hin]. now rewrite String.eqb_refl.
Qed.

Lemma toggleUpdater_In (now : Date) (date : DateString) (isCompleted : bool)
  (prev : list Habit) (habit h' : Habit) :
  NoDup (map id prev) -> In habit prev ->
  In h' (toggleUpdater now (id habit) date isCompleted prev) ->
  (In h' prev /\ id h' <> id habit)
  \/ h' = updateHabitStreaks now (withCompletions habit (newCompletions isCompleted habit date)).
Proof.
  intros Hnd Hin Hh'. unfold toggleUpdater in Hh'. apply in_map_iff in Hh'.
  destruct Hh' as [x [Hx Hxin]].
  destruct (String.eqb_spec (id x) (id habit)) as [Heq | Hneq]; cbn [negb] in Hx.
  - right. rewrite <- Hx. now rewrite (unique_id prev x habit Hnd Hxin Hin Heq).
  - left. rewrite <- Hx. split; assumption.
Qed.

Lemma toggleHabitCompletionForDate_resolved (now : Date) (userId : string)
  (st : HookState) (habit : Habit) (date : DateString) :
  NoDup (map id (habits st)) -> In habit (habits st) -> createdDate habit <= date ->
  toggleHabitCompletionForDate now (Some userId) None st (id habit) date
  = Resolved (setHabits st
                (toggleUpdater now (id habit) date (includes (completions habit) date)
                   (habits st))).
Proof.
  intros Hnd Hin Hdate. unfold toggleHabitCompletionForDate.
  rewrite (find_id_unique _ _ Hnd Hin).
  replace (date <? createdDate habit) with false by (symmetry; apply Z.ltb_ge; lia).
  reflexivity.
Qed.

(** X15: toggling a date of a habit (signed-in user, database call
    succeeds, date not before the habit's creation, habit ids unique) flips
    that date in the habit's completions and nothing else: the other dates
    and the other habits are as before, the habits keep their order, a
    completion list without repeated dates stays so, and the streak fields
    of the habit are recomputed from the new completions. *)
Theorem toggleHabitCompletionForDate_flips (now : Date) (userId : string)
  (st : HookState) (habit : Habit) (date : DateString)
  (Hids : NoDup (map id (habits st)))
  (Hin : In habit (habits st))
  (Hdate : createdDate habit <= date) :
  exists st' habit',
    toggleHabitCompletionForDate now (Some userId) None st (id habit) date = Resolved st'
    /\ error st' = error st
    /\ map id (habits st') = map id (habits st)
    /\ (forall h, id h <> id habit -> (In h (habits st') <-> In h (habits st)))
    /\ In habit' (habits st')
    /\ id habit' = id habit
    /\ (In date (completions habit') <-> ~ In date (completions habit))
    /\ (forall d, d <> date -> (In d (completions habit') <-> In d (completions habit)))
    /\ (NoDup (completions habit) -> NoDup (completions habit'))
    /\ currentStreak habit'
       = calculateStreak now (completions habit') (selectedDays habit) None
    /\ currentStreak habit' <= bestStreak habit'.
Proof.
  eexists. exists (updateHabitStreaks now
                     (withCompletions habit
                        (newCompletions (includes (completions habit) date) habit date))).
  split; [now apply toggleHabitCompletionForDate_resolved |].
  unfold setHabits. cbn [error habits].
  split; [reflexivity |].
  split; [apply toggleUpdater_ids |].
  split; [intros h Hh; now apply toggleUpdater_others |].
  split; [now apply toggleUpdater_target |].
  split; [reflexivity |].
  unfold updateHabitStreaks, withCompletions. cbn [completions currentStreak bestStreak selectedDays].
  split; [apply newCompletions_date |].
  split; [intros d Hd; now apply newCompletions_other |].
  split; [apply newCompletions_NoDup |].
  split; [reflexivity | lia].
Qed.

Lemma toggleHabitCompletionForDate_flips_witness :
  exists st',
    toggleHabitCompletionForDate sampleNow (Some "u1"%string) None
      (mkHookState [sampleHabit (ymd 2024 6 1) [ymd 2024 6 18] None] "all" None)
      "h1" (ymd 2024 6 19) = Resolved st'
    /\ map completions (habits st') = [[ymd 2024 6 18; ymd 2024 6 19]].
Proof.
  destruct (toggleHabitCompletionForDate_flips sampleNow "u1"
              (mkHookState [sampleHabit (ymd 2024 6 1) [ymd 2024 6 18] None] "all" None)
              (sampleHabit (ymd 2024 6 1) [ymd 2024 6 18] None) (ymd 2024 6 19))
    as [st' [habit' [Hres _]]].
  - cbn [habits map]. repeat constructor. intros [].
  - cbn [habits]. now left.
  - vm_compute. discriminate.
  - exists st'. split; [exact Hres |].
    unfold toggleHabitCompletionForDate in Hres. cbn in Hres. 
    injection Hres as <-. reflexivity.
Defined.

(** X16: [toggleHabitCompletionForDate] never records a completion dated
    before the habit's creation: when habit ids are unique and every stored
    completion is dated on or after its habit's creation date, the same
    holds after the call, whatever the user, the database outcome, the id
    and the date.  With no user, an unknown id, a date before the creation
    date or a failed database call the habits are left as they were. *)
Theorem toggleHabitCompletionForDate_keeps_creation_bound (now : Date)
  (user : option string) (db : option DbError) (st : HookState) (habitId : string)
  (date : DateString)
  (Hids : NoDup (map id (habits st)))
  (Hbound : forall h c, In h (habits st) -> In c (completions h) -> createdDate h <= c) :
  (forall h c,
     In h (habits (stateOf (toggleHabitCompletionForDate now user db st habitId date))) ->
     In c (completions h) -> createdDate h <= c)
  /\ (user = None
      \/ db <> None
      \/ (forall h, In h (habits st) -> id h <> habitId)
      \/ (exists h, In h (habits st) /\ id h = habitId /\ date < createdDate h) ->
      habits (stateOf (toggleHabitCompletionForDate now user db st habitId date))
      = habits st).
Proof.
  unfold toggleHabitCompletionForDate.
  destruct user as [userId |]; [| split; [exact Hbound | reflexivity]].
  destruct (find (fun h => String.eqb (id h) habitId) (habits st)) as [habit |] eqn:Efind;
    [| split; [exact Hbound | reflexivity]].
  destruct (find_id_spec _ _ _ Efind) as [Hin <-].
  destruct (Z.ltb_spec date (createdDate habit)) as [Hlt | Hge];
    [split; [exact Hbound | reflexivity] |].
  cbv zeta. destruct db as [failure |]; [split; [exact Hbound | reflexivity] |].
  cbn [stateOf]. unfold setHabits. cbn [habits]. split.
  - intros h c Hh Hc.
    destruct (toggleUpdater_In now date _ (habits st) habit h Hids Hin Hh) as [[Hold _] | ->].
    + now apply Hbound.
    + unfold updateHabitStreaks, withCompletions in Hc |- *.
      cbn [completions createdDate] in Hc |- *.
      destruct (Z.eq_dec c date) as [-> | Hne]; [exact Hge |].
      apply (Hbound habit c Hin).
      exact (proj1 (newCompletions_other (includes (completions habit) date) habit date c Hne)
               Hc).
  - intros [Hu | [Hdb | [Hnone | [h [Hh [Hid Hlt]]]]]].
    + discriminate.
    + contradiction.
    + destruct (Hnone habit Hin eq_refl).
    + rewrite (unique_id (habits st) h habit Hids Hh Hin Hid) in Hlt. lia.
Qed.

Lemma toggleHabitCompletionForDate_keeps_creation_bound_witness :
  habits (stateOf (toggleHabitCompletionForDate sampleNow (Some "u1"%string) None
                     (mkHookState [sampleHabit (ymd 2024 6 10) [ymd 2024 6 18] None] "all" None)
                     "h1" (ymd 2024 6 9)))
  = [sampleHabit (ymd 2024 6 10) [ymd 2024 6 18] None].
Proof.
  apply (toggleHabitCompletionForDate_keeps_creation_bound sampleNow (Some "u1"%string) None
           (mkHookState [sampleHabit (ymd 2024 6 10) [ymd 2024 6 18] None] "all" None)
           "h1" (ymd 2024 6 9)).
  - cbn [habits map]. repeat constructor. intros [].
  - intros h c [<- | []] [<- | []]. vm_compute. discriminate.
  - right. right. right. exists (sampleHabit (ymd 2024 6 10) [ymd 2024 6 18] None).
    split; [now left |]. split; [reflexivity | vm_compute; reflexivity].
Defined.

(** X17: toggling the same date twice (signed-in user, database calls
    succeed, unique ids, no repeated completion date) restores the habit:
    its completions are the original ones up to their order (exactly the
    original list when the date was not completed at first), the other
    habits and the order of the habits are untouched, and its streak fields
    are those [updateHabitStreaks] computes for the original habit. *)
Theorem toggleHabitCompletionForDate_twice (now : Date) (userId : string)
  (st : HookState) (habit : Habit) (date : DateString)
  (Hids : NoDup (map id (habits st)))
  (Hin : In habit (habits st))
  (Hdate : createdDate habit <= date)
  (Hnodup : NoDup (completions habit)) :
  exists st1 st2 habit2,
    toggleHabitCompletionForDate now (Some userId) None st (id habit) date = Resolved st1
    /\ toggleHabitCompletionForDate now (Some userId) None st1 (id habit) date = Resolved st2
    /\ map id (habits st2) = map id (habits st)
    /\ (forall h, id h <> id habit -> (In h (habits st2) <-> In h (habits st)))
    /\ In habit2 (habits st2)
    /\ id habit2 = id habit
    /\ Permutation (completions habit) (completions habit2)
    /\ currentStreak habit2 = currentStreak (updateHabitStreaks now habit)
    /\ bestStreak habit2 = bestStreak (updateHabitStreaks now habit)
    /\ (~ In date (completions habit) -> habit2 = updateHabitStreaks now habit).
Proof.
  set (once := newCompletions (includes (completions habit) date) habit date).
  set (habit1 := updateHabitStreaks now (withCompletions habit once)).
  set (st1 := setHabits st (toggleUpdater now (id habit) date
                              (includes (completions habit) date) (habits st))).
  set (twice := newCompletions (includes (completions habit1) date) habit1 date).
  set (habit2 := updateHabitStreaks now (withCompletions habit1 twice)).
  set (st2 := setHabits st1 (toggleUpdater now (id habit1) date
                               (includes (completions habit1) date) (habits st1))).
  assert (Hin1 : In habit1 (habits st1)) by (now apply toggleUpdater_target).
  assert (Hids1 : NoDup (map id (habits st1)))
    by (unfold st1, setHabits; cbn [habits]; now rewrite toggleUpdater_ids).
  destruct (newCompletions_twice habit date Hnodup) as [Hperm Hsame]. cbv zeta in Hperm, Hsame.
  fold once in Hperm, Hsame.
  change (newCompletions (includes once date) (withCompletions habit once) date)
    with twice in Hperm, Hsame.
  exists st1, st2, habit2.
  split; [now apply toggleHabitCompletionForDate_resolved |].
  split; [apply (toggleHabitCompletionForDate_resolved now userId st1 habit1 date Hids1 Hin1 Hdate) |].
  split; [unfold st2, st1, setHabits; cbn [habits]; now rewrite !toggleUpdater_ids |].
  split.
  { intros h Hh. unfold st2, st1, setHabits. cbn [habits].
    rewrite (toggleUpdater_others now (id habit1)) by exact Hh.
    now apply toggleUpdater_others. }
  split; [now apply (toggleUpdater_target now date _ (habits st1) habit1) |].
  split; [reflexivity |].
  split; [exact Hperm |].
  assert (Hcur : calculateStreak now twice (selectedDays habit) None
                 = calculateStreak now (completions habit) (selectedDays habit) None)
    by (symmetry; now apply calculateStreak_Permutation).
  assert (Hbest : calculateBestStreak twice (selectedDays habit)
                  = calculateBestStreak (completions habit) (selectedDays habit))
    by (symmetry; now apply calculateBestStreak_Permutation).
  split; [exact Hcur |].
  split.
  { unfold habit2, habit1, updateHabitStreaks, withCompletions.
    cbn [bestStreak completions selectedDays]. now rewrite Hcur, Hbest. }
  intro Hout. apply (proj2 (includes_not_In _ _)) in Hout. specialize (Hsame Hout).
  unfold habit2, habit1, updateHabitStreaks, withCompletions.
  cbn [id name category description createdDate completions selectedDays color customColor].
  fold once. fold habit1. fold twice. rewrite Hsame. reflexivity.
Qed.

Lemma toggleHabitCompletionForDate_twice_witness :
  exists st1 st2,
    toggleHabitCompletionForDate sampleNow (Some "u1"%string) None
      (mkHookState [sampleHabit (ymd 2024 6 1) [ymd 2024 6 18] None] "all" None)
      "h1" (ymd 2024 6 19) = Resolved st1
    /\ toggleHabitCompletionForDate sampleNow (Some "u1"%string) None st1
         "h1" (ymd 2024 6 19) = Resolved st2
    /\ map id (habits st2) = ["h1"%string].
Proof.
  destruct (toggleHabitCompletionForDate_twice sampleNow "u1"
              (mkHookState [sampleHabit (ymd 2024 6 1) [ymd 2024 6 18] None] "all" None)
              (sampleHabit (ymd 2024 6 1) [ymd 2024 6 18] None) (ymd 2024 6 19))
    as [st1 [st2 [habit2 (H1 & H2 & Hids & _)]]].
  - cbn [habits map]. repeat constructor. intros [].
  - cbn [habits]. now left.
  - vm_compute. discriminate.
  - cbn [completions sampleHabit]. repeat constructor. intros [].
  - exists st1, st2. split; [exact H1 |]. split; [exact H2 | exact Hids].
Defined.



(** X19: [deleteHabit] (signed-in user, database call succeeds) removes
    exactly the habits with the given id and keeps the others; a toggle of
    the deleted id then changes nothing.  With no user or a failed database
    call the promise is rejected and the habits are kept. *)
Theorem deleteHabit_removes (userId : string) (st : HookState) (habitId : string) :
  exists st',
    deleteHabit (Some userId) None st habitId = Resolved st'
    /\ (forall h, In h (habits st') <-> In h (habits st) /\ id h <> habitId)
    /\ (forall now db date,
          toggleHabitCompletionForDate now (Some userId) db st' habitId date = Resolved st'
          /\ toggleHabitCompletion now (Some userId) db st' habitId = Resolved st')
    /\ (forall user db, user = None \/ db <> None ->
          exists st'', deleteHabit user db st habitId = Rejected st''
                       /\ habits st'' = habits st).
Proof.
  eexists. split; [reflexivity |].
  unfold setHabits. cbn [habits].
  assert (Hmem : forall h,
            In h (filter (fun habit => negb (String.eqb (id habit) habitId)) (habits st))
            <-> In h (habits st) /\ id h <> habitId).
  { intro h. rewrite filter_In, negb_true_iff.
    destruct (String.eqb_spec (id h) habitId); intuition congruence. }
  split; [exact Hmem |]. split.
  - intros now db date.
    assert (Hfind : find (fun h => String.eqb (id h) habitId)
                      (filter (fun habit => negb (String.eqb (id habit) habitId)) (habits st))
                    = None).
    { destruct (find _ _) as [h |] eqn:E; [| reflexivity].
      destruct (find_id_spec _ _ _ E) as [Hin Hid].
      apply Hmem in Hin. destruct Hin as [_ Hne]. contradiction. }
    unfold toggleHabitCompletionForDate, toggleHabitCompletion. cbn [habits].
    rewrite Hfind. split; reflexivity.
  - intros user db [-> | Hdb].
    + eexists. split; reflexivity.
    + destruct user as [u |]; [| eexists; split; reflexivity].
      destruct db as [failure |]; [| contradiction].
      eexists. split; reflexivity.
Qed.

(** X20: [getTodayHabits] lists, in their stored order, exactly the habits
    that [getCompletionRate] counts as scheduled on today's date, each with
    the flag that says whether today is among its completions. *)
Theorem getTodayHabits_scheduled_today (now : Date) (st : HookState) :
  getTodayHabits now st
  = map (fun habit => (habit, includes (completions habit) (getTodayString now)))
      (filter (fun habit => isScheduledOn (selectedDays habit) (getTodayString now))
         (habits st))
  /\ (forall habit flag, In (habit, flag) (getTodayHabits now st) ->
        In habit (habits st)
        /\ isScheduledOn (selectedDays habit) (getTodayString now) = true
        /\ (flag = true <-> In (getTodayString now) (completions habit))).
Proof.
  assert (Heq : getTodayHabits now st
    = map (fun habit => (habit, includes (completions habit) (getTodayString now)))
        (filter (fun habit => isScheduledOn (selectedDays habit) (getTodayString now))
           (habits st))).
  { unfold getTodayHabits. cbv zeta. f_equal. apply filter_ext. intro habit.
    unfold isScheduledOn, noSchedule, getTodayString. cbv zeta.
    rewrite dayNameOf_formatDate.
    destruct (selectedDays habit) as [days |]; reflexivity. }
  split; [exact Heq |].
  intros habit flag Hin. rewrite Heq in Hin. apply in_map_iff in Hin.
  destruct Hin as [h [Hpair Hh]]. injection Hpair as <- <-.
  apply filter_In in Hh. destruct Hh as [Hh Hs].
  split; [exact Hh |]. split; [exact Hs | apply includes_In].
Qed.

(** ** CalendarView.tsx: the habits of a day *)

Lemma shownOn_scheduled (dateString : DateString) (habit : Habit) :
  shownOn (dayNameOf (parseLocal dateString)) dateString habit
  = (createdDate habit <=? dateString)
    && isScheduledOn (selectedDays habit) dateString.
Proof.
  unfold shownOn, isScheduledOn, noSchedule. cbv zeta.
  rewrite (Z.leb_antisym dateString (createdDate habit)).
  destruct (dateString <? createdDate habit); cbn [negb andb]; [reflexivity |].
  destruct (selectedDays habit) as [days |]; [| reflexivity].
  destruct (includesName days (dayNameOf (parseLocal dateString)));
    destruct (List.length days =? 0)%nat; reflexivity.
Qed.

Lemma getHabitsForDay_filter (date : Date) (allHabits : list Habit) :
  getHabitsForDay date allHabits
  = filter (fun habit => (createdDate habit <=? formatDate date)
                         && isScheduledOn (selectedDays habit) (formatDate date))
      allHabits.
Proof.
  unfold getHabitsForDay. cbv zeta. apply filter_ext. intro habit.
  rewrite <- shownOn_scheduled, dayNameOf_formatDate. reflexivity.
Qed.

(** X21: [getHabitsForDay] shows, in their stored order, exactly the habits
    created on or before that day that [getCompletionRate] counts as
    scheduled on it; whether a shown habit is completed is read off the
    day's date string. *)
Theorem getHabitsForDay_scheduled (date : Date) (allHabits : list Habit) :
  getHabitsForDay date allHabits
  = filter (fun habit => (createdDate habit <=? formatDate date)
                         && isScheduledOn (selectedDays habit) (formatDate date))
      allHabits
  /\ (forall habit, In habit (getHabitsForDay date allHabits) <->
        In habit allHabits
        /\ createdDate habit <= formatDate date
        /\ isScheduledOn (selectedDays habit) (formatDate date) = true)
  /\ (forall habit date', formatDate date' = formatDate date ->
        getHabitsForDay date' allHabits = getHabitsForDay date allHabits
        /\ isHabitCompletedOnDate habit date' = isHabitCompletedOnDate habit date).
Proof.
  pose proof (fun t => getHabitsForDay_filter t allHabits) as Heq.
  split; [apply Heq |]. split.
  - intro habit. rewrite Heq, filter_In, andb_true_iff, Z.leb_le. tauto.
  - intros habit date' Hsame. split.
    + now rewrite !Heq, Hsame.
    + unfold isHabitCompletedOnDate. cbv zeta. now rewrite Hsame.
Qed.

Lemma makeDate_of_civil (s : DateString) :
  getFullYear (parseLocal s) < 0 \/ 99 < getFullYear (parseLocal s) ->
  (let '(year, month, day) := civil_from_days s in makeDate year (month - 1) day)
  = parseLocal s.
Proof.
  intro Hyear.
  pose proof (civil_of_Date (parseLocal s)) as Hc. rewrite dayIndex_parseLocal in Hc.
  rewrite Hc.
  replace (getMonth (parseLocal s) + 1 - 1) with (getMonth (parseLocal s)) by lia.
  rewrite makeDate_newDate by (exact Hyear || apply getMonth_range).
  unfold newDate, parseLocal. f_equal.
  rewrite dayIndex_of_fields. apply dayIndex_parseLocal.
Qed.

(** X22: for a date string outside the years 0 to 99,
    [getHabitsForDateString] shows the same habits as [getHabitsForDay] does
    for any instant of that day: those created on or before the day and
    scheduled on it.  [isAllHabitsCompleted] holds exactly when at least one
    habit is shown and every shown habit has the day among its
    completions. *)
Theorem getHabitsForDateString_scheduled (dateString : DateString)
  (allHabits : list Habit)
  (Hyear : getFullYear (parseLocal dateString) < 0
           \/ 99 < getFullYear (parseLocal dateString)) :
  getHabitsForDateString dateString allHabits
  = filter (fun habit => (createdDate habit <=? dateString)
                         && isScheduledOn (selectedDays habit) dateString)
      allHabits
  /\ (forall date, formatDate date = dateString ->
        getHabitsForDay date allHabits = getHabitsForDateString dateString allHabits)
  /\ (isAllHabitsCompleted allHabits dateString = true <->
        (exists habit, In habit (getHabitsForDateString dateString allHabits))
        /\ (forall habit, In habit (getHabitsForDateString dateString allHabits) ->
              In dateString (completions habit))).
Proof.
  assert (Heq : getHabitsForDateString dateString allHabits
    = filter (fun habit => (createdDate habit <=? dateString)
                           && isScheduledOn (selectedDays habit) dateString)
        allHabits).
  { unfold getHabitsForDateString.
    pose proof (makeDate_of_civil dateString Hyear) as Hdate.
    destruct (civil_from_days dateString) as [[year month] day]. cbv zeta.
    rewrite Hdate. apply filter_ext. intro habit.
    now rewrite <- shownOn_scheduled. }
  split; [exact Heq |]. split.
  - intros date <-.
    now rewrite Heq, getHabitsForDay_filter.
  - unfold isAllHabitsCompleted. cbv zeta.
    destruct (getHabitsForDateString dateString allHabits) as [| h0 shown] eqn:E.
    + cbn [List.length Nat.eqb]. split; [discriminate | intros [[h []] _]].
    + replace (List.length (h0 :: shown) =? 0)%nat with false by reflexivity.
      rewrite forallb_forall. split.
      * intro H. split; [exists h0; now left |].
        intros habit Hin. apply includes_In. now apply H.
      * intros [_ H] habit Hin. apply includes_In. now apply H.
Qed.

Lemma getHabitsForDateString_scheduled_witness :
  (getFullYear (parseLocal (ymd 2024 6 20)) < 0
   \/ 99 < getFullYear (parseLocal (ymd 2024 6 20)))
  /\ getHabitsForDay sampleNow [sampleHabit (ymd 2024 6 1) [] None]
     = getHabitsForDateString (ymd 2024 6 20) [sampleHabit (ymd 2024 6 1) [] None].
Proof.
  assert (H : getFullYear (parseLocal (ymd 2024 6 20)) < 0
              \/ 99 < getFullYear (parseLocal (ymd 2024 6 20)))
    by (right; vm_compute; reflexivity).
  split; [exact H |].
  apply (getHabitsForDateString_scheduled (ymd 2024 6 20) _ H).
  vm_compute. reflexivity.
Defined.

(** ** CalendarView.tsx: the month grid *)

Lemma getFullYear_ge_100 (t : Date) :
  days_from_civil 100 1 1 <= dayIndex t -> 100 <= getFullYear t.
Proof.
  intro Hle. destruct (Z_lt_le_dec (getFullYear t) 100) as [Hlt | Hge]; [| exact Hge].
  exfalso.
  pose proof (civil_from_days_valid (dayIndex t)) as Hvalid.
  pose proof (days_from_civil_from_days (dayIndex t)) as Hback.
  assert (Hbefore : days_from_civil (fst (fst (civil_from_days (dayIndex t))))
                      (snd (fst (civil_from_days (dayIndex t))))
                      (snd (civil_from_days (dayIndex t)))
                    < days_from_civil 100 1 1).
  { apply days_from_civil_lt; [exact Hvalid | |].
    - split; [lia |]. pose proof (daysInMonth_range 100 1). lia.
    - cbn [dateBefore]. left. exact Hlt. }
  lia.
Qed.

Lemma makeDate_of_fields (t : Date) :
  getFullYear t < 0 \/ 99 < getFullYear t ->
  makeDate (getFullYear t) (getMonth t) (getDate t) = parseLocal (dayIndex t).
Proof.
  intro Hyear. rewrite makeDate_newDate by (exact Hyear || apply getMonth_range).
  unfold newDate, parseLocal. now rewrite dayIndex_of_fields.
Qed.

Lemma makeDate_first_after_100 (year month : Z) :
  100 < year -> 0 <= month <= 11 ->
  days_from_civil 100 1 1 + 365 <= dayIndex (makeDate year month 1).
Proof.
  intros Hyear Hmonth. rewrite makeDate_dayIndex.
  unfold fullYearOf.
  replace ((0 <=? year) && (year <=? 99)) with false
    by (symmetry; apply andb_false_iff; rewrite !Z.leb_gt; lia).
  rewrite Z.div_small, Z.mod_small, Z.add_0_r by lia.
  assert (H101 : days_from_civil 100 1 1 + 365 = days_from_civil 101 1 1) by reflexivity.
  rewrite H101.
  destruct (Z.eq_dec year 101) as [-> | Hne];
    [destruct (Z.eq_dec month 0) as [-> | Hm]; [reflexivity |] |].
  - apply Z.lt_le_incl, days_from_civil_lt.
    + split; [lia |]. pose proof (daysInMonth_range 101 1). lia.
    + split; [lia |]. pose proof (daysInMonth_range 101 (month + 1)). lia.
    + cbn [dateBefore]. right. split; [reflexivity |]. left. lia.
  - apply Z.lt_le_incl, days_from_civil_lt.
    + split; [lia |]. pose proof (daysInMonth_range 101 1). lia.
    + split; [lia |]. pose proof (daysInMonth_range year (month + 1)). lia.
    + cbn [dateBefore]. left. lia.
Qed.

Lemma ceil_div_7 (p : Z) : 7 * (ceil_div p 7 - 1) < p <= 7 * ceil_div p 7.
Proof. unfold ceil_div. Z.div_mod_to_equations. lia. Qed.

(** X23: for a month of a year after 100, [generateCalendarDays] is a grid
    of whole weeks, Sunday first, of consecutive local midnights: it has 4,
    5 or 6 rows, the first of the month stands in the first row and the last
    day of the month in the last row, so that every day of the month is in
    the grid and no row is without a day of the month. *)
Theorem generateCalendarDays_grid (year month : Z)
  (Hyear : 100 < year) (Hmonth : 0 <= month <= 11) :
  let first := makeDate year month 1 in
  let rows := getRequiredRows year month in
  4 <= rows <= 6
  /\ List.length (generateCalendarDays year month) = Z.to_nat (rows * 7)
  /\ (forall i : nat, (i < Z.to_nat (rows * 7))%nat ->
        nth_error (generateCalendarDays year month) i
        = Some (first + (Z.of_nat i - getDay first) * MS_PER_DAY))
  /\ (forall i day, nth_error (generateCalendarDays year month) i = Some day ->
        getDay day = Z.of_nat i mod 7)
  /\ (forall d, 1 <= d <= getDaysInMonth year month ->
        nth_error (generateCalendarDays year month) (Z.to_nat (getDay first + d - 1))
        = Some (makeDate year month d))
  /\ 7 * (rows - 1) < getDay first + getDaysInMonth year month <= 7 * rows.
Proof.
  cbv zeta.
  set (first := makeDate year month 1).
  set (rows := getRequiredRows year month).
  pose proof (getDay_range first) as Hoff.
  assert (Hdim : 28 <= getDaysInMonth year month <= 31)
    by (rewrite getDaysInMonth_daysInMonth; apply daysInMonth_range).
  assert (Hrows : 7 * (rows - 1) < getDay first + getDaysInMonth year month <= 7 * rows)
    by (unfold rows, getRequiredRows; cbv zeta; apply ceil_div_7).
  assert (Hrange : 4 <= rows <= 6) by lia.
  assert (Hcell : forall i : nat, (i < Z.to_nat (rows * 7))%nat ->
            calendarCell (setDate first (getDate first - getDay first)) (Z.of_nat i)
            = first + (Z.of_nat i - getDay first) * MS_PER_DAY).
  { intros i Hi. unfold calendarCell. cbv zeta.
    rewrite (setDate_shift _ (Z.of_nat i)).
    replace (getDate first - getDay first) with (getDate first + - getDay first) by lia.
    rewrite setDate_shift.
    set (t := first + - getDay first * MS_PER_DAY + Z.of_nat i * MS_PER_DAY).
    assert (Ht : t = first + (Z.of_nat i - getDay first) * MS_PER_DAY) by (unfold t; lia).
    assert (Hidx : dayIndex t = dayIndex first + (Z.of_nat i - getDay first))
      by (rewrite Ht; apply dayIndex_shift).
    pose proof (makeDate_first_after_100 year month Hyear Hmonth) as Hfirst.
    fold first in Hfirst.
    rewrite makeDate_of_fields.
    - pose proof (makeDate_midnight year month 1) as Hmid. fold first in Hmid.
      rewrite Hidx. unfold parseLocal in *. lia.
    - right. pose proof (getFullYear_ge_100 t ltac:(lia)). lia. }
  assert (Hnth : forall i : nat, (i < Z.to_nat (rows * 7))%nat ->
            nth_error (generateCalendarDays year month) i
            = Some (first + (Z.of_nat i - getDay first) * MS_PER_DAY)).
  { intros i Hi. unfold generateCalendarDays. cbv zeta. fold first. fold rows.
    rewrite nth_error_map, nth_error_seq.
    destruct (Nat.ltb_spec i (Z.to_nat (rows * 7))) as [_ | Hge]; [| lia].
    cbn [option_map Nat.add]. f_equal. now apply Hcell. }
  assert (Hlen : List.length (generateCalendarDays year month) = Z.to_nat (rows * 7)).
  { unfold generateCalendarDays. cbv zeta. fold first. fold rows.
    now rewrite length_map, length_seq. }
  split; [exact Hrange |]. split; [exact Hlen |]. split; [exact Hnth |]. split.
  - intros i day Hi.
    assert (Hlt : (i < Z.to_nat (rows * 7))%nat)
      by (rewrite <- Hlen; apply nth_error_Some; congruence).
    rewrite Hnth in Hi by exact Hlt. injection Hi as <-.
    rewrite getDay_shift. f_equal. lia.
  - split; [| exact Hrows].
    intros d Hd. rewrite Hnth by lia. f_equal.
    rewrite Z2Nat.id by lia.
    replace d with (1 + (d - 1)) at 2 by lia. rewrite makeDate_shift. fold first. lia.
Qed.

Lemma generateCalendarDays_grid_witness :
  100 < 2024 /\ 0 <= 5 <= 11
  /\ List.length (generateCalendarDays 2024 5) = 42%nat.
Proof.
  assert (Hy : 100 < 2024) by lia.
  assert (Hm : 0 <= 5 <= 11) by lia.
  split; [exact Hy |]. split; [exact Hm |].
  destruct (generateCalendarDays_grid 2024 5 Hy Hm) as (_ & Hlen & _).
  rewrite Hlen. vm_compute. reflexivity.
Defined.

(** ** More on getCompletionRate *)

Lemma getCompletionRate_ratio_eq (now : Date) (habit : Habit) (period : Period) :
  getCompletionRate now habit period
  = if Z.of_nat (List.length (scheduledElapsedDays now habit period)) =? 0 then 0
    else round_div (completedDays now habit period * 100)
           (Z.of_nat (List.length (scheduledElapsedDays now habit period))).
Proof.
  unfold getCompletionRate, getCompletionRate_return. cbv zeta.
  set (total := Z.of_nat (List.length (scheduledElapsedDays now habit period))).
  set (completed := completedDays now habit period).
  destruct (Z.eqb_spec total 0) as [E0 | E0]; [reflexivity |].
  assert (Hpos : 0 < total) by (unfold total in *; lia).
  destruct (Z.eqb_spec total 1) as [E1 | E1]; cbn [andb].
  - destruct (match nth_error (scheduledElapsedDays now habit period) 0 with
              | Some first => first =? getTodayString now
              | None => false
              end); cbn [andb].
    + destruct (Z.eqb_spec completed 1) as [Ec | Ec]; cbn [rateValue].
      * rewrite E1, Ec. reflexivity.
      * replace (0 <? total) with true by (symmetry; apply Z.ltb_lt; lia). reflexivity.
    + cbn [rateValue].
      replace (0 <? total) with true by (symmetry; apply Z.ltb_lt; lia). reflexivity.
  - cbn [rateValue].
    replace (0 <? total) with true by (symmetry; apply Z.ltb_lt; lia). reflexivity.
Qed.











(** ** More on getHabitStats *)

Lemma getCompletionRate_range (now : Date) (habit : Habit) (period : Period) :
  NoDup (completions habit) -> 0 <= getCompletionRate now habit period <= 100.
Proof.
  intro Hnd. rewrite getCompletionRate_ratio_eq.
  pose proof (completedDays_le_scheduled now habit period Hnd) as Hc.
  destruct (Z.eqb_spec (Z.of_nat (List.length (scheduledElapsedDays now habit period))) 0);
    [lia |].
  apply round_div_percent_bounds; lia.
Qed.

Lemma sumZ_bounds (lo hi : Z) (values : list Z) :
  Forall (fun v => lo <= v <= hi) values ->
  lo * Z.of_nat (List.length values) <= sumZ values <= hi * Z.of_nat (List.length values).
Proof.
  induction 1 as [| v values Hv _ IH]; cbn [sumZ fold_right List.length]; [lia |].
  fold (sumZ values). rewrite Nat2Z.inj_succ. lia.
Qed.

(** X26: the dashboard statistics are in range when no habit has a
    repeated completion date: the average completion rate lies between 0
    and 100, the number of active streaks between 0 and the number of
    habits, the longest streak is non-negative and at least every habit's
    stored best streak, and the total of completions is the sum over the
    habits. *)
Theorem getHabitStats_ranges (now : Date) (habits : list Habit)
  (Hnodup : forall h, In h habits -> NoDup (completions h)) :
  0 <= averageCompletionRate (getHabitStats now habits) <= 100
  /\ 0 <= currentActiveStreaks (getHabitStats now habits)
       <= totalHabits (getHabitStats now habits)
  /\ 0 <= longestStreak (getHabitStats now habits)
  /\ (forall h, In h habits -> bestStreak h <= longestStreak (getHabitStats now habits))
  /\ (forall h, In h habits ->
        Z.of_nat (List.length (completions h)) <= totalCompletions (getHabitStats now habits)).
Proof.
  unfold getHabitStats. cbv zeta.
  cbn [averageCompletionRate currentActiveStreaks totalHabits longestStreak totalCompletions].
  rewrite !fold_left_sum, !Z.add_0_l.
  split.
  { destruct (Z.ltb_spec 0 (Z.of_nat (List.length habits))) as [Hpos | Hzero]; [| lia].
    assert (Hrates : Forall (fun v => 0 <= v <= 100)
                       (map (fun h => getCompletionRate now h Month) habits)).
    { apply Forall_forall. intros v Hv. apply in_map_iff in Hv.
      destruct Hv as [h [<- Hh]]. apply getCompletionRate_range. now apply Hnodup. }
    apply sumZ_bounds in Hrates. rewrite length_map in Hrates.
    set (s := sumZ (map (fun h => getCompletionRate now h Month) habits)) in *.
    unfold round_div. split.
    - apply Z.div_pos; lia.
    - assert ((2 * s + Z.of_nat (List.length habits)) / (2 * Z.of_nat (List.length habits)) < 101);
        [| lia].
      apply Z.div_lt_upper_bound; lia. }
  split.
  { split; [lia |]. apply inj_le, filter_length_le. }
  pose proof (mathMax0_upper_bound (map bestStreak habits)) as [H0 Hall].
  split; [exact H0 |]. split.
  - intros h Hh. rewrite Forall_forall in Hall. apply Hall. now apply in_map.
  - intros h Hh.
    assert (Hsum : forall l : list Habit, In h l ->
              Z.of_nat (List.length (completions h))
              <= sumZ (map (fun h0 => Z.of_nat (List.length (completions h0))) l)).
    { induction l as [| x l IH]; intro Hin; [destruct Hin |].
      cbn [map sumZ fold_right].
      fold (sumZ (map (fun h0 => Z.of_nat (List.length (completions h0))) l)).
      assert (0 <= sumZ (map (fun h0 => Z.of_nat (List.length (completions h0))) l)).
      { clear. induction l as [| y l IH]; cbn [map sumZ fold_right]; [lia |].
        fold (sumZ (map (fun h0 => Z.of_nat (List.length (completions h0))) l)). lia. }
      destruct Hin as [-> | Hin]; [lia | specialize (IH Hin); lia]. }
    now apply Hsum.
Qed.

Lemma getHabitStats_ranges_witness :
  0 <= averageCompletionRate
         (getHabitStats sampleNow [sampleHabit (ymd 2024 6 1) [ymd 2024 6 18] None])
    <= 100.
Proof.
  apply (getHabitStats_ranges sampleNow [sampleHabit (ymd 2024 6 1) [ymd 2024 6 18] None]).
  intros h [<- | []]. cbn [completions sampleHabit]. repeat constructor. intros [].
Defined.

(** ** categoryUtils.ts *)

Lemma ownProperty_In (obj : JsObject) (key value : string) :
  ownProperty obj key = Some value -> In value (map snd obj).
Proof.
  induction obj as [| [k v] obj IH]; cbn [ownProperty map snd]; [discriminate |].
  destruct (String.eqb k key); [intros [= ->]; now left | intro H; right; now apply IH].
Qed.

Lemma ownProperty_setOwnProperty (obj : JsObject) (key value key' : string) :
  ownProperty (setOwnProperty obj key value) key'
  = if String.eqb key key' then Some value else ownProperty obj key'.
Proof.
  induction obj as [| [k v] obj IH]; cbn [setOwnProperty ownProperty].
  - reflexivity.
  - destruct (String.eqb_spec k key) as [-> | Hne]; cbn [ownProperty].
    + destruct (String.eqb key key'); reflexivity.
    + rewrite IH. destruct (String.eqb_spec k key') as [-> | Hne'].
      * destruct (String.eqb_spec key key'); [congruence | reflexivity].
      * reflexivity.
Qed.

Lemma getProperty_setProperty (obj : JsObject) (key value key' : string) :
  key <> "__proto__"%string ->
  getProperty (setProperty obj key value) key'
  = if String.eqb key key' then JsString value else getProperty obj key'.
Proof.
  intro Hkey. unfold setProperty.
  replace (String.eqb key "__proto__") with false
    by (symmetry; now apply String.eqb_neq).
  assert (Hset : getProperty (setOwnProperty obj key value) key'
                 = if String.eqb key key' then JsString value else getProperty obj key').
  { unfold getProperty. rewrite ownProperty_setOwnProperty.
    destruct (String.eqb key key'); reflexivity. }
  destruct (ownProperty obj key); exact Hset.
Qed.

Lemma orElse_default (x : JsValue) (c fallback : string) :
  c <> ""%string ->
  orElse (orElse x (JsString c)) (JsString fallback) = orElse x (JsString c).
Proof.
  intro Hc. unfold orElse. destruct (truthy x) eqn:E; [now rewrite E |].
  cbn [truthy]. replace (String.eqb c "") with false
    by (symmetry; now apply String.eqb_neq).
  reflexivity.
Qed.

Lemma find_default (c : Category.HabitCategory) :
  In c DEFAULT_CATEGORIES ->
  find (fun c0 => String.eqb (Category.id c0) (Category.id c)) DEFAULT_CATEGORIES = Some c
  /\ exists s, Category.color c = JsString s /\ s <> ""%string.
Proof.
  intro Hc. cbn [DEFAULT_CATEGORIES In] in Hc.
  destruct Hc as [<- | [<- | [<- | [<- | [<- | [<- | []]]]]]];
    (split; [reflexivity | eexists; split; [reflexivity | discriminate]]).
Qed.

(** X27: storing a colour for a category and reading it back.  For a
    category id other than ["__proto__"] and a non-empty colour,
    [getCategoryColor] after [setCategoryColor] returns that colour, and the
    colour of every other id is unchanged.  After [resetCategoryColors]
    [getAllCategories] is the list of default categories, and in any state
    each category it returns carries the colour [getCategoryColor] gives for
    its id. *)
Theorem setCategoryColor_getCategoryColor (storage : CategoryColors)
  (categoryId color : string)
  (Hid : categoryId <> "__proto__"%string) (Hcolor : color <> ""%string) :
  getCategoryColor (setCategoryColor storage categoryId color) categoryId = JsString color
  /\ (forall other, other <> categoryId ->
        getCategoryColor (setCategoryColor storage categoryId color) other
        = getCategoryColor storage other)
  /\ getAllCategories (resetCategoryColors storage) = DEFAULT_CATEGORIES
  /\ (forall c, In c (getAllCategories storage) ->
        Category.color c = getCategoryColor storage (Category.id c)).
Proof.
  split.
  { unfold getCategoryColor, setCategoryColor. cbv zeta. cbn [parseCategoryColors].
    rewrite getProperty_setProperty by exact Hid. rewrite String.eqb_refl.
    unfold orElse. cbn [truthy].
    replace (String.eqb color "") with false by (symmetry; now apply String.eqb_neq).
    cbn [negb]. cbn [truthy].
    replace (String.eqb color "") with false by (symmetry; now apply String.eqb_neq).
    reflexivity. }
  split.
  { intros other Hother. unfold getCategoryColor, setCategoryColor. cbv zeta.
    cbn [parseCategoryColors]. rewrite getProperty_setProperty by exact Hid.
    replace (String.eqb categoryId other) with false
      by (symmetry; apply String.eqb_neq; congruence).
    reflexivity. }
  split; [reflexivity |].
  intros c Hc. unfold getAllCategories in Hc. cbv zeta in Hc.
  apply in_map_iff in Hc. destruct Hc as [c0 [<- Hc0]].
  cbn [Category.id Category.color].
  destruct (find_default c0 Hc0) as [Hfind [s [Hs Hne]]].
  unfold getCategoryColor. cbv zeta. rewrite Hfind, Hs.
  symmetry. now apply orElse_default.
Qed.

Lemma setCategoryColor_getCategoryColor_witness :
  "health"%string <> "__proto__"%string /\ "#112233"%string <> ""%string
  /\ getCategoryColor (setCategoryColor None "health" "#112233") "health"
     = JsString "#112233".
Proof.
  assert (Hid : "health"%string <> "__proto__"%string) by discriminate.
  assert (Hcolor : "#112233"%string <> ""%string) by discriminate.
  split; [exact Hid |]. split; [exact Hcolor |].
  apply (setCategoryColor_getCategoryColor None "health" "#112233" Hid Hcolor).
Defined.

(** X28: [migrateCategoryName] maps every name that is not a member of
    [Object.prototype] to the id of one of the default categories, the
    unlisted names to ['personal'].  The ids themselves are not listed, so
    migrating an already migrated name always gives ['personal'].  For a
    member of [Object.prototype] the result is the inherited member, not a
    category id. *)
Theorem migrateCategoryName_range (oldCategoryName : string) :
  (~ In oldCategoryName objectPrototypeMembers ->
   exists c, In c DEFAULT_CATEGORIES
             /\ migrateCategoryName oldCategoryName = JsString (Category.id c)
             /\ getCategoryById (Category.id c) = Some c
             /\ migrateCategoryName (Category.id c) = JsString "personal")
  /\ (~ In oldCategoryName objectPrototypeMembers ->
      ownProperty categoryMapping oldCategoryName = None ->
      migrateCategoryName oldCategoryName = JsString "personal")
  /\ (In oldCategoryName objectPrototypeMembers ->
      migrateCategoryName oldCategoryName = JsInherited oldCategoryName).
Proof.
  assert (Hnot : ~ In oldCategoryName objectPrototypeMembers ->
                 existsb (String.eqb oldCategoryName) objectPrototypeMembers = false).
  { intro H. destruct (existsb _ _) eqn:E; [| reflexivity].
    apply existsb_exists in E. destruct E as [m [Hm Heq]].
    apply String.eqb_eq in Heq. now subst. }
  assert (Hids : forall v, In v (map snd categoryMapping) ->
            exists c, In c DEFAULT_CATEGORIES /\ v = Category.id c
                      /\ getCategoryById (Category.id c) = Some c
                      /\ migrateCategoryName (Category.id c) = JsString "personal").
  { intros v Hv. cbn [categoryMapping map snd] in Hv.
    assert (Hcases : v = "health"%string \/ v = "work"%string \/ v = "learning"%string
                     \/ v = "social"%string \/ v = "finance"%string
                     \/ v = "personal"%string)
      by (cbn [In] in Hv; intuition (subst; auto)).
    destruct Hcases as [-> | [-> | [-> | [-> | [-> | ->]]]]];
      [exists (nth 0 DEFAULT_CATEGORIES (Category.mkHabitCategory "" "" JsUndefined ""))
      |exists (nth 1 DEFAULT_CATEGORIES (Category.mkHabitCategory "" "" JsUndefined ""))
      |exists (nth 2 DEFAULT_CATEGORIES (Category.mkHabitCategory "" "" JsUndefined ""))
      |exists (nth 3 DEFAULT_CATEGORIES (Category.mkHabitCategory "" "" JsUndefined ""))
      |exists (nth 4 DEFAULT_CATEGORIES (Category.mkHabitCategory "" "" JsUndefined ""))
      |exists (nth 5 DEFAULT_CATEGORIES (Category.mkHabitCategory "" "" JsUndefined ""))];
      (split; [cbn; tauto |]); repeat split; reflexivity. }
  split; [| split].
  - intro Hout. unfold migrateCategoryName, getProperty.
    destruct (ownProperty categoryMapping oldCategoryName) as [v |] eqn:E.
    + destruct (Hids v (ownProperty_In _ _ _ E)) as [c (Hc & -> & Hfind & Hagain)].
      exists c. split; [exact Hc |]. split; [| split; assumption].
      unfold orElse. cbn [truthy].
      destruct (String.eqb (Category.id c) "") eqn:Eempty; [| reflexivity].
      apply String.eqb_eq in Eempty. rewrite Eempty in Hfind. discriminate.
    + rewrite (Hnot Hout).
      exists (nth 5 DEFAULT_CATEGORIES (Category.mkHabitCategory "" "" JsUndefined "")).
      split; [cbn; tauto |]. repeat split; reflexivity.
  - intros Hout Hunlisted. unfold migrateCategoryName, getProperty.
    now rewrite Hunlisted, (Hnot Hout).
  - intro Hin. unfold migrateCategoryName, getProperty.
    assert (Hown : ownProperty categoryMapping oldCategoryName = None).
    { cbn [objectPrototypeMembers In] in Hin.
      destruct Hin as [<- | [<- | [<- | [<- | [<- | [<- | [<- | [<- | [<- | [<- | [<- | [<- | []]]]]]]]]]]]];
        reflexivity. }
    rewrite Hown.
    replace (existsb (String.eqb oldCategoryName) objectPrototypeMembers) with true;
      [reflexivity |].
    symmetry. apply existsb_exists. exists oldCategoryName.
    split; [exact Hin | apply String.eqb_refl].
Qed.

(** ** The size of the window of getCompletionRate *)

Lemma scheduledElapsedDays_length_le (now : Date) (habit : Habit) (period : Period) :
  (List.length (scheduledElapsedDays now habit period)
   <= Z.to_nat ((now - periodStart now period) / MS_PER_DAY + 1))%nat.
Proof.
  unfold scheduledElapsedDays. cbv zeta.
  etransitivity; [apply filter_length_le |].
  rewrite getDateRange_days, consecutiveDays_length. unfold getDateRange_fuel.
  assert (Hend : rateEndDate now habit <= now).
  { unfold rateEndDate, getTime. cbv zeta.
    destruct (includes (completions habit) (getTodayString now)); lia. }
  assert (Hstart : periodStart now period <= effectiveStartDate now habit period)
    by (rewrite effectiveStartDate_max; lia).
  assert (Hdiv : (rateEndDate now habit - effectiveStartDate now habit period) / MS_PER_DAY
                 <= (now - periodStart now period) / MS_PER_DAY)
    by (apply Z.div_le_mono; [reflexivity | lia]).
  lia.
Qed.

(** X29: the completion rate is taken over a bounded window: at most 7
    scheduled elapsed days for the week, at most [n] for the last [n] days
    (none when [n] is not positive), and for the month (of a date outside
    the years 0 to 99) at most today's day of the month. *)
Theorem scheduledElapsedDays_window (now : Date) (habit : Habit) :
  (List.length (scheduledElapsedDays now habit Week) <= 7)%nat
  /\ (forall n, (List.length (scheduledElapsedDays now habit (Days n)) <= Z.to_nat n)%nat)
  /\ (getFullYear now < 0 \/ 99 < getFullYear now ->
      (List.length (scheduledElapsedDays now habit Month) <= Z.to_nat (getDate now))%nat
      /\ getDate now <= 31).
Proof.
  split; [| split].
  - etransitivity; [apply scheduledElapsedDays_length_le |].
    cbn [periodStart]. rewrite getWeekStart_back.
    pose proof (Z.mod_pos_bound (getDay now + 6) 7 ltac:(lia)) as Hk.
    set (k := (getDay now + 6) mod 7) in *.
    replace (now - (now + - k * MS_PER_DAY)) with (k * MS_PER_DAY) by lia.
    rewrite Z.div_mul by discriminate. lia.
  - intro n. etransitivity; [apply scheduledElapsedDays_length_le |].
    cbn [periodStart]. unfold getTime.
    replace (now - (now - (n - 1) * 24 * 60 * 60 * 1000)) with ((n - 1) * MS_PER_DAY)
      by (unfold MS_PER_DAY; lia).
    rewrite Z.div_mul by discriminate. lia.
  - intros _. pose proof (getDate_range now) as Hd. split; [| lia].
    etransitivity; [apply scheduledElapsedDays_length_le |].
    cbn [periodStart]. rewrite getMonthStart_dayIndex. unfold parseLocal.
    replace (now - (dayIndex now - (getDate now - 1)) * MS_PER_DAY)
      with (now + (getDate now - 1 - dayIndex now) * MS_PER_DAY) by lia.
    fold (dayIndex (now + (getDate now - 1 - dayIndex now) * MS_PER_DAY)).
    rewrite dayIndex_shift. lia.
Qed.

(** ** Completions dated after the day asked about *)

Lemma includes_until (done : list DateString) (limit d : DateString) :
  d <= limit ->
  includes (filter (fun c => c <=? limit) done) d = includes done d.
Proof.
  intro Hd. destruct (includes done d) eqn:E.
  - apply includes_In. apply includes_In in E. apply filter_In.
    split; [exact E | now apply Z.leb_le].
  - apply includes_not_In. apply includes_not_In in E.
    intro Hin. apply filter_In in Hin. tauto.
Qed.

Lemma scheduledStreak_loop_agree (fuel : nat) (now : Date) (days : list string)
  (sorted sorted' : list DateString) :
  forall (e : DateString) (streak : Z),
    (forall d, d <= e -> includes sorted d = includes sorted' d) ->
    scheduledStreak_loop fuel now days sorted (parseLocal e) streak
    = scheduledStreak_loop fuel now days sorted' (parseLocal e) streak.
Proof.
  induction fuel as [| fuel IH]; intros e streak Hagree; [reflexivity |].
  cbn [scheduledStreak_loop]. rewrite formatDate_parseLocal, setDate_prev, parseLocal_shift.
  rewrite (Hagree e ltac:(lia)).
  rewrite !(IH (e + -1)) by (intros d Hd; apply Hagree; lia).
  reflexivity.
Qed.

(** X30: for a habit with a schedule, the streak as of a given day does not
    depend on completions dated after that day: dropping them leaves the
    result unchanged.  (The daily branch is different: there a completion
    dated after the day asked about cuts the streak short.) *)
Theorem calculateStreak_scheduled_ignores_later (now : Date) (done : list DateString)
  (selectedDays : option (list string)) (targetDate : option DateString)
  (Hscheduled : noSchedule selectedDays = false) :
  calculateStreak now (filter (fun c => c <=? streakToday now targetDate) done)
    selectedDays targetDate
  = calculateStreak now done selectedDays targetDate.
Proof.
  destruct (List.length done =? 0)%nat eqn:Edone.
  { apply Nat.eqb_eq in Edone. destruct done; [reflexivity | discriminate]. }
  set (today := streakToday now targetDate).
  set (kept := filter (fun c => c <=? today) done).
  assert (Hagree : forall d, d <= today ->
            includes (sortBy (fun a b => localeCompare b a) kept) d
            = includes (sortBy (fun a b => localeCompare b a) done) d)
    by (intros d Hd; rewrite !includes_sortBy; now apply includes_until).
  assert (Hloop : forall streak,
    scheduledStreak_loop
      (scheduledStreak_fuel now (setDate (parseLocal today) (getDate (parseLocal today) - 1)))
      now (match selectedDays with Some days => days | None => [] end)
      (sortBy (fun a b => localeCompare b a) kept)
      (setDate (parseLocal today) (getDate (parseLocal today) - 1)) streak
    = scheduledStreak_loop
        (scheduledStreak_fuel now (setDate (parseLocal today) (getDate (parseLocal today) - 1)))
        now (match selectedDays with Some days => days | None => [] end)
        (sortBy (fun a b => localeCompare b a) done)
        (setDate (parseLocal today) (getDate (parseLocal today) - 1)) streak).
  { intro streak. rewrite setDate_prev, parseLocal_shift.
    apply scheduledStreak_loop_agree. intros d Hd. apply Hagree. lia. }
  unfold calculateStreak. cbv zeta. fold (streakToday now targetDate). fold today.
  rewrite Hscheduled, Edone.
  match goal with |- (if ?empty then 0 else _) = _ => destruct empty eqn:Ekept end.
  - (* nothing up to the day asked about: the walk finds no completed day *)
    apply Nat.eqb_eq in Ekept.
    assert (Hkept : kept = []) by (destruct kept; [reflexivity | discriminate]).
    rewrite <- Hloop, <- (Hagree today ltac:(lia)), Hkept.
    cbn [sortBy includes existsb]. rewrite andb_false_r.
    set (start := setDate (parseLocal today) (getDate (parseLocal today) - 1)).
    destruct (scheduledStreak_loop (scheduledStreak_fuel now start) now _ [] start 0)
      as [result |] eqn:Eloop; [| reflexivity].
    apply scheduledStreak_loop_run in Eloop. destruct Eloop as [k [-> Hcov]].
    rewrite scheduledCount_zero; [reflexivity |].
    intros i Hi.
    destruct (includesName _ (dayNameOf (parseLocal (formatDate start - Z.of_nat i)))) eqn:E;
      [destruct (Hcov i Hi E) | reflexivity].
  - rewrite Hloop, (Hagree today ltac:(lia)). reflexivity.
Qed.

Lemma calculateStreak_scheduled_ignores_later_witness :
  noSchedule (Some ["monday"; "wednesday"]%string) = false
  /\ calculateStreak sampleNow [ymd 2024 6 17; ymd 2024 6 19; ymd 2024 6 24]
       (Some ["monday"; "wednesday"]%string) (Some (ymd 2024 6 20))
     = calculateStreak sampleNow [ymd 2024 6 17; ymd 2024 6 19]
         (Some ["monday"; "wednesday"]%string) (Some (ymd 2024 6 20)).
Proof.
  assert (H : noSchedule (Some ["monday"; "wednesday"]%string) = false) by reflexivity.
  split; [exact H |].
  symmetry.
  apply (calculateStreak_scheduled_ignores_later sampleNow
           [ymd 2024 6 17; ymd 2024 6 19; ymd 2024 6 24]
           (Some ["monday"; "wednesday"]%string) (Some (ymd 2024 6 20)) H).
Defined.
